(** * node-omnibus-server: a shallow embedding of [src/index.ts]

    The server answers three families of requests (tools, resources, prompts).
    The development has these parts:

    - [JsString], [JsValue]: the JavaScript strings and JSON values the
      handlers manipulate, with the few built-in operations the source applies
      to them (trim, split, join, toLowerCase, property reads, object spread,
      template-literal interpolation);
    - [Runtime]: what Node.js and the MCP SDK provide (the [fs], [path],
      [child_process], [URL] and [JSON] entry points the source calls);
    - the server monad [M]: explicit passing of the operating-system state, the
      [projectDocs] map and a log of every primitive call, with exceptions;
    - the handlers, one definition per method of [NodeOmnibusServer];
    - an in-memory runtime used to run the handlers on concrete requests;
    - the properties of the handlers, with closed runs at the end. *)

From Stdlib Require Import ZArith Ascii String List.
From stdpp Require Import base option strings list gmap pretty.

Local Open Scope Z_scope.
Local Open Scope stdpp_scope.
Set Warnings "-register-all".

(** ** JavaScript strings

    A string is a sequence of UTF-16 code units; the model keeps the code units
    below 256, one [ascii] each. *)
Module JsString.

(** The double-quote character. *)
Definition dq : string := String (ascii_of_nat 34) EmptyString.

(** Line feed, written [\n] in the source. *)
Definition nl : string := String (ascii_of_nat 10) EmptyString.

(** White space and line terminators stripped by [String.prototype.trim]:
    TAB, LF, VT, FF, CR, SP and NBSP. *)
Definition is_whitespace (c : ascii) : bool :=
  let n := nat_of_ascii c in
  bool_decide (n ∈ [9; 10; 11; 12; 13; 32; 160]%nat).

Fixpoint trimStart (s : string) : string :=
  match s with
  | String c s' => if is_whitespace c then trimStart s' else s
  | EmptyString => EmptyString
  end.

(** [trimEnd] keeps a character when it is not white space or when
    something remains after it. *)
Fixpoint trimEnd (s : string) : string :=
  match s with
  | String c s' =>
      match trimEnd s' with
      | EmptyString => if is_whitespace c then EmptyString else String c EmptyString
      | r => String c r
      end
  | EmptyString => EmptyString
  end.

(** [s.trim()] *)
Definition trim (s : string) : string := trimEnd (trimStart s).

(** [s.split(sep)] for a one-character separator: the pieces between the
    occurrences of [sep]; the empty string gives one empty piece. *)
Fixpoint split (sep : ascii) (s : string) : list string :=
  match s with
  | EmptyString => [EmptyString]
  | String c s' =>
      if bool_decide (c = sep) then EmptyString :: split sep s'
      else match split sep s' with
           | piece :: rest => String c piece :: rest
           | [] => [String c EmptyString]
           end
  end.

(** [pieces.join(sep)] *)
Fixpoint join (sep : string) (pieces : list string) : string :=
  match pieces with
  | [] => EmptyString
  | [p] => p
  | p :: rest => p +:+ sep +:+ join sep rest
  end.

(** [array.includes(x)] on an array of strings. *)
Definition includes (l : list string) (x : string) : bool :=
  bool_decide (x ∈ l).

(** Lower-casing of one code unit: A-Z, and the Latin-1 capitals
    U+00C0..U+00DE except the multiplication sign U+00D7. *)
Definition lower_char (c : ascii) : ascii :=
  let n := nat_of_ascii c in
  if bool_decide (65 ≤ n ≤ 90)%nat then ascii_of_nat (n + 32)
  else if bool_decide (192 ≤ n ≤ 222 ∧ n ≠ 215)%nat then ascii_of_nat (n + 32)
  else c.

(** [s.toLowerCase()] *)
Fixpoint toLowerCase (s : string) : string :=
  match s with
  | EmptyString => EmptyString
  | String c s' => String (lower_char c) (toLowerCase s')
  end.

(** [s.startsWith(p)], with the rest of [s] after the prefix. *)
Fixpoint strip_prefix (p s : string) : option string :=
  match p, s with
  | EmptyString, _ => Some s
  | String a p', String b s' =>
      if bool_decide (a = b) then strip_prefix p' s' else None
  | String _ _, EmptyString => None
  end.

(** [s.includes(t)] on strings: [t] occurs somewhere in [s]. *)
Fixpoint has_substring (t s : string) : bool :=
  match strip_prefix t s with
  | Some _ => true
  | None => match s with
            | EmptyString => false
            | String _ s' => has_substring t s'
            end
  end.

(** The propositional reading of [has_substring]. *)
Definition contains (s t : string) : Prop :=
  ∃ before after, s = before +:+ t +:+ after.

(** The characters of a string, as one-character strings
    (what [Object.entries] and object spread see of a string). *)
Fixpoint chars (s : string) : list string :=
  match s with
  | EmptyString => []
  | String c s' => String c EmptyString :: chars s'
  end.

End JsString.

(** ** JavaScript values

    The values that reach the handlers come from JSON: request arguments and
    the contents of [package.json] and [tsconfig.json].  Numbers are kept to
    the integers.  An object is the list of its own enumerable properties in
    enumeration order, each key once. *)
Module JsValue.
Import JsString.

Inductive value : Type :=
| VUndefined
| VNull
| VBool (b : bool)
| VNumber (n : Z)
| VString (s : string)
| VArray (elements : list value)
| VObject (props : list (string * value)).

(** Truthiness, as tested by [if (x)], [!x], [x ? a : b] and [x || y]. *)
Definition truthy (v : value) : bool :=
  match v with
  | VUndefined | VNull => false
  | VBool b => b
  | VNumber n => negb (n =? 0)
  | VString s => negb (bool_decide (s = EmptyString))
  | VArray _ | VObject _ => true
  end.

(** [a || b] *)
Definition or_else (a b : value) : value := if truthy a then a else b.

(** [v !== false] *)
Definition is_not_false (v : value) : bool :=
  match v with
  | VBool false => false
  | _ => true
  end.

(** Whether the key is an own property. *)
Definition has_prop (k : string) (props : list (string * value)) : bool :=
  bool_decide (k ∈ props.*1).

(** Own property lookup in a property list. *)
Fixpoint lookup_prop (k : string) (props : list (string * value)) : option value :=
  match props with
  | [] => None
  | (k', v) :: rest => if bool_decide (k = k') then Some v else lookup_prop k rest
  end.

(** Defining an own property whose key is not an array index (the keys
    that the source itself names, [scripts] and [compilerOptions], and the
    keys copied by a spread in the order of their source): an existing key
    keeps its place and takes the new value, a new key goes last. *)
Fixpoint set_prop (k : string) (v : value) (props : list (string * value))
  : list (string * value) :=
  match props with
  | [] => [(k, v)]
  | (k', v') :: rest =>
      if bool_decide (k = k') then (k, v) :: rest
      else (k', v') :: set_prop k v rest
  end.

(** The number written by a string of decimal digits. *)
Fixpoint numeral (acc : N) (s : string) : option N :=
  match s with
  | EmptyString => Some acc
  | String c s' =>
      let n := N_of_ascii c in
      if ((48 <=? n) && (n <=? 57))%N then numeral (10 * acc + (n - 48))%N s' else None
  end.

(** The array index that a property key denotes, if it denotes one: the
    key is the decimal numeral, without leading zero, of an integer from 0
    to 2^32 - 2.  Such keys are enumerated before the others, in ascending
    order, whenever they were defined. *)
Definition array_index (k : string) : option N :=
  match k with
  | EmptyString => None
  | String c rest =>
      if bool_decide (c = "0"%char) && negb (bool_decide (rest = EmptyString)) then None
      else match numeral 0 k with
           | Some n => if (n <? 4294967295)%N then Some n else None
           | None => None
           end
  end.

(** The place of a new array-index key: after the smaller indices, before
    every other property. *)
Fixpoint insert_index (n : N) (k : string) (v : value) (props : list (string * value))
  : list (string * value) :=
  match props with
  | [] => [(k, v)]
  | (k', v') :: rest =>
      match array_index k' with
      | Some m => if (m <? n)%N then (k', v') :: insert_index n k v rest
                  else (k, v) :: props
      | None => (k, v) :: props
      end
  end.

(** Defining an own property under a key chosen by the caller, [o[k] = v]:
    an existing key keeps its place and takes the new value; a new
    array-index key goes to its place among the indices; any other new key
    goes last. *)
Definition define_prop (k : string) (v : value) (props : list (string * value))
  : list (string * value) :=
  if has_prop k props then set_prop k v props
  else match array_index k with
       | Some n => insert_index n k v props
       | None => set_prop k v props
       end.

(** Pairs each element with its index, written in decimal. *)
Fixpoint indexed {A : Type} (i : nat) (l : list A) : list (string * A) :=
  match l with
  | [] => []
  | x :: rest => (pretty i, x) :: indexed (S i) rest
  end.

(** The own enumerable string-keyed properties of a value: what
    [Object.entries(v)] lists and what [{...v}] copies.  Spreading
    [undefined] or [null] copies nothing; the source applies
    [Object.entries] to truthy values only. *)
Definition own_entries (v : value) : list (string * value) :=
  match v with
  | VObject props => props
  | VArray elements => indexed 0 elements
  | VString s => indexed 0 (VString <$> chars s)
  | VUndefined | VNull | VBool _ | VNumber _ => []
  end.

(** Copying properties into an object under construction, in order. *)
Definition copy_props (target source : list (string * value)) : list (string * value) :=
  foldl (λ acc kv, set_prop kv.1 kv.2 acc) target source.

(** The object literal [{ ...a, ...b }]. *)
Definition spread2 (a b : value) : value :=
  VObject (copy_props (copy_props [] (own_entries a)) (own_entries b)).

(** The property read [v.k] for a key [k] that no built-in prototype
    defines (every key the source reads is such a key).  [None] is the
    TypeError raised on [undefined] and [null]. *)
Definition get (v : value) (k : string) : option value :=
  match v with
  | VUndefined | VNull => None
  | VObject props => Some (default VUndefined (lookup_prop k props))
  | VBool _ | VNumber _ | VString _ | VArray _ => Some VUndefined
  end.

(** The assignment [v.k = x] in strict mode (the source is an ES module),
    as far as [JSON.stringify] can later observe it: an object gets the
    property, an array is serialised without its named properties, and a
    primitive, [undefined] or [null] raises a TypeError ([None]). *)
Definition put (v : value) (k : string) (x : value) : option value :=
  match v with
  | VObject props => Some (VObject (set_prop k x props))
  | VArray elements => Some (VArray elements)
  | VUndefined | VNull | VBool _ | VNumber _ | VString _ => None
  end.

(** The string conversion of a template literal, [`${v}`].  An array is
    joined with commas, [undefined] and [null] elements giving the empty
    string.  An object from JSON converts to ["[object Object]"], unless an
    own property hides [toString]: that property is not callable, and the
    conversion raises a TypeError ([None]). *)
Fixpoint toString (v : value) : option string :=
  match v with
  | VUndefined => Some "undefined"
  | VNull => Some "null"
  | VBool b => Some (if b then "true" else "false")
  | VNumber n => Some (pretty n)
  | VString s => Some s
  | VArray elements =>
      let fix each (l : list value) : option (list string) :=
        match l with
        | [] => Some []
        | x :: rest =>
            match (match x with
                   | VUndefined | VNull => Some EmptyString
                   | _ => toString x
                   end), each rest with
            | Some s, Some ss => Some (s :: ss)
            | _, _ => None
            end
        end in
      join "," <$> each elements
  | VObject props =>
      match lookup_prop "toString" props with
      | Some _ => None
      | None => Some "[object Object]"
      end
  end.

End JsValue.

Export JsString JsValue.

(** ** Protocol errors and exceptions *)

(** The members of the SDK's [ErrorCode] that the source uses. *)
Inductive ErrorCode : Type := MethodNotFound | InvalidParams | InternalError.

#[global] Instance ErrorCode_eq_dec : EqDecision ErrorCode.
Proof. solve_decision. Defined.

(** What a handler can throw: a protocol error built with
    [new McpError(code, message)], or any other [Error] (a TypeError of the
    language, a SyntaxError of [JSON.parse], a rejection of [fs] or
    [child_process]) with its message. *)
Inductive exn : Type :=
| McpError (code : ErrorCode) (message : string)
| NativeError (message : string).

(** The result of a tool call, [{ content: [{ type: 'text', text }] }]. *)
Inductive ToolResult : Type := TextContent (text : string).

(** The result of reading a resource,
    [{ contents: [{ uri, mimeType: 'text/markdown', text }] }]. *)
Record ResourceContents : Type := { contents_uri : string; contents_text : string }.

(** One prompt message, [{ role: 'user', content: { type: 'text', text } }]. *)
Inductive PromptMessage : Type := UserText (text : string).

(** ** The runtime

    The entry points of Node.js and of the MCP SDK that the source calls.
    Their code is not part of the repository; the handlers are defined, and
    the theorems proved, for every runtime.  An operation on the operating
    system takes the system's state and returns the next one with either the
    message of the error it rejects with or its result. *)
Class Runtime : Type := {
  OS : Type;
  (** [error.message] of [new McpError(code, message)]. *)
  mcp_message : ErrorCode → string → string;
  (** [path.join(a, b)] and [path.basename(p)]. *)
  path_join : string → string → string;
  path_basename : string → string;
  (** [new URL(uri).hostname], or the message of the TypeError thrown. *)
  url_hostname : string → string + string;
  (** [JSON.parse(text)], or the message of the SyntaxError thrown. *)
  JSON_parse : string → string + value;
  (** [JSON.stringify(v, null, 2)]. *)
  JSON_stringify : value → string;
  (** [a[key] = x] on an array with a key chosen by the caller (an index, a
      name, [length]), as [JSON.stringify] later sees the array; [None] when
      the assignment throws. *)
  array_put : list value → string → value → option (list value);
  (** [fs.access(p)], [fs.mkdir(p, { recursive: true })],
      [(await fs.stat(p)).isDirectory()], [fs.readFile(p, 'utf-8')] and
      [fs.writeFile(p, data)]. *)
  fs_access : string → OS → (string + unit) * OS;
  fs_mkdir : string → OS → (string + unit) * OS;
  fs_stat_isDirectory : string → OS → (string + bool) * OS;
  fs_readFile : string → OS → (string + string) * OS;
  fs_writeFile : string → string → OS → (string + unit) * OS;
  (** [promisify(exec)(command, { cwd })], resolving to [{ stdout, stderr }]. *)
  exec : string → string → OS → (string + (string * string)) * OS;
}.

(** A call of the server into the operating system. *)
Inductive Call : Type :=
| Access (path : string)
| Mkdir (path : string)
| Stat (path : string)
| ReadFile (path : string)
| WriteFile (path data : string)
| Exec (command cwd : string).

#[global] Instance Call_eq_dec : EqDecision Call.
Proof. solve_decision. Defined.

(** ** Tool arguments

    One record per argument interface of the source (lines 24-70).  The
    [type] fields are strings and [typescript] is any value: the source
    itself tests them at run time.  The [properties] of a type definition
    may be absent ([undefined] or [null]): the source hands them to
    [Object.entries] outside any [try]. *)
Module CreateProjectArgs.
Record t : Type := { name : string; type : string; path : string; typescript : value }.
End CreateProjectArgs.

Module InstallPackageArgs.
Record t : Type := { packages : list string; path : string; dev : bool }.
End InstallPackageArgs.

Module GenerateComponentArgs.
Record t : Type :=
  { name : string; path : string; type : string; props : option (list (string * string)) }.
End GenerateComponentArgs.

Module CreateTypeDefinitionArgs.
Record t : Type :=
  { name : string; path : string; properties : option (list (string * string)) }.
End CreateTypeDefinitionArgs.

Module AddScriptArgs.
Record t : Type := { path : string; name : string; command : string }.
End AddScriptArgs.

Module UpdateTsConfigArgs.
Record t : Type := { path : string; options : value }.
End UpdateTsConfigArgs.

Module CreateDocumentationArgs.
Record t : Type := { path : string; type : string; name : option string }.
End CreateDocumentationArgs.

(** The argument object of a tool request, [request.params.arguments],
    when the request has one, with its reading through each interface
    ([args as CreateProjectArgs], ...).  A request without arguments is
    [None] in [callToolRequest] below. *)
Record ToolArguments : Type := {
  as_CreateProjectArgs : CreateProjectArgs.t;
  as_InstallPackageArgs : InstallPackageArgs.t;
  as_GenerateComponentArgs : GenerateComponentArgs.t;
  as_CreateTypeDefinitionArgs : CreateTypeDefinitionArgs.t;
  as_AddScriptArgs : AddScriptArgs.t;
  as_UpdateTsConfigArgs : UpdateTsConfigArgs.t;
  as_CreateDocumentationArgs : CreateDocumentationArgs.t;
}.

(** ** Property tables

    [templates] and [this.prompts] are plain objects indexed by a string of
    the request: [table[key]] finds the table's own property, else a member
    inherited from [Object.prototype], else [undefined]. *)
Inductive Property (A : Type) : Type :=
| Own (a : A)
| Inherited (member : string).
Arguments Own {A} a.
Arguments Inherited {A} member.

Definition object_prototype_members : list string :=
  [ "constructor"; "__defineGetter__"; "__defineSetter__"; "hasOwnProperty";
    "__lookupGetter__"; "__lookupSetter__"; "isPrototypeOf";
    "propertyIsEnumerable"; "toString"; "valueOf"; "__proto__"; "toLocaleString" ].

Fixpoint assoc {A : Type} (key : string) (table : list (string * A)) : option A :=
  match table with
  | [] => None
  | (k, a) :: rest => if bool_decide (key = k) then Some a else assoc key rest
  end.

(** [table[key]]; [None] is [undefined], everything else is truthy. *)
Definition property {A : Type} (table : list (string * A)) (key : string) : option (Property A) :=
  match assoc key table with
  | Some a => Some (Own a)
  | None => if bool_decide (key ∈ object_prototype_members) then Some (Inherited key) else None
  end.

(** A project template (source lines 562-571). *)
Record Template : Type := {
  command : string;
  dependencies : list string;
  devDependencies : list string;
}.

(** A prompt and its declared arguments (source lines 78-82). *)
Record PromptArgument : Type := {
  arg_name : string;
  arg_description : string;
  required : bool;
}.

Record Prompt : Type := {
  prompt_name : string;
  prompt_description : string;
  arguments : list PromptArgument;
}.

(** ** The pattern [/interface (\w+)Props {([^}]+)}/] (source line 1099)

    [match_props str] is the second capture group of the first match, the
    text between the braces.  A match at a position reads ["interface "], a
    run of word characters, ["Props {"], a non-empty run of characters other
    than the closing brace, and the closing brace.  The greedy [\w+] first
    takes the longest run and gives characters back one at a time; the greedy
    [[^}]+] can only stop at a closing brace or at the end of the text. *)
Module PropsPattern.

Definition is_word_char (c : ascii) : bool :=
  let n := nat_of_ascii c in
  bool_decide ((48 ≤ n ≤ 57) ∨ (65 ≤ n ≤ 90) ∨ n = 95 ∨ (97 ≤ n ≤ 122))%nat.

Definition is_not_brace (c : ascii) : bool :=
  negb (bool_decide (c = "}"%char)).

(** The longest prefix whose characters satisfy [p], and the rest. *)
Fixpoint span (p : ascii → bool) (s : string) : string * string :=
  match s with
  | String c s' =>
      if p c then let '(a, b) := span p s' in (String c a, b)
      else (EmptyString, s)
  | EmptyString => (EmptyString, EmptyString)
  end.

Fixpoint skip (n : nat) (s : string) : string :=
  match n, s with
  | S n', String _ s' => skip n' s'
  | _, _ => s
  end.

(** [{([^}]+)}] after ["Props "]: the body, when a brace closes it. *)
Definition body (s : string) : option string :=
  match strip_prefix "Props {" s with
  | None => None
  | Some s' =>
      let '(b, rest) := span is_not_brace s' in
      match b, rest with
      | String _ _, String _ _ => Some b
      | _, _ => None
      end
  end.

(** [\w+] taking [k] characters, then [k - 1], ... down to one. *)
Fixpoint name_then_body (k : nat) (s : string) : option string :=
  match k with
  | O => None
  | S k' =>
      match body (skip k s) with
      | Some b => Some b
      | None => name_then_body k' s
      end
  end.

Definition match_here (s : string) : option string :=
  match strip_prefix "interface " s with
  | None => None
  | Some s' => name_then_body (String.length (span is_word_char s').1) s'
  end.

Fixpoint match_props (s : string) : option string :=
  match match_here s with
  | Some b => Some b
  | None => match s with
            | String _ s' => match_props s'
            | EmptyString => None
            end
  end.

End PropsPattern.

(** A template text, one line per element. *)
Definition lines (l : list string) : string := join nl l.

Section Server.
Context {rt : Runtime}.

(** ** Server state and the handler monad *)

(** The state a handler runs in: the operating system, the [projectDocs]
    map of the server object, and the log of the calls made so far, oldest
    first (the log is there for the specifications only). *)
Record ServerState : Type := {
  os : OS;
  projectDocs : gmap string string;
  calls : list Call;
}.

(** An [async] method: from a state, an exception or a result, and the
    state it leaves. *)
Definition M (A : Type) : Type := ServerState → (exn + A) * ServerState.

#[export] Instance M_ret : MRet M := λ A a st, (inr a, st).

#[export] Instance M_bind : MBind M := λ A B f m st,
  match m st with
  | (inr a, st') => f a st'
  | (inl e, st') => (inl e, st')
  end.

(** [throw e] *)
Definition throw {A : Type} (e : exn) : M A := λ st, (inl e, st).

(** [try { body } catch (error) { handler }] *)
Definition try_catch {A : Type} (body : M A) (handler : exn → M A) : M A := λ st,
  match body st with
  | (inr a, st') => (inr a, st')
  | (inl e, st') => handler e st'
  end.

(** A value computed by a language operation that may raise a TypeError. *)
Definition or_throw {A : Type} (o : option A) (e : exn) : M A :=
  match o with
  | Some a => mret a
  | None => throw e
  end.

(** An awaited call into the operating system: logged, then performed. *)
Definition syscall {A : Type} (c : Call) (op : OS → (string + A) * OS) : M A := λ st,
  let '(r, os') := op (os st) in
  let st' := {| os := os'; projectDocs := projectDocs st; calls := calls st ++ [c] |} in
  match r with
  | inr a => (inr a, st')
  | inl message => (inl (NativeError message), st')
  end.

Definition access (p : string) : M unit := syscall (Access p) (fs_access p).
Definition mkdir (p : string) : M unit := syscall (Mkdir p) (fs_mkdir p).
Definition stat_isDirectory (p : string) : M bool := syscall (Stat p) (fs_stat_isDirectory p).
Definition readFile (p : string) : M string := syscall (ReadFile p) (fs_readFile p).
Definition writeFile (p data : string) : M unit := syscall (WriteFile p data) (fs_writeFile p data).
Definition execAsync (command cwd : string) : M (string * string) :=
  syscall (Exec command cwd) (exec command cwd).

(** [this.projectDocs.get(id)] and [this.projectDocs.set(id, content)]. *)
Definition docs_get (id : string) : M (option string) := λ st, (inr (projectDocs st !! id), st).
Definition docs_set (id content : string) : M unit := λ st,
  (inr tt, {| os := os st; projectDocs := <[id := content]> (projectDocs st); calls := calls st |}).

(** [error instanceof Error ? error.message : String(error)]; every thrown
    value of the model is an [Error]. *)
Definition error_message (e : exn) : string :=
  match e with
  | McpError code message => mcp_message code message
  | NativeError message => message
  end.

(** [error instanceof McpError] *)
Definition is_McpError (e : exn) : bool :=
  match e with
  | McpError _ _ => true
  | NativeError _ => false
  end.

(** ** [validatePath] (source lines 534-560) *)
Definition validatePath (path : string) : M unit :=
  try_catch
    (existed ← try_catch (access path ;; mret true)
                         (λ _, mkdir path ;; mret false);
     if existed : bool then
       isDirectory ← stat_isDirectory path;
       if negb isDirectory then
         throw (McpError InvalidParams ("Path " +:+ path +:+ " exists but is not a directory"))
       else mret tt
     else mret tt)
    (λ error,
       if is_McpError error then throw error
       else throw (McpError InvalidParams
                     ("Failed to validate/create path " +:+ path +:+ ": " +:+ error_message error))).


(** ** [create_project] (source lines 562-731) *)

Definition templates (typescript : bool) : list (string * Template) :=
  [ ("react",
     {| command := if typescript then "npx create-react-app ./ --template typescript"
                   else "npx create-react-app ./";
        dependencies := ["react"; "react-dom"];
        devDependencies := if typescript then ["@types/react"; "@types/react-dom"; "@types/node"]
                           else [] |});
    ("next",
     {| command := "npx create-next-app@latest ./ "
                     +:+ (if typescript then "--typescript" else "")
                     +:+ " --tailwind --eslint";
        dependencies := ["next"; "react"; "react-dom"];
        devDependencies := if typescript then ["@types/node"; "@types/react"; "@types/react-dom"]
                           else [] |});
    ("express",
     {| command := "npm init -y";
        dependencies := ["express"; "cors"; "dotenv"];
        devDependencies :=
          if typescript
          then ["typescript"; "@types/node"; "@types/express"; "@types/cors"; "ts-node"; "nodemon"]
          else ["nodemon"] |});
    ("fastify",
     {| command := "npm init -y";
        dependencies := ["fastify"; "@fastify/cors"; "@fastify/env"];
        devDependencies := if typescript then ["typescript"; "@types/node"; "ts-node"; "nodemon"]
                           else ["nodemon"] |});
    ("node",
     {| command := "npm init -y";
        dependencies := [];
        devDependencies := if typescript then ["typescript"; "@types/node"; "ts-node"; "nodemon"]
                           else ["nodemon"] |}) ].

(** [getProjectTemplate(type, name, typescript)]: the value of
    [templates[type]] when it is truthy, else an [InvalidParams] error. *)
Definition getProjectTemplate (type name : string) (typescript : bool)
  : exn + Property Template :=
  match property (templates typescript) type with
  | Some template => inr template
  | None => inl (McpError InvalidParams ("Unsupported project type: " +:+ type))
  end.

(** The compiler configuration written for a TypeScript project. *)
Definition tsConfig (type : string) : value :=
  VObject
    [ ("compilerOptions",
       VObject
         [ ("target", VString "es2020");
           ("module", VString "commonjs");
           ("outDir", VString "./dist");
           ("rootDir", VString "./src");
           ("strict", VBool true);
           ("esModuleInterop", VBool true);
           ("skipLibCheck", VBool true);
           ("forceConsistentCasingInFileNames", VBool true);
           ("jsx", if bool_decide (type = "react") || bool_decide (type = "next")
                   then VString "react-jsx" else VUndefined) ]);
      ("include", VArray [VString "src/**/*"]);
      ("exclude", VArray [VString "node_modules"; VString "dist"]) ].

Definition generateReadme (name type : string) (typescript : bool) : string :=
  lines
    [ "# " +:+ name;
      "";
      "## Description";
      "A " +:+ type +:+ " project using "
        +:+ (if typescript then "TypeScript" else "JavaScript") +:+ ".";
      "";
      "## Setup";
      "```bash";
      "npm install";
      "```";
      "";
      "## Development";
      "```bash";
      "npm run dev";
      "```";
      "";
      "## Build";
      "```bash";
      "npm run build";
      "```";
      "";
      "## Project Structure";
      "- `src/` - Source files";
      (if typescript then "- `dist/` - Compiled output" +:+ nl else "");
      "- `public/` - Static assets";
      "- `package.json` - Project configuration";
      (if typescript then "- `tsconfig.json` - TypeScript configuration" +:+ nl else "");
      "";
      "## Scripts";
      "- `npm run dev` - Start development server";
      "- `npm run build` - Build for production";
      "- `npm start` - Start production server";
      "" ].

(** [if (list.length > 0) await execAsync(prefix + list.join(' '), { cwd })] *)
Definition install (prefix : string) (packages : list string) (cwd : string) : M unit :=
  match packages with
  | [] => mret tt
  | _ :: _ => execAsync (prefix +:+ join " " packages) cwd ;; mret tt
  end.

(** The steps that follow the template lookup.  A member inherited from
    [Object.prototype] has no [command] property: [exec] rejects the
    [undefined] command with a TypeError before it starts any process. *)
Definition scaffold (args : CreateProjectArgs.t) (projectPath : string)
    (typescript : bool) (template : Property Template) : M ToolResult :=
  let name := CreateProjectArgs.name args in
  let type := CreateProjectArgs.type args in
  match template with
  | Inherited _ =>
      throw (NativeError
               ("The " +:+ dq +:+ "command" +:+ dq
                  +:+ " argument must be of type string. Received undefined"))
  | Own template =>
      execAsync (command template) projectPath ;;
      install "npm install " (dependencies template) projectPath ;;
      install "npm install --save-dev " (devDependencies template) projectPath ;;
      (if typescript then
         mkdir (path_join projectPath "src") ;;
         writeFile (path_join projectPath "tsconfig.json") (JSON_stringify (tsConfig type))
       else mret tt) ;;
      let readmeContent := generateReadme name type typescript in
      writeFile (path_join projectPath "README.md") readmeContent ;;
      docs_set name readmeContent ;;
      mret (TextContent
              ("Project " +:+ name +:+ " created successfully with "
                 +:+ (if typescript then "TypeScript" else "JavaScript") +:+ " configuration"))
  end.

Definition handleCreateProject (args : CreateProjectArgs.t) : M ToolResult :=
  try_catch
    (let projectPath := path_join (CreateProjectArgs.path args) (CreateProjectArgs.name args) in
     mkdir projectPath ;;
     let typescript := is_not_false (CreateProjectArgs.typescript args) in
     match getProjectTemplate (CreateProjectArgs.type args) (CreateProjectArgs.name args) typescript with
     | inl error => throw error
     | inr template => scaffold args projectPath typescript template
     end)
    (λ error,
       throw (McpError InternalError ("Failed to create project: " +:+ error_message error))).

(** ** [generate_component] (source lines 733-852) *)

(** [Object.entries(props).map(([key, type]) => `${key}: ${type};`)] *)
Definition field_lines (entries : list (string * string)) : list string :=
  (λ kt, kt.1 +:+ ": " +:+ kt.2 +:+ ";") <$> entries.

(** The interface block, shared with [create_type_definition]:
    [`${head} {\n    ${fields.join('\n    ')}\n}`]. *)
Definition interface_block (head : string) (entries : list (string * string)) : string :=
  head +:+ " {" +:+ nl +:+ "    " +:+ join (nl +:+ "    ") (field_lines entries) +:+ nl +:+ "}".

Definition propsInterface (args : GenerateComponentArgs.t) : string :=
  match GenerateComponentArgs.props args with
  | Some props => interface_block ("interface " +:+ GenerateComponentArgs.name args +:+ "Props") props
  | None => ""
  end.

Definition generateComponentContent (args : GenerateComponentArgs.t) : string :=
  let name := GenerateComponentArgs.name args in
  if bool_decide (GenerateComponentArgs.type args = "functional") then
    lines
      [ "import React from 'react';";
        "";
        propsInterface args;
        "";
        match GenerateComponentArgs.props args with
        | Some props =>
            "const " +:+ name +:+ ": React.FC<" +:+ name +:+ "Props> = ({ "
              +:+ join ", " props.*1 +:+ " }) => {"
        | None => "const " +:+ name +:+ ": React.FC = () => {"
        end;
        "    return (";
        "        <div>";
        "            {/* Add your component content here */}";
        "        </div>";
        "    );";
        "};";
        "";
        "export default " +:+ name +:+ ";";
        "" ]
  else
    lines
      [ "import React, { Component } from 'react';";
        "";
        propsInterface args;
        "";
        "class " +:+ name +:+ " extends Component"
          +:+ match GenerateComponentArgs.props args with
              | Some _ => "<" +:+ name +:+ "Props>"
              | None => ""
              end
          +:+ " {";
        "    render() {";
        "        return (";
        "            <div>";
        "                {/* Add your component content here */}";
        "            </div>";
        "        );";
        "    }";
        "}";
        "";
        "export default " +:+ name +:+ ";";
        "" ].

Definition getExampleValue (type : string) : string :=
  let t := toLowerCase type in
  if bool_decide (t = "string") then dq +:+ "example" +:+ dq
  else if bool_decide (t = "number") then "42"
  else if bool_decide (t = "boolean") then "true"
  else if bool_decide (t = "array") || bool_decide (t = "string[]")
       then "[" +:+ dq +:+ "item1" +:+ dq +:+ ", " +:+ dq +:+ "item2" +:+ dq +:+ "]"
  else if bool_decide (t = "object") then "{ key: " +:+ dq +:+ "value" +:+ dq +:+ " }"
  else "undefined".

Definition generateComponentDocumentation (args : GenerateComponentArgs.t) : string :=
  let name := GenerateComponentArgs.name args in
  lines
    [ "# " +:+ name +:+ " Component";
      "";
      "## Overview";
      (if bool_decide (GenerateComponentArgs.type args = "functional")
       then "A functional React component" else "A class-based React component");
      "";
      "## Props";
      match GenerateComponentArgs.props args with
      | Some props => join nl ((λ kt, "- `" +:+ kt.1 +:+ "`: " +:+ kt.2) <$> props)
      | None => "This component does not accept any props."
      end;
      "";
      "## Usage";
      "```tsx";
      "import " +:+ name +:+ " from './" +:+ name +:+ "';";
      "";
      match GenerateComponentArgs.props args with
      | Some props =>
          "// Example usage with props" +:+ nl +:+ "<" +:+ name +:+ " "
            +:+ join " " ((λ kt, kt.1 +:+ "={" +:+ getExampleValue kt.2 +:+ "}") <$> props)
            +:+ " />"
      | None => "// Example usage" +:+ nl +:+ "<" +:+ name +:+ " />"
      end;
      "```";
      "" ].

Definition handleGenerateComponent (args : GenerateComponentArgs.t) : M ToolResult :=
  let name := GenerateComponentArgs.name args in
  let path := GenerateComponentArgs.path args in
  validatePath path ;;
  let componentContent := generateComponentContent args in
  let fileName := name +:+ ".tsx" in
  let filePath := path_join path fileName in
  try_catch
    (writeFile filePath componentContent ;;
     let docContent := generateComponentDocumentation args in
     let docPath := path_join path (name +:+ ".md") in
     writeFile docPath docContent ;;
     mret (TextContent ("Component " +:+ name +:+ " created successfully at " +:+ filePath)))
    (λ error,
       throw (McpError InternalError ("Failed to generate component: " +:+ error_message error))).

(** ** [create_type_definition] (source lines 854-882) *)

(** The TypeError of [Object.entries] on [undefined] or [null] (wording of
    V8; no statement depends on it). *)
Definition cannot_list : exn := NativeError "Cannot convert undefined or null to object".

Definition handleCreateTypeDefinition (args : CreateTypeDefinitionArgs.t) : M ToolResult :=
  let name := CreateTypeDefinitionArgs.name args in
  let path := CreateTypeDefinitionArgs.path args in
  validatePath path ;;
  properties ← or_throw (CreateTypeDefinitionArgs.properties args) cannot_list;
  let typeContent := interface_block ("export interface " +:+ name) properties +:+ nl in
  let filePath := path_join path (name +:+ ".ts") in
  try_catch
    (writeFile filePath typeContent ;;
     mret (TextContent ("Type definition " +:+ name +:+ " created successfully at " +:+ filePath)))
    (λ error,
       throw (McpError InternalError ("Failed to create type definition: " +:+ error_message error))).

(** ** [add_script] (source lines 884-913) *)

(** The TypeError of a property read on [undefined] or [null], and of a
    property write on one of them or on a primitive (wording of V8; no
    statement depends on it). *)
Definition cannot_read (key : string) : exn :=
  NativeError ("Cannot read properties of null (reading '" +:+ key +:+ "')").
Definition cannot_set (key : string) : exn :=
  NativeError ("Cannot create property '" +:+ key +:+ "'").
Definition cannot_convert : exn :=
  NativeError "Cannot convert object to primitive value".

(** [scripts[name] = command]: on an object the property is defined, except
    that the key [__proto__], when not an own property, reaches the setter
    of [Object.prototype], which ignores a string; on an array the runtime
    decides; a primitive raises a TypeError. *)
Definition put_dynamic (scripts : value) (name : string) (command : string)
  : option value :=
  match scripts with
  | VObject props =>
      if bool_decide (name = "__proto__") && negb (has_prop name props)
      then Some scripts
      else Some (VObject (define_prop name (VString command) props))
  | VArray elements => VArray <$> array_put elements name (VString command)
  | VUndefined | VNull | VBool _ | VNumber _ | VString _ => None
  end.

(** Lines 891-895 on the parsed [package.json].  When [packageJson] is an
    array, the [scripts] object hangs off the array as a named property,
    which [JSON.stringify] does not write. *)
Definition with_script (packageJson : value) (name command : string) : M value :=
  scripts ← or_throw (get packageJson "scripts") (cannot_read "scripts");
  match packageJson with
  | VArray _ => mret packageJson
  | _ =>
      let scripts := if truthy scripts then scripts else VObject [] in
      scripts ← or_throw (put_dynamic scripts name command) (cannot_set name);
      or_throw (put packageJson "scripts" scripts) (cannot_set "scripts")
  end.

Definition parse (text : string) : M value :=
  match JSON_parse text with
  | inr v => mret v
  | inl message => throw (NativeError message)
  end.

Definition handleAddScript (args : AddScriptArgs.t) : M ToolResult :=
  let path := AddScriptArgs.path args in
  validatePath path ;;
  try_catch
    (let packageJsonPath := path_join path "package.json" in
     text ← readFile packageJsonPath;
     packageJson ← parse text;
     packageJson ← with_script packageJson (AddScriptArgs.name args) (AddScriptArgs.command args);
     writeFile packageJsonPath (JSON_stringify packageJson) ;;
     mret (TextContent ("Added script '" +:+ AddScriptArgs.name args +:+ "': "
                          +:+ AddScriptArgs.command args)))
    (λ error, throw (McpError InternalError ("Failed to add script: " +:+ error_message error))).

(** ** [update_tsconfig] (source lines 915-962) *)

(** The configuration used when [tsconfig.json] cannot be read or parsed. *)
Definition default_tsconfig : value :=
  VObject
    [ ("compilerOptions", VObject []);
      ("include", VArray [VString "src/**/*"]);
      ("exclude", VArray [VString "node_modules"; VString "dist"]) ].

(** Lines 929-938: the inner [try]/[catch]. *)
Definition load_tsconfig (tsconfigPath : string) : M value :=
  try_catch (text ← readFile tsconfigPath; parse text)
            (λ _, mret default_tsconfig).

(** Lines 941-944:
    [tsconfig.compilerOptions = { ...tsconfig.compilerOptions, ...args.options }]. *)
Definition merge_options (tsconfig options : value) : M value :=
  compilerOptions ← or_throw (get tsconfig "compilerOptions") (cannot_read "compilerOptions");
  or_throw (put tsconfig "compilerOptions" (spread2 compilerOptions options))
           (cannot_set "compilerOptions").

Definition handleUpdateTsConfig (args : UpdateTsConfigArgs.t) : M ToolResult :=
  let path := UpdateTsConfigArgs.path args in
  validatePath path ;;
  try_catch
    (let tsconfigPath := path_join path "tsconfig.json" in
     tsconfig ← load_tsconfig tsconfigPath;
     tsconfig ← merge_options tsconfig (UpdateTsConfigArgs.options args);
     writeFile tsconfigPath (JSON_stringify tsconfig) ;;
     mret (TextContent ("Updated TypeScript configuration at " +:+ tsconfigPath)))
    (λ error,
       throw (McpError InternalError
                ("Failed to update TypeScript configuration: " +:+ error_message error))).

(** ** [install_packages] (source lines 964-990) *)
Definition handleInstallPackages (args : InstallPackageArgs.t) : M ToolResult :=
  let path := InstallPackageArgs.path args in
  validatePath path ;;
  try_catch
    (let packageJsonPath := path_join path "package.json" in
     access packageJsonPath ;;
     let installCmd :=
       "npm install " +:+ (if InstallPackageArgs.dev args then "--save-dev" else "") +:+ " "
         +:+ join " " (InstallPackageArgs.packages args) in
     out ← execAsync installCmd path;
     mret (TextContent ("Packages installed successfully:" +:+ nl +:+ out.1 +:+ nl +:+ out.2)))
    (λ error,
       throw (McpError InternalError ("Failed to install packages: " +:+ error_message error))).

(** ** [create_documentation] (source lines 992-1126) *)

(** [Object.entries(section || {}).map(([name, x]) => `${before}${name}${mid}${x}`)] *)
Definition entry_lines (before mid : string) (section : value) : M (list string) :=
  let entries := own_entries (or_else section (VObject [])) in
  foldr (λ kv rest,
           x ← or_throw (toString kv.2) cannot_convert;
           ls ← rest;
           mret ((before +:+ kv.1 +:+ mid +:+ x) :: ls))
        (mret []) entries.

Definition generateProjectDocumentation (projectPath : string) : M string :=
  text ← readFile (path_join projectPath "package.json");
  packageJson ← parse text;
  name ← or_throw (get packageJson "name") (cannot_read "name");
  name ← or_throw (toString name) cannot_convert;
  description ← or_throw (get packageJson "description") (cannot_read "description");
  description ← or_throw (toString (or_else description (VString "A Node.js project")))
                         cannot_convert;
  scripts ← or_throw (get packageJson "scripts") (cannot_read "scripts");
  scripts ← entry_lines "- `npm run " "`: " scripts;
  dependencies ← or_throw (get packageJson "dependencies") (cannot_read "dependencies");
  dependencies ← entry_lines "- `" "`: " dependencies;
  devDependencies ← or_throw (get packageJson "devDependencies") (cannot_read "devDependencies");
  devDependencies ← entry_lines "- `" "`: " devDependencies;
  mret (lines
          [ "# " +:+ name;
            "";
            "## Description";
            description;
            "";
            "## Installation";
            "```bash";
            "npm install";
            "```";
            "";
            "## Scripts";
            join nl scripts;
            "";
            "## Dependencies";
            join nl dependencies;
            "";
            "## Dev Dependencies";
            join nl devDependencies;
            "" ]).

Definition generateApiDocumentation (projectPath : string) : M string :=
  mret (lines
          [ "# API Documentation";
            "";
            "## Endpoints";
            "";
            "### GET /api";
            "Description of the GET /api endpoint";
            "";
            "### POST /api";
            "Description of the POST /api endpoint";
            "";
            "## Models";
            "Description of your data models";
            "";
            "## Authentication";
            "Description of your authentication methods";
            "" ]).

Definition generateComponentDoc (projectPath componentName : string) : M string :=
  try_catch
    (let componentPath := path_join projectPath (componentName +:+ ".tsx") in
     componentContent ← readFile componentPath;
     let props :=
       match PropsPattern.match_props componentContent with
       | Some group => trim group
       | None => "No props defined"
       end in
     mret (lines
             [ "# " +:+ componentName +:+ " Component";
               "";
               "## Props";
               "```typescript";
               props;
               "```";
               "";
               "## Usage";
               "```tsx";
               "import " +:+ componentName +:+ " from './" +:+ componentName +:+ "';";
               "";
               "// Example usage";
               "<" +:+ componentName +:+ " />";
               "```";
               "";
               "## Description";
               "Add component description here.";
               "" ]))
    (λ error,
       throw (McpError InternalError
                ("Failed to generate component documentation: " +:+ error_message error))).

(** The [switch] of lines 999-1015: the content and the file name.  A
    [type] that matches no case leaves both empty. *)
Definition render_documentation (args : CreateDocumentationArgs.t) : M (string * string) :=
  let path := CreateDocumentationArgs.path args in
  let type := CreateDocumentationArgs.type args in
  if bool_decide (type = "readme") then
    content ← generateProjectDocumentation path;
    mret (content, "README.md")
  else if bool_decide (type = "api") then
    content ← generateApiDocumentation path;
    mret (content, "API.md")
  else if bool_decide (type = "component") then
    match CreateDocumentationArgs.name args with
    | Some (String c n) =>
        let name := String c n in
        content ← generateComponentDoc path name;
        mret (content, name +:+ ".md")
    | Some EmptyString | None =>
        throw (McpError InvalidParams "Component name is required for component documentation")
    end
  else mret ("", "").

Definition handleCreateDocumentation (args : CreateDocumentationArgs.t) : M ToolResult :=
  let path := CreateDocumentationArgs.path args in
  validatePath path ;;
  try_catch
    (rendered ← render_documentation args;
     let '(content, fileName) := rendered in
     let docPath := path_join path fileName in
     writeFile docPath content ;;
     docs_set (path_basename path) content ;;
     mret (TextContent ("Documentation created successfully at " +:+ docPath)))
    (λ error,
       throw (McpError InternalError ("Failed to create documentation: " +:+ error_message error))).

(** ** Resources: [ReadResourceRequestSchema] (source lines 199-215) *)
Definition readResource (uri : string) : M ResourceContents :=
  match url_hostname uri with
  | inl message => throw (NativeError message)
  | inr id =>
      content ← docs_get id;
      match content with
      | Some (String c text) =>
          mret {| contents_uri := uri; contents_text := String c text |}
      | Some EmptyString | None =>
          throw (McpError MethodNotFound ("Documentation not found for " +:+ id))
      end
  end.

(** ** Tools: [CallToolRequestSchema] (source lines 391-422) *)
Definition callTool (name : string) (args : ToolArguments) : M ToolResult :=
  try_catch
    (if bool_decide (name = "create_project") then
       handleCreateProject (as_CreateProjectArgs args)
     else if bool_decide (name = "install_packages") then
       handleInstallPackages (as_InstallPackageArgs args)
     else if bool_decide (name = "generate_component") then
       handleGenerateComponent (as_GenerateComponentArgs args)
     else if bool_decide (name = "create_type_definition") then
       handleCreateTypeDefinition (as_CreateTypeDefinitionArgs args)
     else if bool_decide (name = "add_script") then
       handleAddScript (as_AddScriptArgs args)
     else if bool_decide (name = "update_tsconfig") then
       handleUpdateTsConfig (as_UpdateTsConfigArgs args)
     else if bool_decide (name = "create_documentation") then
       handleCreateDocumentation (as_CreateDocumentationArgs args)
     else throw (McpError MethodNotFound ("Unknown tool: " +:+ name)))
    (λ error,
       if is_McpError error then throw error
       else throw (McpError InternalError
                     ("Error executing " +:+ name +:+ ": " +:+ error_message error))).

(** The TypeError of [args.path] when [args] is [undefined] (wording of V8;
    no statement depends on it). *)
Definition no_arguments : exn :=
  NativeError "Cannot read properties of undefined (reading 'path')".

(** The same handler on any request: [request.params.arguments] is
    optional in the protocol, and the source casts it without a check.
    Without arguments every handler fails at its first statement, the read
    of [args.path]: inside its own [try] in [handleCreateProject], before
    the [try] in the six other handlers. *)
Definition callToolRequest (name : string) (arguments : option ToolArguments) : M ToolResult :=
  match arguments with
  | Some args => callTool name args
  | None =>
      try_catch
        (if bool_decide (name = "create_project") then
           try_catch (throw no_arguments)
             (λ error,
                throw (McpError InternalError
                         ("Failed to create project: " +:+ error_message error)))
         else if bool_decide (name = "install_packages") then throw no_arguments
         else if bool_decide (name = "generate_component") then throw no_arguments
         else if bool_decide (name = "create_type_definition") then throw no_arguments
         else if bool_decide (name = "add_script") then throw no_arguments
         else if bool_decide (name = "update_tsconfig") then throw no_arguments
         else if bool_decide (name = "create_documentation") then throw no_arguments
         else throw (McpError MethodNotFound ("Unknown tool: " +:+ name)))
        (λ error,
           if is_McpError error then throw error
           else throw (McpError InternalError
                         ("Error executing " +:+ name +:+ ": " +:+ error_message error)))
  end.

(** ** Prompts (source lines 112-185 and 425-526) *)

Definition prompts : list (string * Prompt) :=
  [ ("create-project",
     {| prompt_name := "create-project";
        prompt_description := "Guide through creating a new Node.js project with best practices";
        arguments :=
          [ {| arg_name := "projectType";
               arg_description := "Type of project to create (react, node, next, express, fastify)";
               required := true |};
            {| arg_name := "features";
               arg_description := "Comma-separated list of features (e.g., typescript,testing,docker)";
               required := false |} ] |});
    ("analyze-code",
     {| prompt_name := "analyze-code";
        prompt_description := "Analyze code for potential improvements and best practices";
        arguments :=
          [ {| arg_name := "code"; arg_description := "Code to analyze"; required := true |};
            {| arg_name := "language"; arg_description := "Programming language";
               required := true |} ] |});
    ("generate-component",
     {| prompt_name := "generate-component";
        prompt_description := "Generate a React component with TypeScript support";
        arguments :=
          [ {| arg_name := "name"; arg_description := "Component name"; required := true |};
            {| arg_name := "type"; arg_description := "Component type (functional/class)";
               required := true |} ] |});
    ("git-commit",
     {| prompt_name := "git-commit";
        prompt_description := "Generate a descriptive Git commit message";
        arguments :=
          [ {| arg_name := "changes"; arg_description := "Git diff or description of changes";
               required := true |} ] |});
    ("debug-error",
     {| prompt_name := "debug-error";
        prompt_description := "Get suggestions for debugging a Node.js error";
        arguments :=
          [ {| arg_name := "error"; arg_description := "Error message or stack trace";
               required := true |} ] |}) ].

(** The arguments of a prompt request: absent, or a record of strings. *)
Definition PromptArgs : Type := option (list (string * string)).

(** [args?.[key]] *)
Definition arg (args : PromptArgs) (key : string) : option string :=
  args ≫= assoc key.

(** [!args?.[key]]: the argument is absent or the empty string. *)
Definition missing (args : PromptArgs) (key : string) : bool :=
  match arg args key with
  | Some (String _ _) => false
  | Some EmptyString | None => true
  end.

(** [`${args.key}`] *)
Definition show (args : PromptArgs) (key : string) : string :=
  default "undefined" (arg args key).

(** [prompt.arguments.forEach(arg => { if (arg.required && !args?.[arg.name]) throw ... })] *)
Fixpoint validate_arguments (declared : list PromptArgument) (args : PromptArgs) : M unit :=
  match declared with
  | [] => mret tt
  | a :: rest =>
      if required a && missing args (arg_name a)
      then throw (McpError InvalidParams ("Missing required argument: " +:+ arg_name a))
      else validate_arguments rest args
  end.

(** [args.features?.split(',').map(f => f.trim()) || []] *)
Definition features_of (args : PromptArgs) : list string :=
  match arg args "features" with
  | Some features => trim <$> split ","%char features
  | None => []
  end.

Definition typescript_line : string := "6. TypeScript configuration recommendations".
Definition testing_line : string := "7. Testing setup and frameworks".
Definition docker_line : string := "8. Docker configuration guidance".

(** The lines of the create-project prompt up to ["5. Common pitfalls"]. *)
Definition create_project_head (args : PromptArgs) : list string :=
  let features := features_of args in
  [ "Help me create a new " +:+ show args "projectType" +:+ " project with these requirements:";
    "";
    "1. Project Type: " +:+ show args "projectType";
    "2. Features: " +:+ match features with
                        | _ :: _ => join ", " features
                        | [] => "basic setup"
                        end;
    "";
    "Please provide:";
    "1. Recommended project structure";
    "2. Essential dependencies to include";
    "3. Important configuration files";
    "4. Best practices for this type of project";
    "5. Common pitfalls to avoid" ].

(** The three closing lines, each empty unless its feature is listed. *)
Definition create_project_guidance (features : list string) : list string :=
  [ if includes features "typescript" then typescript_line else "";
    if includes features "testing" then testing_line else "";
    if includes features "docker" then docker_line else "" ].

Definition generatePromptMessages (name : string) (args : PromptArgs) : M (list PromptMessage) :=
  if bool_decide (name = "create-project") then
    let features := features_of args in
    mret [UserText (lines (create_project_head args ++ create_project_guidance features))]
  else if bool_decide (name = "analyze-code") then
    mret [UserText ("Please analyze this " +:+ show args "language"
                      +:+ " code for potential improvements and best practices:"
                      +:+ nl +:+ nl +:+ show args "code")]
  else if bool_decide (name = "generate-component") then
    mret [UserText ("Generate a " +:+ show args "type" +:+ " React component named "
                      +:+ show args "name"
                      +:+ " with TypeScript support. Include proper typing, error handling, and common best practices.")]
  else if bool_decide (name = "git-commit") then
    mret [UserText ("Generate a concise but descriptive commit message following conventional commits format for these changes:"
                      +:+ nl +:+ nl +:+ show args "changes")]
  else if bool_decide (name = "debug-error") then
    mret [UserText ("Help me debug this Node.js error. Suggest potential causes and solutions:"
                      +:+ nl +:+ nl +:+ show args "error")]
  else throw (McpError InvalidParams ("Invalid prompt name: " +:+ name)).

(** [GetPromptRequestSchema].  [this.prompts[name]] may find a member of
    [Object.prototype]: the [__proto__] object has no [arguments] and goes on
    to [generatePromptMessages]; the others are built-in functions, whose
    [arguments] accessor throws a TypeError. *)
Definition getPrompt (name : string) (args : PromptArgs) : M (list PromptMessage) :=
  match property prompts name with
  | None => throw (McpError InvalidParams ("Prompt not found: " +:+ name))
  | Some prompt =>
      match prompt with
      | Own prompt => validate_arguments (arguments prompt) args
      | Inherited member =>
          if bool_decide (member = "__proto__") then mret tt
          else throw (NativeError
                        "'caller', 'callee', and 'arguments' properties may not be accessed on strict mode functions or the arguments objects for calls to them")
      end ;;
      generatePromptMessages name (Some (default [] args))
  end.

End Server.

(** ** The declared tools (source lines 219-389)

    The names of the tools listed by [ListToolsRequestSchema] and the
    enumerations their input schemas declare. *)
Definition tool_names : list string :=
  [ "create_project"; "install_packages"; "generate_component"; "create_type_definition";
    "add_script"; "update_tsconfig"; "create_documentation" ].

Definition project_types : list string := ["react"; "node"; "next"; "express"; "fastify"].

Definition documentation_types : list string := ["readme"; "api"; "component"].

(** The names of the prompts listed by [ListPromptsRequestSchema]. *)
Definition prompt_names : list string :=
  ["create-project"; "analyze-code"; "generate-component"; "git-commit"; "debug-error"].

(** ** A reference runtime in memory

    A small executable runtime, used to run the handlers on concrete
    requests: the file system is a finite map from path to file or directory,
    paths are joined with a slash, [exec] starts nothing and succeeds, and
    JSON is printed with two-space indentation and parsed back (integers,
    strings of Latin-1 characters, arrays, objects). *)
Module Mem.

Inductive node : Type := File (data : string) | Dir.

Definition fs : Type := gmap string node.

Definition enoent (syscall p : string) : string :=
  "ENOENT: no such file or directory, " +:+ syscall +:+ " '" +:+ p +:+ "'".
Definition eisdir (syscall : string) : string :=
  "EISDIR: illegal operation on a directory, " +:+ syscall.

Definition access (p : string) (d : fs) : (string + unit) * fs :=
  match d !! p with
  | Some _ => (inr tt, d)
  | None => (inl (enoent "access" p), d)
  end.

(** The paths above [p]: its prefixes that end before a slash. *)
Fixpoint parents_from (walked p : string) : list string :=
  match p with
  | EmptyString => []
  | String c p' =>
      (if bool_decide (c = "/"%char) && negb (bool_decide (walked = EmptyString))
       then [walked] else [])
        ++ parents_from (walked +:+ String c EmptyString) p'
  end.

Definition parents (p : string) : list string := parents_from EmptyString p.

Definition is_file (d : fs) (p : string) : bool :=
  match d !! p with
  | Some (File _) => true
  | Some Dir | None => false
  end.

(** [fs.mkdir(p, { recursive: true })]: the missing directories above [p]
    are made too, and a regular file on the way is an error. *)
Definition mkdir (p : string) (d : fs) : (string + unit) * fs :=
  if existsb (is_file d) (parents p)
  then (inl ("ENOTDIR: not a directory, mkdir '" +:+ p +:+ "'"), d)
  else match d !! p with
       | Some (File _) => (inl ("EEXIST: file already exists, mkdir '" +:+ p +:+ "'"), d)
       | Some Dir | None => (inr tt, foldr (λ q, <[q := Dir]>) d (parents p ++ [p]))
       end.

Definition stat_isDirectory (p : string) (d : fs) : (string + bool) * fs :=
  match d !! p with
  | Some Dir => (inr true, d)
  | Some (File _) => (inr false, d)
  | None => (inl (enoent "stat" p), d)
  end.

Definition readFile (p : string) (d : fs) : (string + string) * fs :=
  match d !! p with
  | Some (File data) => (inr data, d)
  | Some Dir => (inl (eisdir "read"), d)
  | None => (inl (enoent "open" p), d)
  end.

Definition writeFile (p data : string) (d : fs) : (string + unit) * fs :=
  match d !! p with
  | Some Dir => (inl (eisdir "open '" +:+ p +:+ "'"), d)
  | Some (File _) | None => (inr tt, <[p := File data]> d)
  end.

Definition spawn (command cwd : string) (d : fs) : (string + (string * string)) * fs :=
  (inr ("", ""), d).

Definition join_path (a b : string) : string :=
  match b with
  | EmptyString => a
  | _ => a +:+ "/" +:+ b
  end.

(** The text after the last slash. *)
Fixpoint last_segment (p : string) : string :=
  match p with
  | EmptyString => EmptyString
  | String c p' =>
      if has_substring "/" p' then last_segment p'
      else if bool_decide (c = "/"%char) then p' else p
  end.

(** The path without the slashes at its end. *)
Fixpoint without_trailing_slashes (p : string) : string :=
  match p with
  | EmptyString => EmptyString
  | String c p' =>
      match without_trailing_slashes p' with
      | EmptyString => if bool_decide (c = "/"%char) then EmptyString else String c EmptyString
      | r => String c r
      end
  end.

(** [path.basename(p)]: the last segment, slashes at the end set aside. *)
Definition basename (p : string) : string := last_segment (without_trailing_slashes p).

(** The text before the first character that satisfies [stop]. *)
Fixpoint until (stop : ascii → bool) (s : string) : string :=
  match s with
  | EmptyString => EmptyString
  | String c s' => if stop c then EmptyString else String c (until stop s')
  end.

(** The text after the last [@], the whole text when there is none. *)
Fixpoint after_userinfo (s : string) : string :=
  match s with
  | EmptyString => EmptyString
  | String c s' =>
      if has_substring "@" s' then after_userinfo s'
      else if bool_decide (c = "@"%char) then s' else s
  end.

(** Characters that a host may not contain. *)
Definition forbidden_in_host (c : ascii) : bool :=
  bool_decide (nat_of_ascii c ∈ [0; 32; 60; 62; 91; 92; 93; 94; 124]%nat).

(** [new URL(uri).hostname] for the scheme [docs]: the authority ends at
    the first [/], [?] or [#]; the host is what stands in it after the
    user information and before the port. *)
Definition hostname (uri : string) : string + string :=
  match strip_prefix "docs://" uri with
  | Some rest =>
      let authority := until (λ c, bool_decide (c ∈ ["/"; "?"; "#"]%char)) rest in
      let host := until (λ c, bool_decide (c = ":"%char)) (after_userinfo authority) in
      if existsb forbidden_in_host (list_ascii_of_string host) then inl "Invalid URL"
      else inr host
  | None => inl "Invalid URL"
  end.

Definition error_number (code : ErrorCode) : string :=
  match code with
  | MethodNotFound => "-32601"
  | InvalidParams => "-32602"
  | InternalError => "-32603"
  end.

Definition message (code : ErrorCode) (text : string) : string :=
  "MCP error " +:+ error_number code +:+ ": " +:+ text.

(** *** Printing JSON *)

Definition backslash : string := String (ascii_of_nat 92) EmptyString.

Definition hex_digit (n : nat) : string :=
  String (ascii_of_nat (if bool_decide (n < 10)%nat then 48 + n else 87 + n)) EmptyString.

Definition escape_char (c : ascii) : string :=
  let n := nat_of_ascii c in
  if bool_decide (n = 34)%nat then backslash +:+ dq
  else if bool_decide (n = 92)%nat then backslash +:+ backslash
  else if bool_decide (n = 8)%nat then backslash +:+ "b"
  else if bool_decide (n = 9)%nat then backslash +:+ "t"
  else if bool_decide (n = 10)%nat then backslash +:+ "n"
  else if bool_decide (n = 12)%nat then backslash +:+ "f"
  else if bool_decide (n = 13)%nat then backslash +:+ "r"
  else if bool_decide (n < 32)%nat
       then backslash +:+ "u00" +:+ hex_digit (n / 16) +:+ hex_digit (n mod 16)
  else String c EmptyString.

Fixpoint escape (s : string) : string :=
  match s with
  | EmptyString => EmptyString
  | String c s' => escape_char c +:+ escape s'
  end.

Definition quote (s : string) : string := dq +:+ escape s +:+ dq.

Definition bracketed (open close indent : string) (items : list string) : string :=
  match items with
  | [] => open +:+ close
  | _ :: _ =>
      let inner := indent +:+ "  " in
      open +:+ nl +:+ inner +:+ join ("," +:+ nl +:+ inner) items +:+ nl +:+ indent +:+ close
  end.

(** A property whose value is [undefined] is left out; an [undefined]
    array element is written [null]. *)
Fixpoint render (indent : string) (v : value) : string :=
  match v with
  | VUndefined | VNull => "null"
  | VBool b => if b then "true" else "false"
  | VNumber n => pretty n
  | VString s => quote s
  | VArray elements =>
      bracketed "[" "]" indent (render (indent +:+ "  ") <$> elements)
  | VObject props =>
      bracketed "{" "}" indent
        ((fix members (ps : list (string * value)) : list string :=
            match ps with
            | [] => []
            | (k, VUndefined) :: rest => members rest
            | (k, x) :: rest =>
                (quote k +:+ ": " +:+ render (indent +:+ "  ") x) :: members rest
            end) props)
  end.

Definition stringify (v : value) : string := render "" v.

(** *** Parsing JSON *)

Fixpoint skip_ws (s : string) : string :=
  match s with
  | String c s' =>
      if bool_decide (nat_of_ascii c ∈ [9; 10; 13; 32]%nat) then skip_ws s' else s
  | EmptyString => EmptyString
  end.

Definition digit (c : ascii) : option Z :=
  let n := nat_of_ascii c in
  if bool_decide (48 ≤ n ≤ 57)%nat then Some (Z.of_nat n - 48) else None.

Definition hex (c : ascii) : option nat :=
  let n := nat_of_ascii c in
  if bool_decide (48 ≤ n ≤ 57)%nat then Some (n - 48)%nat
  else if bool_decide (97 ≤ n ≤ 102)%nat then Some (n - 87)%nat
  else if bool_decide (65 ≤ n ≤ 70)%nat then Some (n - 55)%nat
  else None.

(** The digits at the front of [s], accumulated onto [acc]. *)
Fixpoint digits (acc : Z) (s : string) : Z * string :=
  match s with
  | String c s' =>
      match digit c with
      | Some d => digits (10 * acc + d) s'
      | None => (acc, s)
      end
  | EmptyString => (acc, s)
  end.

Definition unescape (c : ascii) : option ascii :=
  let n := nat_of_ascii c in
  if bool_decide (n ∈ [34; 92; 47]%nat) then Some c
  else if bool_decide (c = "b"%char) then Some (ascii_of_nat 8)
  else if bool_decide (c = "t"%char) then Some (ascii_of_nat 9)
  else if bool_decide (c = "n"%char) then Some (ascii_of_nat 10)
  else if bool_decide (c = "f"%char) then Some (ascii_of_nat 12)
  else if bool_decide (c = "r"%char) then Some (ascii_of_nat 13)
  else None.

(** The characters of a string literal after its opening quote, up to
    the closing quote, and the text after it. *)
Fixpoint string_body (s : string) : option (string * string) :=
  match s with
  | EmptyString => None
  | String c s' =>
      let n := nat_of_ascii c in
      if bool_decide (n = 34)%nat then Some (EmptyString, s')
      else if bool_decide (n < 32)%nat then None
      else if bool_decide (n = 92)%nat then
        match s' with
        | String "u" (String "0" (String "0" (String h (String l s'')))) =>
            match hex h, hex l, string_body s'' with
            | Some a, Some b, Some (str, rest) =>
                Some (String (ascii_of_nat (16 * a + b)) str, rest)
            | _, _, _ => None
            end
        | String e s'' =>
            match unescape e, string_body s'' with
            | Some c', Some (str, rest) => Some (String c' str, rest)
            | _, _ => None
            end
        | EmptyString => None
        end
      else match string_body s' with
           | Some (str, rest) => Some (String c str, rest)
           | None => None
           end
  end.

Definition number (negative : bool) (s : string) : option (value * string) :=
  match s with
  | String c _ =>
      match digit c with
      | Some _ =>
          let '(n, rest) := digits 0 s in
          match rest with
          | String "." _ | String "e" _ | String "E" _ => None
          | _ => Some (VNumber (if negative then - n else n), rest)
          end
      | None => None
      end
  | EmptyString => None
  end.

Fixpoint parse_value (fuel : nat) (s : string) {struct fuel} : option (value * string) :=
  match fuel with
  | O => None
  | S fuel' =>
      match skip_ws s with
      | String "n" (String "u" (String "l" (String "l" rest))) => Some (VNull, rest)
      | String "t" (String "r" (String "u" (String "e" rest))) => Some (VBool true, rest)
      | String "f" (String "a" (String "l" (String "s" (String "e" rest)))) =>
          Some (VBool false, rest)
      | String "-" rest => number true rest
      | String "[" rest =>
          match skip_ws rest with
          | String "]" rest' => Some (VArray [], rest')
          | _ =>
              (fix elements (n : nat) (s : string) (acc : list value) {struct n} :=
                 match n with
                 | O => None
                 | S n' =>
                     match parse_value fuel' s with
                     | Some (v, s1) =>
                         match skip_ws s1 with
                         | String "," s2 => elements n' s2 (acc ++ [v])
                         | String "]" s2 => Some (VArray (acc ++ [v]), s2)
                         | _ => None
                         end
                     | None => None
                     end
                 end) fuel' rest []
          end
      | String "{" rest =>
          match skip_ws rest with
          | String "}" rest' => Some (VObject [], rest')
          | _ =>
              (fix members (n : nat) (s : string) (acc : list (string * value)) {struct n} :=
                 match n with
                 | O => None
                 | S n' =>
                     match skip_ws s with
                     | String q s0 =>
                         if bool_decide (nat_of_ascii q = 34)%nat then
                           match string_body s0 with
                           | Some (k, s1) =>
                               match skip_ws s1 with
                               | String ":" s2 =>
                                   match parse_value fuel' s2 with
                                   | Some (v, s3) =>
                                       match skip_ws s3 with
                                       | String "," s4 => members n' s4 (define_prop k v acc)
                                       | String "}" s4 => Some (VObject (define_prop k v acc), s4)
                                       | _ => None
                                       end
                                   | None => None
                                   end
                               | _ => None
                               end
                           | None => None
                           end
                         else None
                     | EmptyString => None
                     end
                 end) fuel' rest []
          end
      | String c rest =>
          if bool_decide (nat_of_ascii c = 34)%nat then
            match string_body rest with
            | Some (str, rest') => Some (VString str, rest')
            | None => None
            end
          else number false (String c rest)
      | EmptyString => None
      end
  end.

Definition parse (text : string) : string + value :=
  match parse_value (S (String.length text)) text with
  | Some (v, rest) =>
      match skip_ws rest with
      | EmptyString => inr v
      | _ => inl "Unexpected non-whitespace character after JSON"
      end
  | None => inl "Unexpected token in JSON"
  end.

(** [a[key] = x]: an index up to the length replaces or appends, [length]
    is refused, any other key is a property that the printer does not show. *)
Definition put_index (elements : list value) (key : string) (x : value)
  : option (list value) :=
  if bool_decide (key = "length") then None
  else
    match head (filter (λ i, pretty i = key) (seq 0 (S (List.length elements)))) with
    | Some i => Some (take i elements ++ [x] ++ drop (S i) elements)
    | None => Some elements
    end.

Definition runtime : Runtime := {|
  OS := fs;
  mcp_message := message;
  path_join := join_path;
  path_basename := basename;
  url_hostname := hostname;
  JSON_parse := parse;
  JSON_stringify := stringify;
  array_put := put_index;
  fs_access := access;
  fs_mkdir := mkdir;
  fs_stat_isDirectory := stat_isDirectory;
  fs_readFile := readFile;
  fs_writeFile := writeFile;
  exec := spawn;
|}.

(** A server that has just started on a given file system. *)
Definition start (d : fs) : @ServerState runtime :=
  @Build_ServerState runtime d ∅ [].

End Mem.

(** ** Vocabulary of the specifications *)
Section Vocabulary.
Context {rt : Runtime}.

(** A run that leaves the document store alone and adds the calls [l]. *)
Definition adds (st st' : ServerState) (l : list Call) : Prop :=
  calls st' = calls st ++ l ∧ projectDocs st' = projectDocs st.

(** The comma-separated pieces of the [features] argument. *)
Definition feature_pieces (args : PromptArgs) : list string :=
  match arg args "features" with
  | Some features => split "," features
  | None => []
  end.

(** A feature is listed when some piece is the token up to surrounding
    white space. *)
Definition listed (args : PromptArgs) (token : string) : Prop :=
  ∃ piece, piece ∈ feature_pieces args ∧ trim piece = token.

(** The call made by [install]: none for an empty package list. *)
Definition install_calls (prefix : string) (packages : list string) (cwd : string) : list Call :=
  match packages with
  | [] => []
  | _ :: _ => [Exec (prefix +:+ join " " packages) cwd]
  end.

(** The request of the example: a functional component with one property,
    [count] of type [number]. *)
Definition counter_args (name path : string) : GenerateComponentArgs.t :=
  {| GenerateComponentArgs.name := name;
     GenerateComponentArgs.path := path;
     GenerateComponentArgs.type := "functional";
     GenerateComponentArgs.props := Some [("count", "number")] |}.

(** The configuration object after lines 941-944, for an object read from
    [tsconfig.json]: its [compilerOptions] property holds the merged
    options. *)
Definition with_options (tsconfig : list (string * value)) (options : value) : value :=
  VObject (set_prop "compilerOptions"
             (spread2 (default VUndefined (lookup_prop "compilerOptions" tsconfig)) options)
             tsconfig).

(** The configuration that [update_tsconfig] loads for [path] when it is
    called in the state [st]. *)
Definition loaded_tsconfig (path : string) (st : ServerState) : exn + value :=
  (load_tsconfig (path_join path "tsconfig.json") (validatePath path st).2).1.

(** The text that [update_tsconfig] reads from [tsconfig.json] when it is
    called in the state [st]. *)
Definition tsconfig_text (path : string) (st : ServerState) : exn + string :=
  (readFile (path_join path "tsconfig.json") (validatePath path st).2).1.

(** A text made of white space only. *)
Fixpoint all_whitespace (s : string) : bool :=
  match s with
  | EmptyString => true
  | String c s' => is_whitespace c && all_whitespace s'
  end.

(** [ListPromptsRequestSchema]: [Object.values(this.prompts)] (source lines
    427-429). *)
Definition listPrompts : list Prompt := prompts.*2.

(** A computation that leaves the document store as it found it, whatever
    its outcome. *)
Definition quiet {A : Type} (m : M A) : Prop :=
  ∀ st, projectDocs (m st).2 = projectDocs st.

(** The path that a tool hands to [validatePath]: the [path] argument, read
    through the tool's own interface. *)
Definition validated_path (name : string) (args : ToolArguments) : string :=
  if bool_decide (name = "install_packages") then
    InstallPackageArgs.path (as_InstallPackageArgs args)
  else if bool_decide (name = "generate_component") then
    GenerateComponentArgs.path (as_GenerateComponentArgs args)
  else if bool_decide (name = "create_type_definition") then
    CreateTypeDefinitionArgs.path (as_CreateTypeDefinitionArgs args)
  else if bool_decide (name = "add_script") then
    AddScriptArgs.path (as_AddScriptArgs args)
  else if bool_decide (name = "update_tsconfig") then
    UpdateTsConfigArgs.path (as_UpdateTsConfigArgs args)
  else CreateDocumentationArgs.path (as_CreateDocumentationArgs args).

(** The handler that the dispatcher selects for a tool name. *)
Definition handler_of (name : string) (args : ToolArguments) : option (M ToolResult) :=
  if bool_decide (name = "create_project") then
    Some (handleCreateProject (as_CreateProjectArgs args))
  else if bool_decide (name = "install_packages") then
    Some (handleInstallPackages (as_InstallPackageArgs args))
  else if bool_decide (name = "generate_component") then
    Some (handleGenerateComponent (as_GenerateComponentArgs args))
  else if bool_decide (name = "create_type_definition") then
    Some (handleCreateTypeDefinition (as_CreateTypeDefinitionArgs args))
  else if bool_decide (name = "add_script") then
    Some (handleAddScript (as_AddScriptArgs args))
  else if bool_decide (name = "update_tsconfig") then
    Some (handleUpdateTsConfig (as_UpdateTsConfigArgs args))
  else if bool_decide (name = "create_documentation") then
    Some (handleCreateDocumentation (as_CreateDocumentationArgs args))
  else None.

(** A text whose characters all satisfy [p]. *)
Fixpoint all_chars (p : ascii → bool) (s : string) : bool :=
  match s with
  | EmptyString => true
  | String c s' => p c && all_chars p s'
  end.

(** A name made of word characters, as [\w+] matches them. *)
Definition is_word (s : string) : Prop :=
  s ≠ "" ∧ all_chars PropsPattern.is_word_char s = true.

(** A text without a closing brace. *)
Definition brace_free (s : string) : Prop :=
  all_chars PropsPattern.is_not_brace s = true.

(** [u] and [p] differ at a position that both have. *)
Fixpoint diverges (p u : string) : bool :=
  match p, u with
  | String a p', String b u' => if bool_decide (a = b) then diverges p' u' else true
  | _, _ => false
  end.

(** No suffix of [u] can be the start of a text that begins with [p]. *)
Fixpoint never_starts (p u : string) : bool :=
  match u with
  | EmptyString => true
  | String _ u' => diverges p u && never_starts p u'
  end.

(** The state after the calls [l], which left the operating system as
    [os'] and the document store alone. *)
Definition after (st : ServerState) (os' : OS) (l : list Call) : ServerState :=
  {| os := os'; projectDocs := projectDocs st; calls := calls st ++ l |}.

(** The [scripts] object that [add_script] extends, for a [package.json]
    that is an object: its [scripts] property when that is an object, a new
    empty object when the property is absent or falsy; none when the
    property is an array or a truthy primitive. *)
Definition script_table (packageJson : list (string * value)) : option (list (string * value)) :=
  match lookup_prop "scripts" packageJson with
  | Some (VObject scripts) => Some scripts
  | Some v => if truthy v then None else Some []
  | None => Some []
  end.

(** The file that [create_documentation] writes, by documentation type
    (source lines 999-1015); the empty name when the type matches no
    case. *)
Definition documentation_file (args : CreateDocumentationArgs.t) : string :=
  let type := CreateDocumentationArgs.type args in
  if bool_decide (type = "readme") then "README.md"
  else if bool_decide (type = "api") then "API.md"
  else if bool_decide (type = "component")
       then default "" (CreateDocumentationArgs.name args) +:+ ".md"
  else "".

(** What [install] does to the operating system: nothing for an empty
    package list, else the one install command. *)
Definition installed (prefix : string) (packages : list string) (cwd : string)
    (before after : OS) : Prop :=
  match packages with
  | [] => after = before
  | _ :: _ => ∃ out, exec (prefix +:+ join " " packages) cwd before = (inr out, after)
  end.

End Vocabulary.

(** * Properties *)

Create HintDb server_ops.
#[global] Hint Unfold mbind M_bind mret M_ret throw try_catch or_throw docs_get docs_set
  access mkdir stat_isDirectory readFile writeFile execAsync parse : server_ops.

(** Unfolds the monad, then follows every call into the runtime both ways. *)
Ltac step_calls :=
  repeat match goal with
    | |- context [syscall ?c ?op ?st] =>
        let r := fresh "r" in let o := fresh "os'" in let E := fresh "E" in
        unfold syscall at 1; destruct (op (os st)) as [[r|r] o] eqn:E; cbn [fst snd os projectDocs calls]
    end.

(** ** The handler monad *)
Section Monad_facts.
Context {rt : Runtime}.

Lemma adds_nil st : adds st st [].
Proof. split; [by rewrite app_nil_r | done]. Qed.

Lemma adds_trans st st1 st2 l1 l2 :
  adds st st1 l1 → adds st1 st2 l2 → adds st st2 (l1 ++ l2).
Proof. intros [H1 D1] [H2 D2]. split; [by rewrite H2, H1, app_assoc | congruence]. Qed.

Lemma syscall_ok {A} c (op : OS → (string + A) * OS) st a st' :
  syscall c op st = (inr a, st') →
  op (os st) = (inr a, os st') ∧ adds st st' [c].
Proof.
  unfold syscall. destruct (op (os st)) as [[?|?] ?]; intros [= <- <-]; by repeat split.
Qed.

(** A run is determined by its outcome and its final state. *)
Lemma run_ok {A} (r : (exn + A) * ServerState) a : r.1 = inr a → r = (inr a, r.2).
Proof. destruct r as [o st]. by intros [= ->]. Qed.

Lemma outcome_eq {A B} (r : A * B) (a : A) : r.1 = a → r = (a, r.2).
Proof. destruct r. by intros [= ->]. Qed.

Lemma bind_ok {A B} (m : M A) (f : A → M B) st b st' :
  (m ≫= f) st = (inr b, st') →
  ∃ a st1, m st = (inr a, st1) ∧ f a st1 = (inr b, st').
Proof.
  unfold mbind, M_bind. destruct (m st) as [[e|a] st1]; [done|]. intros H. by exists a, st1.
Qed.

Lemma try_catch_rethrow_ok {A} (body : M A) (wrap : exn → exn) st a st' :
  try_catch body (λ error, throw (wrap error)) st = (inr a, st') →
  body st = (inr a, st').
Proof. unfold try_catch, throw. by destruct (body st) as [[e|x] st1]. Qed.

Lemma try_catch_rethrow_throws {A} (body : M A) (wrap : exn → exn) st e st' :
  try_catch body (λ error, throw (wrap error)) st = (inl e, st') →
  ∃ e0, e = wrap e0.
Proof.
  unfold try_catch, throw. destruct (body st) as [[e0|x] st1]; intros [= <- <-]. by eexists.
Qed.

(** [validatePath] only looks at the path and, when nothing is there,
    creates it. *)
Lemma validatePath_adds path st :
  ∃ l, adds st (validatePath path st).2 l
       ∧ (l = [Access path; Mkdir path] ∨ l = [Access path; Stat path]).
Proof.
  unfold validatePath. autounfold with server_ops. step_calls;
    repeat match goal with
      | |- context [if negb ?b then _ else _] => destruct b; cbn
      end;
    (eexists; split; [split; cbn; [by rewrite <- app_assoc | done] | by eauto]).
Qed.

(** What [validatePath] throws is a protocol error with code
    [InvalidParams]. *)
Lemma validatePath_throws path st e st' :
  validatePath path st = (inl e, st') → ∃ message, e = McpError InvalidParams message.
Proof.
  unfold validatePath. autounfold with server_ops. step_calls;
    repeat match goal with
      | |- context [if negb ?b then _ else _] => destruct b; cbn
      end;
    intros [= <- <-]; eauto.
Qed.

End Monad_facts.

(** ** Facts about strings *)
Section String_facts.

Lemma string_app_cons (x : ascii) (a b : string) : String x a +:+ b = String x (a +:+ b).
Proof. done. Qed.

Lemma string_app_nil_l (a : string) : "" +:+ a = a.
Proof. done. Qed.

Lemma string_app_assoc (a b c : string) : (a +:+ b) +:+ c = a +:+ b +:+ c.
Proof. induction a as [|x a IH]; [done |]. by rewrite !string_app_cons, IH. Qed.

Lemma string_app_nil_r (a : string) : a +:+ "" = a.
Proof. induction a as [|x a IH]; [done |]. by rewrite string_app_cons, IH. Qed.

Lemma strip_prefix_spec (p s r : string) : strip_prefix p s = Some r ↔ s = p +:+ r.
Proof.
  revert s. induction p as [|a p IH]; intros s; cbn.
  - split; [by intros [= ->] | by intros ->].
  - destruct s as [|b s]; [split; [done | by intros [=]] |].
    rewrite string_app_cons. case_bool_decide as Hab.
    + subst b. rewrite IH. split; [by intros -> | by intros [= ->]].
    + split; [done | intros [= -> _]; done].
Qed.

Lemma contains_refl (s : string) : contains s s.
Proof. exists "", "". by rewrite string_app_nil_r. Qed.

Lemma contains_app_r (a s t : string) : contains s t → contains (a +:+ s) t.
Proof. intros (l & r & ->). exists (a +:+ l), r. by rewrite string_app_assoc. Qed.

Lemma contains_app_l (s b t : string) : contains s t → contains (s +:+ b) t.
Proof. intros (l & r & ->). exists l, (r +:+ b). by rewrite !string_app_assoc. Qed.

Lemma contains_trans (s t u : string) : contains s t → contains t u → contains s u.
Proof.
  intros (l & r & ->) Hu. apply contains_app_r, contains_app_l, Hu.
Qed.

(** [has_substring] decides [contains]. *)
Lemma has_substring_spec (t s : string) : has_substring t s = true ↔ contains s t.
Proof.
  induction s as [|c s IH]; cbn [has_substring].
  - destruct (strip_prefix t "") as [r|] eqn:Hp.
    + apply strip_prefix_spec in Hp. split; [| done]. intros _. by exists "", r.
    + split; [done |]. intros (l & r & Heq). destruct l; [| done].
      rewrite string_app_nil_l in Heq. apply strip_prefix_spec in Heq. congruence.
  - destruct (strip_prefix t (String c s)) as [r|] eqn:Hp.
    + apply strip_prefix_spec in Hp. split; [| done]. intros _. by exists "", r.
    + rewrite IH. split.
      * intros H. by apply (contains_app_r (String c "")) in H.
      * intros (l & r & Heq). destruct l as [|x l].
        -- rewrite string_app_nil_l in Heq. apply strip_prefix_spec in Heq. congruence.
        -- rewrite string_app_cons in Heq. injection Heq as _ ->. by exists l, r.
Qed.

Lemma join_cons2 (sep x y : string) (l : list string) :
  join sep (x :: y :: l) = x +:+ sep +:+ join sep (y :: l).
Proof. done. Qed.

(** A text contains each of the pieces it is joined from. *)
Lemma contains_join (sep x : string) (l : list string) : x ∈ l → contains (join sep l) x.
Proof.
  induction l as [|y [|z l] IH]; intros Hin.
  - by apply elem_of_nil in Hin.
  - apply list_elem_of_singleton in Hin as ->. apply contains_refl.
  - rewrite join_cons2. apply elem_of_cons in Hin as [-> | Hin].
    + apply contains_app_l, contains_refl.
    + apply contains_app_r, contains_app_r. by apply IH.
Qed.

Lemma split_nonempty (sep : ascii) (s : string) : split sep s ≠ [].
Proof.
  destruct s as [|c s]; [done |]. cbn. case_bool_decide; [done |]. by destruct (split sep s).
Qed.

(** [split] and [join] are inverse: joining the pieces with the separator
    gives the text back, and no piece holds the separator. *)
Lemma join_split (sep : ascii) (s : string) : join (String sep "") (split sep s) = s.
Proof.
  induction s as [|c s IH]; [done |]. cbn [split].
  pose proof (split_nonempty sep s) as Hne.
  destruct (split sep s) as [|p l] eqn:Hs; [done |]. case_bool_decide as Hc.
  - subst c. by rewrite join_cons2, IH.
  - destruct l as [|q l].
    + cbn in *. by rewrite IH.
    + rewrite join_cons2 in *. by rewrite string_app_cons, IH.
Qed.

Lemma split_pieces (sep : ascii) (s piece : string) :
  piece ∈ split sep s → ¬ contains piece (String sep "").
Proof.
  revert piece. induction s as [|c s IH]; intros piece; cbn [split].
  - intros ->%list_elem_of_singleton (l & r & Heq). by destruct l.
  - case_bool_decide as Hc.
    + intros [-> | Hin]%elem_of_cons; [| by apply IH].
      intros (l & r & Heq). by destruct l.
    + pose proof (split_nonempty sep s) as Hne.
      destruct (split sep s) as [|p rest]; [done |].
      intros [-> | Hin]%elem_of_cons.
      * intros (l & r & Heq). destruct l as [|x l].
        -- rewrite string_app_nil_l, string_app_cons in Heq. by injection Heq as ->.
        -- rewrite string_app_cons in Heq. injection Heq as _ Heq.
           apply (IH p); [by left | by exists l, r].
      * apply IH. by right.
Qed.

(** [trim] removes white space at both ends and nothing else: the text is
    white space, then the trimmed text, then white space, and the trimmed
    text neither starts nor ends with white space. *)
Lemma trimStart_spec (s : string) :
  ∃ l, s = l +:+ trimStart s
       ∧ all_whitespace l = true
       ∧ (∀ c r, trimStart s = String c r → is_whitespace c = false).
Proof.
  induction s as [|c s (l & Heq & Hl & Hr)]; cbn.
  - exists "". by repeat split.
  - destruct (is_whitespace c) eqn:Hc.
    + exists (String c l). rewrite string_app_cons, <- Heq. repeat split; [| done].
      cbn. by rewrite Hc, Hl.
    + exists "". repeat split. by intros ? ? [= <- _].
Qed.

Lemma trimEnd_spec (s : string) :
  ∃ r, s = trimEnd s +:+ r
       ∧ all_whitespace r = true
       ∧ (∀ t c, trimEnd s = t +:+ String c "" → is_whitespace c = false).
Proof.
  induction s as [|c s (r & Heq & Hr & Hlast)]; cbn [trimEnd].
  - exists "". repeat split. intros [|x t] c; by rewrite ?string_app_nil_l, ?string_app_cons.
  - destruct (trimEnd s) as [|x t0] eqn:Ht.
    + rewrite string_app_nil_l in Heq. subst r. destruct (is_whitespace c) eqn:Hc.
      * exists (String c s). repeat split; [by cbn; rewrite Hc, Hr |].
        intros [|x t] c'; by rewrite ?string_app_nil_l, ?string_app_cons.
      * exists s. repeat split; [done |].
        intros [|x t] c'; rewrite ?string_app_nil_l, ?string_app_cons.
        -- by intros [= <-].
        -- intros [= _ Habs]. by destruct t.
    + exists r. rewrite string_app_cons, <- Heq. repeat split; [done |].
      intros [|y t] c'; rewrite ?string_app_nil_l, ?string_app_cons; [done |].
      intros [= _ Htail]. by apply (Hlast t c').
Qed.

Lemma trimEnd_head (s : string) c r :
  s = String c r → is_whitespace c = false → ∃ r', trimEnd s = String c r'.
Proof.
  intros -> Hc. cbn. destruct (trimEnd r); [| by eexists]. rewrite Hc. by eexists.
Qed.

Lemma trim_spec (s : string) :
  ∃ l r, s = l +:+ trim s +:+ r
         ∧ all_whitespace l = true
         ∧ all_whitespace r = true
         ∧ (∀ c t, trim s = String c t → is_whitespace c = false)
         ∧ (∀ t c, trim s = t +:+ String c "" → is_whitespace c = false).
Proof.
  destruct (trimStart_spec s) as (l & Heq & Hl & Hfirst).
  destruct (trimEnd_spec (trimStart s)) as (r & Hr & Hws & Hlast).
  exists l, r. unfold trim. rewrite <- Hr. repeat split; try done.
  intros c t Ht. destruct (trimStart s) as [|x u] eqn:Hu; [done |].
  destruct (trimEnd_head _ x u eq_refl (Hfirst x u eq_refl)) as [r' Hr'].
  rewrite Hr' in Ht. injection Ht as <- _. by apply (Hfirst x u).
Qed.

End String_facts.

(** ** Facts about property lists *)
Section Property_facts.

Lemma lookup_set_prop_eq k v props : lookup_prop k (set_prop k v props) = Some v.
Proof.
  induction props as [|[k' v'] props IH]; cbn.
  - by rewrite bool_decide_eq_true_2.
  - case_bool_decide as Hk; cbn.
    + by rewrite bool_decide_eq_true_2.
    + by rewrite bool_decide_eq_false_2.
Qed.

Lemma lookup_set_prop_ne k k' v props :
  k ≠ k' → lookup_prop k (set_prop k' v props) = lookup_prop k props.
Proof.
  intros Hne. induction props as [|[k'' v''] props IH]; cbn.
  - by rewrite bool_decide_eq_false_2.
  - case_bool_decide as Hk; cbn.
    + subst k''. by rewrite !bool_decide_eq_false_2.
    + case_bool_decide; [done | apply IH].
Qed.

Lemma elem_of_keys k props : k ∈ props.*1 ↔ is_Some (lookup_prop k props).
Proof.
  induction props as [|[k' v'] props IH]; cbn.
  - split; [by intros ?%elem_of_nil | by intros [? ?]].
  - rewrite elem_of_cons. case_bool_decide as Hk; cbn in *.
    + split; [by eexists | by left].
    + rewrite IH. split; [by intros [? | ?] | by right].
Qed.

Lemma lookup_prop_None k props : k ∉ props.*1 ↔ lookup_prop k props = None.
Proof. rewrite elem_of_keys, <- eq_None_not_Some. done. Qed.

(** Copying, for a source with distinct keys: the source's value where the
    source has the key, the target's value elsewhere. *)
Lemma lookup_copy_props k target source :
  NoDup source.*1 →
  lookup_prop k (copy_props target source)
  = match lookup_prop k source with
    | Some v => Some v
    | None => lookup_prop k target
    end.
Proof.
  unfold copy_props. revert target.
  induction source as [|[k' v'] source IH]; intros target Hnodup; [done |].
  apply NoDup_cons in Hnodup as [Hfresh Hnodup]. cbn in *.
  rewrite IH by done. case_bool_decide as Hk.
  - subst k'. apply lookup_prop_None in Hfresh. by rewrite Hfresh, lookup_set_prop_eq.
  - by rewrite lookup_set_prop_ne.
Qed.

Lemma set_prop_keys k v props :
  (set_prop k v props).*1 = if bool_decide (k ∈ props.*1) then props.*1 else props.*1 ++ [k].
Proof.
  induction props as [|[k' v'] props IH]; cbn.
  - by rewrite bool_decide_eq_false_2 by apply not_elem_of_nil.
  - destruct (decide (k = k')) as [-> | Hk].
    + rewrite (bool_decide_eq_true_2 (k' = k')) by done.
      by rewrite bool_decide_eq_true_2 by left.
    + rewrite (bool_decide_eq_false_2 (k = k')) by done. cbn. rewrite IH.
      destruct (decide (k ∈ props.*1)) as [Hin | Hin].
      * rewrite (bool_decide_eq_true_2 _ Hin). by rewrite bool_decide_eq_true_2 by (by right).
      * rewrite (bool_decide_eq_false_2 _ Hin).
        rewrite bool_decide_eq_false_2; [done |]. by intros [? | ?]%elem_of_cons.
Qed.

Lemma set_prop_NoDup k v props : NoDup props.*1 → NoDup (set_prop k v props).*1.
Proof.
  intros Hnodup. rewrite set_prop_keys. case_bool_decide as Hin; [done |].
  apply NoDup_app. split; [done |]. split; [| apply NoDup_singleton].
  by intros x Hx ->%list_elem_of_singleton.
Qed.

Lemma copy_props_NoDup target source : NoDup target.*1 → NoDup (copy_props target source).*1.
Proof.
  unfold copy_props. revert target.
  induction source as [|[k v] source IH]; intros target Hnodup; [done |].
  cbn. by apply IH, set_prop_NoDup.
Qed.

End Property_facts.

(** ** [create_project] with an unsupported type (C1) *)
Section Create_project.
Context {rt : Runtime}.

Lemma templates_unsupported type typescript :
  type ∉ project_types → assoc type (templates typescript) = None.
Proof.
  unfold project_types. rewrite !not_elem_of_cons. intros (? & ? & ? & ? & ? & _).
  cbn. by rewrite !bool_decide_eq_false_2.
Qed.

(** C1, as the code has it.  For every [create_project] request whose
    [type] is not one of react, node, next, express, fastify, the call fails
    with a protocol error, and by then the handler has asked for the
    directory [path/name] to be created and has done nothing else: the
    [mkdir] comes first, the type is looked up after it, no command is run,
    no file is written and the document store is unchanged. *)
Theorem create_project_unsupported_type (args : CreateProjectArgs.t) (st : ServerState) :
  CreateProjectArgs.type args ∉ project_types →
  let projectPath := path_join (CreateProjectArgs.path args) (CreateProjectArgs.name args) in
  ∃ code message st',
    handleCreateProject args st = (inl (McpError code message), st')
    ∧ adds st st' [Mkdir projectPath].
Proof.
  intros Htype projectPath.
  unfold handleCreateProject, getProjectTemplate, property.
  rewrite (templates_unsupported _ _ Htype).
  autounfold with server_ops. fold projectPath. step_calls.
  - eexists _, _, _. by split.
  - destruct r. case_bool_decide; cbn; eexists _, _, _; by split.
Qed.

(** Every failure of [create_project] reaches the caller as an internal
    error: the handler's [catch] wraps whatever was thrown, the
    [InvalidParams] of [getProjectTemplate] included. *)
Lemma handleCreateProject_throws args st e st' :
  handleCreateProject args st = (inl e, st') →
  ∃ message, e = McpError InternalError message.
Proof.
  unfold handleCreateProject. intros [e0 ->]%try_catch_rethrow_throws. by eexists.
Qed.

End Create_project.

(** C1 as stated fails: on an empty file system, a request for a project
    of type [vue] is answered with an internal error, not [InvalidParams],
    and leaves the new directory [/tmp/app] behind. *)
Lemma create_project_unsupported_type_counterexample :
  let args := {| CreateProjectArgs.name := "app"; CreateProjectArgs.type := "vue";
                 CreateProjectArgs.path := "/tmp"; CreateProjectArgs.typescript := VUndefined |} in
  let r := handleCreateProject (rt := Mem.runtime) args (Mem.start ∅) in
  ("vue" ∉ project_types)
  ∧ r.1 = inl (McpError InternalError
                 "Failed to create project: MCP error -32602: Unsupported project type: vue")
  ∧ os (Mem.start ∅) !! "/tmp/app" = None
  ∧ os r.2 !! "/tmp/app" = Some Mem.Dir
  ∧ calls r.2 = [Mkdir "/tmp/app"].
Proof. cbv zeta. split; [apply (bool_decide_unpack _); by vm_compute | by vm_compute]. Qed.

Lemma create_project_unsupported_type_witness :
  let args := {| CreateProjectArgs.name := "app"; CreateProjectArgs.type := "vue";
                 CreateProjectArgs.path := "/tmp"; CreateProjectArgs.typescript := VUndefined |} in
  ("vue" ∉ project_types)
  ∧ ∃ code message st',
      handleCreateProject (rt := Mem.runtime) args (Mem.start ∅) = (inl (McpError code message), st')
      ∧ adds (Mem.start ∅) st' [Mkdir "/tmp/app"].
Proof.
  intros args.
  assert (H : CreateProjectArgs.type args ∉ project_types)
    by (apply (bool_decide_unpack _); vm_compute; exact I).
  split; [exact H |].
  exact (create_project_unsupported_type (rt := Mem.runtime) args (Mem.start ∅) H).
Defined.

(** ** The document store (C2) *)
Section Document_store.
Context {rt : Runtime}.

(** Reading an id that the store does not hold. *)
Lemma readResource_absent uri id st :
  url_hostname uri = inr id →
  projectDocs st !! id = None →
  readResource uri st = (inl (McpError MethodNotFound ("Documentation not found for " +:+ id)), st).
Proof.
  intros Hhost Hnone. unfold readResource. rewrite Hhost.
  autounfold with server_ops. by rewrite Hnone.
Qed.

(** Reading an id stored with a non-empty text. *)
Lemma readResource_stored uri id c text st :
  url_hostname uri = inr id →
  projectDocs st !! id = Some (String c text) →
  readResource uri st = (inr {| contents_uri := uri; contents_text := String c text |}, st).
Proof.
  intros Hhost Hsome. unfold readResource. rewrite Hhost.
  autounfold with server_ops. by rewrite Hsome.
Qed.

(** Every generated documentation text starts with a heading. *)
Lemma render_documentation_heading args st content fileName st' :
  CreateDocumentationArgs.type args ∈ documentation_types →
  render_documentation args st = (inr (content, fileName), st') →
  ∃ text, content = String "#" text.
Proof.
  unfold documentation_types. rewrite !elem_of_cons, elem_of_nil.
  unfold render_documentation. intros [-> | [-> | [-> | []]]] H; cbn in H.
  - apply bind_ok in H as (c & st1 & H & [= <- _ _]).
    unfold generateProjectDocumentation in H.
    repeat (apply bind_ok in H as (? & ? & _ & H)); cbv beta in H.
    injection H as <- _. by eexists.
  - injection H as <- _ _. by eexists.
  - destruct (CreateDocumentationArgs.name args) as [[|c n]|]; [done | | done].
    apply bind_ok in H as (c' & st1 & H & [= <- _ _]).
    unfold generateComponentDoc in H. apply try_catch_rethrow_ok in H.
    apply bind_ok in H as (? & ? & _ & H). injection H as <- _. by eexists.
Qed.

(** C2.  Reading a content item whose id the store never received fails
    with the not-found error; and whenever a [create_documentation] call (of
    one of the three declared types) succeeds, reading the item whose id is
    the last segment of the call's [path] right after it returns exactly the
    text that the call wrote to the documentation file. *)
Theorem documentation_round_trip :
  (∀ uri id st,
     url_hostname uri = inr id →
     projectDocs st !! id = None →
     ∃ message, readResource uri st = (inl (McpError MethodNotFound message), st))
  ∧ (∀ (args : CreateDocumentationArgs.t) st result st' uri,
       CreateDocumentationArgs.type args ∈ documentation_types →
       handleCreateDocumentation args st = (inr result, st') →
       url_hostname uri = inr (path_basename (CreateDocumentationArgs.path args)) →
       ∃ content fileName,
         last (calls st')
           = Some (WriteFile (path_join (CreateDocumentationArgs.path args) fileName) content)
         ∧ readResource uri st'
           = (inr {| contents_uri := uri; contents_text := content |}, st')).
Proof.
  split.
  - intros uri id st Hhost Hnone. eexists. by apply readResource_absent.
  - intros args st result st' uri Htype Hrun Hhost.
    unfold handleCreateDocumentation in Hrun.
    apply bind_ok in Hrun as ([] & st1 & _ & Hrun).
    apply try_catch_rethrow_ok in Hrun.
    apply bind_ok in Hrun as ([content fileName] & st2 & Hrender & Hrun).
    apply bind_ok in Hrun as ([] & st3 & Hwrite & Hrun).
    apply bind_ok in Hrun as ([] & st4 & Hset & Hrun).
    injection Hrun as _ <-.
    apply syscall_ok in Hwrite as [_ [Hcalls _]].
    injection Hset as <-.
    destruct (render_documentation_heading _ _ _ _ _ Htype Hrender) as [text ->].
    exists (String "#" text), fileName. split.
    + cbn. rewrite Hcalls. by rewrite last_snoc.
    + apply (readResource_stored _ _ _ _ _ Hhost). cbn. by rewrite lookup_insert_eq.
Qed.

End Document_store.

Lemma documentation_round_trip_witness :
  let args := {| CreateDocumentationArgs.path := "/work/proj";
                 CreateDocumentationArgs.type := "api";
                 CreateDocumentationArgs.name := None |} in
  let run := handleCreateDocumentation (rt := Mem.runtime) args (Mem.start ∅) in
  CreateDocumentationArgs.type args ∈ documentation_types
  ∧ run.1 = inr (TextContent "Documentation created successfully at /work/proj/API.md")
  ∧ url_hostname (Runtime := Mem.runtime) "docs://proj" = inr "proj"
  ∧ (∃ message,
       readResource (rt := Mem.runtime) "docs://proj" (Mem.start ∅)
         = (inl (McpError MethodNotFound message), Mem.start ∅))
  ∧ ∃ content fileName,
      last (calls run.2) = Some (WriteFile (Mem.join_path "/work/proj" fileName) content)
      ∧ readResource (rt := Mem.runtime) "docs://proj" run.2
        = (inr {| contents_uri := "docs://proj"; contents_text := content |}, run.2).
Proof.
  intros args run.
  assert (Htype : CreateDocumentationArgs.type args ∈ documentation_types)
    by (apply (bool_decide_unpack _); vm_compute; exact I).
  assert (Hok : run.1 = inr (TextContent "Documentation created successfully at /work/proj/API.md"))
    by (vm_compute; reflexivity).
  destruct (documentation_round_trip (rt := Mem.runtime)) as [Habsent Hround].
  split; [exact Htype |]. split; [exact Hok |]. split; [reflexivity |].
  split.
  - exact (Habsent "docs://proj" "proj" (Mem.start ∅) eq_refl eq_refl).
  - exact (Hround args (Mem.start ∅) _ run.2 "docs://proj" Htype (run_ok run _ Hok) eq_refl).
Defined.

(** ** Component documentation without a name (C3) *)
Section Create_documentation.
Context {rt : Runtime}.

(** C3, as the code has it.  For every [create_documentation] request with
    [type = "component"] and no [name] (absent, or the empty string), the call
    fails with a protocol error; before it fails, [validatePath] has examined
    [path] ([fs.access], then [fs.mkdir] or [fs.stat]), and nothing else has
    happened: no file is read or written and the document store is
    unchanged. *)
Theorem create_documentation_component_without_name
    (args : CreateDocumentationArgs.t) (st : ServerState) :
  CreateDocumentationArgs.type args = "component" →
  CreateDocumentationArgs.name args = None ∨ CreateDocumentationArgs.name args = Some "" →
  let path := CreateDocumentationArgs.path args in
  ∃ code message st' l,
    handleCreateDocumentation args st = (inl (McpError code message), st')
    ∧ adds st st' l
    ∧ (l = [Access path; Mkdir path] ∨ l = [Access path; Stat path]).
Proof.
  intros Htype Hname path.
  destruct (validatePath_adds path st) as (l & Hadds & Hl).
  unfold handleCreateDocumentation, render_documentation. fold path.
  rewrite Htype. unfold mbind at 1, M_bind at 1.
  destruct (validatePath path st) as [[e|[]] st1] eqn:Hvalidate.
  - destruct (validatePath_throws _ _ _ _ Hvalidate) as [message ->].
    by exists InvalidParams, message, st1, l.
  - autounfold with server_ops.
    destruct Hname as [-> | ->]; cbn; by eexists _, _, st1, l.
Qed.

(** A failure of [create_documentation] is the [InvalidParams] of
    [validatePath], or an internal error: the handler's [catch] wraps
    whatever is thrown after the path check, the [InvalidParams] for the
    missing component name included. *)
Lemma handleCreateDocumentation_throws args st e st' :
  handleCreateDocumentation args st = (inl e, st') →
  ∃ message, e = McpError InvalidParams message ∨ e = McpError InternalError message.
Proof.
  unfold handleCreateDocumentation. unfold mbind at 1, M_bind at 1.
  destruct (validatePath _ st) as [[e0|[]] st1] eqn:Hvalidate.
  - intros [= <- <-]. destruct (validatePath_throws _ _ _ _ Hvalidate) as [message ->].
    exists message. by left.
  - intros [e0 ->]%try_catch_rethrow_throws. eexists. by right.
Qed.

End Create_documentation.

(** C3 as stated fails: on an empty file system the request is answered
    with an internal error, not [InvalidParams], after the directory [/docs]
    has been looked up and created. *)
Lemma create_documentation_component_without_name_counterexample :
  let args := {| CreateDocumentationArgs.path := "/docs";
                 CreateDocumentationArgs.type := "component";
                 CreateDocumentationArgs.name := None |} in
  let r := handleCreateDocumentation (rt := Mem.runtime) args (Mem.start ∅) in
  r.1 = inl (McpError InternalError
               "Failed to create documentation: MCP error -32602: Component name is required for component documentation")
  ∧ calls r.2 = [Access "/docs"; Mkdir "/docs"]
  ∧ os (Mem.start ∅) !! "/docs" = None
  ∧ os r.2 !! "/docs" = Some Mem.Dir.
Proof. by vm_compute. Qed.

Lemma create_documentation_component_without_name_witness :
  let args := {| CreateDocumentationArgs.path := "/docs";
                 CreateDocumentationArgs.type := "component";
                 CreateDocumentationArgs.name := None |} in
  CreateDocumentationArgs.type args = "component"
  ∧ (CreateDocumentationArgs.name args = None ∨ CreateDocumentationArgs.name args = Some "")
  ∧ ∃ code message st' l,
      handleCreateDocumentation (rt := Mem.runtime) args (Mem.start ∅)
        = (inl (McpError code message), st')
      ∧ adds (Mem.start ∅) st' l
      ∧ (l = [Access "/docs"; Mkdir "/docs"] ∨ l = [Access "/docs"; Stat "/docs"]).
Proof.
  intros args.
  split; [reflexivity |]. split; [left; reflexivity |].
  exact (create_documentation_component_without_name (rt := Mem.runtime) args (Mem.start ∅)
           eq_refl (or_introl eq_refl)).
Defined.

(** ** [update_tsconfig] (C4) *)
Section Update_tsconfig.
Context {rt : Runtime}.

(** A successful [update_tsconfig] loads a configuration, merges the
    options into it, and ends by writing the result to [tsconfig.json]. *)
Lemma handleUpdateTsConfig_ok path options st result st' :
  handleUpdateTsConfig {| UpdateTsConfigArgs.path := path;
                          UpdateTsConfigArgs.options := options |} st = (inr result, st') →
  ∃ tsconfig compilerOptions tsconfig',
    loaded_tsconfig path st = inr tsconfig
    ∧ get tsconfig "compilerOptions" = Some compilerOptions
    ∧ put tsconfig "compilerOptions" (spread2 compilerOptions options) = Some tsconfig'
    ∧ last (calls st')
      = Some (WriteFile (path_join path "tsconfig.json") (JSON_stringify tsconfig')).
Proof.
  intros Hrun. unfold handleUpdateTsConfig in Hrun. cbn [UpdateTsConfigArgs.path] in Hrun.
  apply bind_ok in Hrun as ([] & st1 & Hvalidate & Hrun).
  apply try_catch_rethrow_ok in Hrun. cbn [UpdateTsConfigArgs.options] in Hrun.
  apply bind_ok in Hrun as (tsconfig & st2 & Hload & Hrun).
  apply bind_ok in Hrun as (tsconfig' & st3 & Hmerge & Hrun).
  apply bind_ok in Hrun as ([] & st4 & [_ [Hcalls _]]%syscall_ok & [= _ <-]).
  unfold merge_options in Hmerge.
  apply bind_ok in Hmerge as (compilerOptions & st2' & Hget & Hput).
  unfold or_throw in Hget, Hput.
  destruct (get tsconfig "compilerOptions") as [c|] eqn:Hc; [| done].
  injection Hget as <- <-.
  destruct (put tsconfig "compilerOptions" (spread2 c options)) as [t|] eqn:Ht; [| done].
  injection Hput as <- <-.
  exists tsconfig, c, t. unfold loaded_tsconfig. rewrite Hvalidate. cbn [snd]. rewrite Hload.
  repeat split; try done. by rewrite Hcalls, last_snoc.
Qed.

(** Loading succeeds with the parsed text when the file can be read. *)
Lemma loaded_tsconfig_parsed path st text tsconfig :
  tsconfig_text path st = inr text →
  JSON_parse text = inr tsconfig →
  loaded_tsconfig path st = inr tsconfig.
Proof.
  unfold tsconfig_text, loaded_tsconfig, load_tsconfig, try_catch, mbind, M_bind, parse.
  destruct (readFile _ _) as [[e|text'] st1]; cbn [fst]; [by intros [=] |].
  intros [= ->] ->. done.
Qed.

(** C4.  [update_tsconfig] merges the caller's options into
    [compilerOptions], the caller's value winning.  Take two successful calls
    in a row for the same path, with option objects [o1] then [o2], the first
    one starting from a configuration that is an object, and the second one
    reading back what the first one wrote.  Then the configuration written by
    the second call has a [compilerOptions] object that holds every key of
    [o1] and of [o2], with the second call's value for each key of [o2] and
    the first call's value for each key of [o1] that [o2] does not have. *)
Theorem update_tsconfig_last_write_wins
    (path : string) (o1 o2 f0 : list (string * value)) (st0 st1 st2 : ServerState)
    (r1 r2 : ToolResult) :
  let tsconfigPath := path_join path "tsconfig.json" in
  let written := with_options f0 (VObject o1) in
  NoDup o1.*1 →
  NoDup o2.*1 →
  handleUpdateTsConfig {| UpdateTsConfigArgs.path := path;
                          UpdateTsConfigArgs.options := VObject o1 |} st0 = (inr r1, st1) →
  handleUpdateTsConfig {| UpdateTsConfigArgs.path := path;
                          UpdateTsConfigArgs.options := VObject o2 |} st1 = (inr r2, st2) →
  loaded_tsconfig path st0 = inr (VObject f0) →
  tsconfig_text path st1 = inr (JSON_stringify written) →
  JSON_parse (JSON_stringify written) = inr written →
  last (calls st1) = Some (WriteFile tsconfigPath (JSON_stringify written))
  ∧ ∃ tsconfig merged,
      last (calls st2) = Some (WriteFile tsconfigPath (JSON_stringify tsconfig))
      ∧ get tsconfig "compilerOptions" = Some (VObject merged)
      ∧ (∀ k, k ∈ o1.*1 ∨ k ∈ o2.*1 → k ∈ merged.*1)
      ∧ (∀ k v, lookup_prop k o2 = Some v → lookup_prop k merged = Some v)
      ∧ (∀ k v, lookup_prop k o1 = Some v → k ∉ o2.*1 → lookup_prop k merged = Some v).
Proof.
  intros tsconfigPath written Hnodup1 Hnodup2 Hrun1 Hrun2 Hloaded Htext Hjson.
  apply handleUpdateTsConfig_ok in Hrun1 as (t1 & c1 & t1' & Hl1 & Hget1 & Hput1 & Hw1).
  apply handleUpdateTsConfig_ok in Hrun2 as (t2 & c2 & t2' & Hl2 & Hget2 & Hput2 & Hw2).
  rewrite Hloaded in Hl1. injection Hl1 as <-.
  rewrite (loaded_tsconfig_parsed _ _ _ _ Htext Hjson) in Hl2. injection Hl2 as <-.
  cbn in Hget1. injection Hget1 as <-. cbn in Hput1. injection Hput1 as <-.
  split; [exact Hw1 |].
  unfold written, with_options in Hget2, Hput2. cbn in Hget2, Hput2.
  rewrite lookup_set_prop_eq in Hget2. injection Hget2 as <-.
  injection Hput2 as <-.
  set (c0 := default VUndefined (lookup_prop "compilerOptions" f0)) in *.
  set (m1 := copy_props (copy_props [] (own_entries c0)) o1) in *.
  set (merged := copy_props (copy_props [] m1) o2).
  assert (Hm1 : NoDup m1.*1) by (apply copy_props_NoDup, copy_props_NoDup, NoDup_nil_2).
  assert (Hlookup : ∀ k, lookup_prop k merged
                         = match lookup_prop k o2 with
                           | Some v => Some v
                           | None => match lookup_prop k o1 with
                                     | Some v => Some v
                                     | None => lookup_prop k (copy_props [] (own_entries c0))
                                     end
                           end).
  { intros k. unfold merged, m1. rewrite !lookup_copy_props by done.
    destruct (lookup_prop k o2); [done |]. destruct (lookup_prop k o1); [done |].
    by destruct (lookup_prop k _). }
  eexists _, merged. split; [exact Hw2 |].
  split; [cbn; by rewrite lookup_set_prop_eq |].
  split; [| split].
  - intros k Hk. apply elem_of_keys. rewrite Hlookup.
    destruct (lookup_prop k o2) eqn:H2; [done |].
    destruct (lookup_prop k o1) eqn:H1; [done |].
    destruct Hk as [Hk | Hk]; apply elem_of_keys in Hk as [? Hk]; congruence.
  - intros k v Hk. by rewrite Hlookup, Hk.
  - intros k v Hk Hno. apply lookup_prop_None in Hno. by rewrite Hlookup, Hno, Hk.
Qed.

End Update_tsconfig.

Lemma update_tsconfig_last_write_wins_witness :
  let o1 := [("strict", VBool true); ("target", VString "es2020")] in
  let o2 := [("target", VString "es2022"); ("outDir", VString "dist")] in
  let f0 := [ ("compilerOptions", VObject []);
              ("include", VArray [VString "src/**/*"]);
              ("exclude", VArray [VString "node_modules"; VString "dist"]) ] in
  let call options := handleUpdateTsConfig (rt := Mem.runtime)
                        {| UpdateTsConfigArgs.path := "/proj";
                           UpdateTsConfigArgs.options := VObject options |} in
  let success := TextContent "Updated TypeScript configuration at /proj/tsconfig.json" in
  let st0 := Mem.start ∅ in
  let st1 := (call o1 st0).2 in
  let st2 := (call o2 st1).2 in
  (call o1 st0).1 = inr success
  ∧ (call o2 st1).1 = inr success
  ∧ ∃ tsconfig merged,
      last (calls st2) = Some (WriteFile "/proj/tsconfig.json" (Mem.stringify tsconfig))
      ∧ get tsconfig "compilerOptions" = Some (VObject merged)
      ∧ lookup_prop "strict" merged = Some (VBool true)
      ∧ lookup_prop "target" merged = Some (VString "es2022")
      ∧ lookup_prop "outDir" merged = Some (VString "dist").
Proof.
  intros o1 o2 f0 call success st0 st1 st2.
  assert (Hok1 : (call o1 st0).1 = inr success) by (vm_compute; reflexivity).
  assert (Hok2 : (call o2 st1).1 = inr success) by (vm_compute; reflexivity).
  assert (Hnodup1 : NoDup o1.*1) by (apply (bool_decide_unpack _); vm_compute; exact I).
  assert (Hnodup2 : NoDup o2.*1) by (apply (bool_decide_unpack _); vm_compute; exact I).
  assert (Hloaded : loaded_tsconfig (rt := Mem.runtime) "/proj" st0 = inr (VObject f0))
    by (vm_compute; reflexivity).
  assert (Htext : tsconfig_text (rt := Mem.runtime) "/proj" st1
                  = inr (Mem.stringify (with_options f0 (VObject o1))))
    by (vm_compute; reflexivity).
  assert (Hjson : Mem.parse (Mem.stringify (with_options f0 (VObject o1)))
                  = inr (with_options f0 (VObject o1)))
    by (vm_compute; reflexivity).
  split; [exact Hok1 |]. split; [exact Hok2 |].
  destruct (update_tsconfig_last_write_wins (rt := Mem.runtime) "/proj" o1 o2 f0 st0 st1 st2
              success success Hnodup1 Hnodup2 (run_ok _ _ Hok1) (run_ok _ _ Hok2) Hloaded Htext Hjson)
    as (_ & tsconfig & merged & Hwrite & Hget & _ & Hsecond & Hfirst).
  exists tsconfig, merged. split; [exact Hwrite |]. split; [exact Hget |].
  split; [| split].
  - apply (Hfirst "strict" (VBool true)); [reflexivity |].
    apply (bool_decide_unpack _). vm_compute. exact I.
  - exact (Hsecond "target" (VString "es2022") eq_refl).
  - exact (Hsecond "outDir" (VString "dist") eq_refl).
Defined.

(** ** Unknown names and required prompt arguments (C5, C6) *)
Section Dispatch.
Context {rt : Runtime}.

Lemma callTool_unknown name args st :
  name ∉ tool_names →
  callTool name args st = (inl (McpError MethodNotFound ("Unknown tool: " +:+ name)), st).
Proof.
  unfold tool_names. rewrite !not_elem_of_cons. intros (? & ? & ? & ? & ? & ? & ? & _).
  unfold callTool. by rewrite !bool_decide_eq_false_2.
Qed.

Lemma prompts_unknown name :
  name ∉ prompt_names → assoc name prompts = None.
Proof.
  unfold prompt_names. rewrite !not_elem_of_cons. intros (? & ? & ? & ? & ? & _).
  cbn. by rewrite !bool_decide_eq_false_2.
Qed.

Lemma getPrompt_unknown name args st :
  name ∉ prompt_names →
  name ∉ object_prototype_members →
  getPrompt name args st = (inl (McpError InvalidParams ("Prompt not found: " +:+ name)), st).
Proof.
  intros Hname Hproto. unfold getPrompt, property.
  by rewrite (prompts_unknown _ Hname), bool_decide_eq_false_2.
Qed.

(** A request for the prompt [__proto__] passes the lookup and is rejected
    by [generatePromptMessages]. *)
Lemma getPrompt_proto args st :
  getPrompt "__proto__" args st
  = (inl (McpError InvalidParams "Invalid prompt name: __proto__"), st).
Proof. reflexivity. Qed.

(** C6, as the code has it.  A request naming an unknown action, or a
    content id that the store does not hold, is answered with the
    method-not-found code; a request naming an unknown prompt (neither one of
    the five prompts nor the name of a member of [Object.prototype]) is
    answered with the invalid-params code. *)
Theorem unknown_name_error_codes :
  (∀ name args st,
     name ∉ tool_names →
     ∃ message, callTool name args st = (inl (McpError MethodNotFound message), st))
  ∧ (∀ uri id st,
       url_hostname uri = inr id →
       projectDocs st !! id = None →
       ∃ message, readResource uri st = (inl (McpError MethodNotFound message), st))
  ∧ (∀ name args st,
       name ∉ prompt_names →
       name ∉ object_prototype_members →
       ∃ message, getPrompt name args st = (inl (McpError InvalidParams message), st)).
Proof.
  repeat split.
  - intros. eexists. by apply callTool_unknown.
  - intros. eexists. by apply readResource_absent.
  - intros. eexists. by apply getPrompt_unknown.
Qed.

(** *** Required prompt arguments *)

(** [!args?.[key]] holds when the argument is absent or empty. *)
Lemma missing_spec args key :
  missing args key = true ↔ arg args key = None ∨ arg args key = Some "".
Proof.
  unfold missing. destruct (arg args key) as [[|c s]|]; split; try tauto; try done.
  by intros [|].
Qed.

Lemma supplied_spec args key :
  missing args key = false ↔ ∃ c s, arg args key = Some (String c s).
Proof.
  unfold missing. destruct (arg args key) as [[|c s]|]; split; try done; eauto.
  all: by intros (? & ? & ?).
Qed.

Lemma validate_arguments_first_missing before a after args st :
  (∀ b, b ∈ before → required b = true → missing args (arg_name b) = false) →
  required a = true →
  missing args (arg_name a) = true →
  validate_arguments (before ++ a :: after) args st
  = (inl (McpError InvalidParams ("Missing required argument: " +:+ arg_name a)), st).
Proof.
  intros Hbefore Hreq Hmissing. induction before as [|b before IH]; cbn.
  - by rewrite Hreq, Hmissing.
  - destruct (required b) eqn:Hb; cbn.
    + rewrite (Hbefore b) by (done || by left).
      apply IH. intros b' Hin. apply Hbefore. by right.
    + apply IH. intros b' Hin. apply Hbefore. by right.
Qed.

Lemma validate_arguments_pass declared args st :
  (∀ b, b ∈ declared → required b = true → missing args (arg_name b) = false) →
  validate_arguments declared args st = (inr tt, st).
Proof.
  induction declared as [|b declared IH]; intros Hall; cbn; [done |].
  destruct (required b) eqn:Hb; cbn.
  - rewrite (Hall b) by (done || by left). apply IH. intros b' Hin. apply Hall. by right.
  - apply IH. intros b' Hin. apply Hall. by right.
Qed.

Lemma generatePromptMessages_known name args st :
  name ∈ prompt_names →
  ∃ messages, generatePromptMessages name args st = (inr messages, st).
Proof.
  unfold prompt_names. rewrite !elem_of_cons, elem_of_nil.
  intros [-> | [-> | [-> | [-> | [-> | []]]]]]; by eexists.
Qed.

Lemma prompts_known name prompt :
  assoc name prompts = Some prompt → name ∈ prompt_names.
Proof.
  destruct (decide (name ∈ prompt_names)) as [|Hno]; [done |].
  by rewrite (prompts_unknown _ Hno).
Qed.

(** C5.  For every request for one of the prompts: when some argument
    flagged required is absent or empty, the request fails with
    [InvalidParams] and the message names the first such argument in
    declaration order, so no message is rendered; when every required
    argument is present and non-empty, the messages are rendered. *)
Theorem prompt_required_arguments (name : string) (prompt : Prompt) (args : PromptArgs)
    (st : ServerState) :
  assoc name prompts = Some prompt →
  (∀ before a after,
     arguments prompt = before ++ a :: after →
     required a = true →
     arg args (arg_name a) = None ∨ arg args (arg_name a) = Some "" →
     (∀ b, b ∈ before → required b = true → ∃ c s, arg args (arg_name b) = Some (String c s)) →
     getPrompt name args st
     = (inl (McpError InvalidParams ("Missing required argument: " +:+ arg_name a)), st))
  ∧ ((∀ b, b ∈ arguments prompt → required b = true →
           ∃ c s, arg args (arg_name b) = Some (String c s)) →
     ∃ messages, getPrompt name args st = (inr messages, st)).
Proof.
  intros Hprompt. split.
  - intros before a after Hargs Hreq Hmissing Hbefore.
    unfold getPrompt, property. rewrite Hprompt, Hargs.
    unfold mbind, M_bind.
    rewrite validate_arguments_first_missing; [done | | done | by apply missing_spec].
    intros b Hin Hb. apply supplied_spec. by apply Hbefore.
  - intros Hall. unfold getPrompt, property. rewrite Hprompt.
    unfold mbind, M_bind. rewrite validate_arguments_pass.
    + apply generatePromptMessages_known. by eapply prompts_known.
    + intros b Hin Hb. apply supplied_spec. by apply Hall.
Qed.

End Dispatch.

(** C6 as stated fails for prompts: an unknown prompt name is answered with
    the invalid-params code, not with method-not-found. *)
Lemma unknown_name_error_codes_counterexample :
  ("no-such-prompt" ∉ prompt_names)
  ∧ getPrompt (rt := Mem.runtime) "no-such-prompt" None (Mem.start ∅)
    = (inl (McpError InvalidParams "Prompt not found: no-such-prompt"), Mem.start ∅)
  ∧ InvalidParams ≠ MethodNotFound.
Proof.
  split; [apply (bool_decide_unpack _); by vm_compute |].
  split; [reflexivity | discriminate].
Qed.

Lemma unknown_name_error_codes_witness :
  ("no_such_tool" ∉ tool_names)
  ∧ ("no-such-prompt" ∉ prompt_names)
  ∧ ("no-such-prompt" ∉ object_prototype_members)
  ∧ (∀ args, ∃ message,
       callTool (rt := Mem.runtime) "no_such_tool" args (Mem.start ∅)
       = (inl (McpError MethodNotFound message), Mem.start ∅))
  ∧ (∃ message,
       readResource (rt := Mem.runtime) "docs://nothing" (Mem.start ∅)
       = (inl (McpError MethodNotFound message), Mem.start ∅))
  ∧ (∃ message,
       getPrompt (rt := Mem.runtime) "no-such-prompt" None (Mem.start ∅)
       = (inl (McpError InvalidParams message), Mem.start ∅)).
Proof.
  assert (Htool : "no_such_tool" ∉ tool_names)
    by (apply (bool_decide_unpack _); vm_compute; exact I).
  assert (Hprompt : "no-such-prompt" ∉ prompt_names)
    by (apply (bool_decide_unpack _); vm_compute; exact I).
  assert (Hproto : "no-such-prompt" ∉ object_prototype_members)
    by (apply (bool_decide_unpack _); vm_compute; exact I).
  destruct (unknown_name_error_codes (rt := Mem.runtime)) as (Htools & Hdocs & Hprompts).
  split; [exact Htool |]. split; [exact Hprompt |]. split; [exact Hproto |].
  split; [| split].
  - intros args. exact (Htools "no_such_tool" args (Mem.start ∅) Htool).
  - exact (Hdocs "docs://nothing" "nothing" (Mem.start ∅) eq_refl eq_refl).
  - exact (Hprompts "no-such-prompt" None (Mem.start ∅) Hprompt Hproto).
Defined.

Lemma prompt_required_arguments_witness :
  let prompt := {| prompt_name := "analyze-code";
                   prompt_description := "Analyze code for potential improvements and best practices";
                   arguments :=
                     [ {| arg_name := "code"; arg_description := "Code to analyze";
                          required := true |};
                       {| arg_name := "language"; arg_description := "Programming language";
                          required := true |} ] |} in
  let args : PromptArgs := Some [("code", "let x = 1"); ("language", "")] in
  assoc "analyze-code" prompts = Some prompt
  ∧ getPrompt (rt := Mem.runtime) "analyze-code" args (Mem.start ∅)
    = (inl (McpError InvalidParams "Missing required argument: language"), Mem.start ∅).
Proof.
  intros prompt args. split; [reflexivity |].
  destruct (prompt_required_arguments (rt := Mem.runtime) "analyze-code" prompt args
              (Mem.start ∅) eq_refl) as [Hfirst _].
  refine (Hfirst [ {| arg_name := "code"; arg_description := "Code to analyze";
                      required := true |} ]
                 {| arg_name := "language"; arg_description := "Programming language";
                    required := true |} [] eq_refl eq_refl (or_intror eq_refl) _).
  intros b Hb _. apply list_elem_of_singleton in Hb as ->. by exists "l"%char, "et x = 1".
Defined.

(** ** The create-project prompt (C7) *)
Section Create_project_prompt.
Context {rt : Runtime}.

(** [args || {}] holds the same arguments as [args]. *)
Lemma arg_default (args : PromptArgs) key : arg (Some (default [] args)) key = arg args key.
Proof. by destruct args. Qed.

Lemma create_project_head_default (args : PromptArgs) :
  create_project_head (Some (default [] args)) = create_project_head args.
Proof. unfold create_project_head, features_of, show. by rewrite !arg_default. Qed.

Lemma listed_spec args token : token ∈ features_of args ↔ listed args token.
Proof.
  unfold listed, feature_pieces, features_of. destruct (arg args "features") as [f|].
  - rewrite list_elem_of_fmap. split; intros (piece & H1 & H2); by exists piece.
  - split; [by intros ?%elem_of_nil | by intros (? & ?%elem_of_nil & _)].
Qed.

(** The line appended for a feature: its guidance when listed, else empty. *)
Lemma guidance_line args token (line : string) :
  let l := if includes (features_of args) token then line else "" in
  (listed args token ∧ l = line) ∨ (¬ listed args token ∧ l = "").
Proof.
  cbv zeta. unfold includes. rewrite <- listed_spec. case_bool_decide; [by left | by right].
Qed.

Lemma getPrompt_create_project (args : PromptArgs) c p st :
  arg args "projectType" = Some (String c p) →
  getPrompt "create-project" args st
  = (inr [UserText (lines (create_project_head args
                             ++ create_project_guidance (features_of args)))], st).
Proof.
  intros Hp. unfold getPrompt. cbn [property assoc prompts bool_decide].
  change (property prompts "create-project") with (Some (Own
    {| prompt_name := "create-project";
       prompt_description := "Guide through creating a new Node.js project with best practices";
       arguments :=
         [ {| arg_name := "projectType";
              arg_description := "Type of project to create (react, node, next, express, fastify)";
              required := true |};
           {| arg_name := "features";
              arg_description := "Comma-separated list of features (e.g., typescript,testing,docker)";
              required := false |} ] |})).
  cbn [arguments validate_arguments required arg_name andb]. unfold missing. rewrite Hp.
  unfold mbind, M_bind, mret, M_ret.
  change (generatePromptMessages "create-project" (Some (default [] args)) st)
    with (inr (B := list PromptMessage) (A := exn)
            [UserText (lines (create_project_head (Some (default [] args))
                                ++ create_project_guidance (features_of (Some (default [] args)))))],
          st).
  rewrite create_project_head_default. unfold features_of. by rewrite arg_default.
Qed.

(** C7.  The create-project prompt splits [features] on commas, trims each
    piece, and closes the message with three lines: the line
    [6. TypeScript configuration recommendations] when [typescript] is
    listed, [7. Testing setup and frameworks] when [testing] is, and
    [8. Docker configuration guidance] when [docker] is, each line being
    empty when its token is not listed.  With
    [features = "typescript, docker"] the message is the text below: it
    shows the two features trimmed, ends with the TypeScript line, an empty
    line and the Docker line, and does not hold the testing line. *)
Theorem create_project_prompt_features :
  (∀ (args : PromptArgs) c p st,
     arg args "projectType" = Some (String c p) →
     ∃ l6 l7 l8,
       getPrompt "create-project" args st
       = (inr [UserText (lines (create_project_head args ++ [l6; l7; l8]))], st)
       ∧ (listed args "typescript" ∧ l6 = "6. TypeScript configuration recommendations"
          ∨ ¬ listed args "typescript" ∧ l6 = "")
       ∧ (listed args "testing" ∧ l7 = "7. Testing setup and frameworks"
          ∨ ¬ listed args "testing" ∧ l7 = "")
       ∧ (listed args "docker" ∧ l8 = "8. Docker configuration guidance"
          ∨ ¬ listed args "docker" ∧ l8 = ""))
  ∧ (∀ c p st,
       let projectType := String c p in
       let args : PromptArgs :=
         Some [("projectType", projectType); ("features", "typescript, docker")] in
       features_of args = ["typescript"; "docker"]
       ∧ listed args "typescript" ∧ listed args "docker" ∧ ¬ listed args "testing"
       ∧ ∃ text,
           getPrompt "create-project" args st = (inr [UserText text], st)
           ∧ text
             = lines
                 [ "Help me create a new " +:+ projectType
                     +:+ " project with these requirements:";
                   "";
                   "1. Project Type: " +:+ projectType;
                   "2. Features: typescript, docker";
                   "";
                   "Please provide:";
                   "1. Recommended project structure";
                   "2. Essential dependencies to include";
                   "3. Important configuration files";
                   "4. Best practices for this type of project";
                   "5. Common pitfalls to avoid";
                   "6. TypeScript configuration recommendations";
                   "";
                   "8. Docker configuration guidance" ]
           ∧ contains text "6. TypeScript configuration recommendations"
           ∧ contains text "8. Docker configuration guidance")
  ∧ (∀ st,
       let args : PromptArgs :=
         Some [("projectType", "node"); ("features", "typescript, docker")] in
       ∃ text,
         getPrompt "create-project" args st = (inr [UserText text], st)
         ∧ ¬ contains text "7. Testing setup and frameworks"
         ∧ ¬ contains text "Testing").
Proof.
  split; [| split].
  - intros args c p st Hp. eexists _, _, _. split; [by eapply getPrompt_create_project |].
    split; [| split].
    + exact (guidance_line args "typescript" "6. TypeScript configuration recommendations").
    + exact (guidance_line args "testing" "7. Testing setup and frameworks").
    + exact (guidance_line args "docker" "8. Docker configuration guidance").
  - intros c p st projectType args.
    assert (Hfeatures : features_of args = ["typescript"; "docker"]) by done.
    split; [exact Hfeatures |].
    split; [apply listed_spec; rewrite Hfeatures; by left |].
    split; [apply listed_spec; rewrite Hfeatures; right; by left |].
    split.
    { intros Hlisted%listed_spec. rewrite Hfeatures in Hlisted.
      by repeat (apply elem_of_cons in Hlisted as [? | Hlisted]; [done |]);
         apply elem_of_nil in Hlisted. }
    eexists. split; [by eapply getPrompt_create_project |].
    split; [done |]. split.
    + apply contains_join, elem_of_app. right. by left.
    + apply contains_join, elem_of_app. right. do 2 right. by left.
  - intros st args. eexists. split; [by eapply getPrompt_create_project |].
    split; intros H%has_substring_spec; vm_compute in H; discriminate.
Qed.

End Create_project_prompt.

Lemma create_project_prompt_features_witness :
  let args : PromptArgs := Some [("projectType", "express"); ("features", "docker ,testing")] in
  arg args "projectType" = Some "express"
  ∧ ∃ text,
      getPrompt (rt := Mem.runtime) "create-project" args (Mem.start ∅)
      = (inr [UserText text], Mem.start ∅)
      ∧ text
        = lines
            [ "Help me create a new express project with these requirements:";
              "";
              "1. Project Type: express";
              "2. Features: docker, testing";
              "";
              "Please provide:";
              "1. Recommended project structure";
              "2. Essential dependencies to include";
              "3. Important configuration files";
              "4. Best practices for this type of project";
              "5. Common pitfalls to avoid";
              "";
              "7. Testing setup and frameworks";
              "8. Docker configuration guidance" ].
Proof.
  intros args. split; [reflexivity |].
  destruct (create_project_prompt_features (rt := Mem.runtime)) as [Hgeneral _].
  destruct (Hgeneral args "e"%char "xpress" (Mem.start ∅) eq_refl)
    as (l6 & l7 & l8 & Hrun & H6 & H7 & H8).
  assert (Hfeatures : features_of args = ["docker"; "testing"]) by reflexivity.
  assert (Hno : ¬ listed args "typescript").
  { intros Hin%listed_spec. rewrite Hfeatures in Hin.
    apply elem_of_cons in Hin as [Hin | Hin]; [discriminate Hin |].
    apply elem_of_cons in Hin as [Hin | Hin]; [discriminate Hin |].
    by apply elem_of_nil in Hin. }
  assert (Htesting : listed args "testing")
    by (apply listed_spec; rewrite Hfeatures; right; left).
  assert (Hdocker : listed args "docker") by (apply listed_spec; rewrite Hfeatures; left).
  destruct H6 as [[Habs _] | [_ ->]]; [by destruct (Hno Habs) |].
  destruct H7 as [[_ ->] | [Habs _]]; [| by destruct (Habs Htesting)].
  destruct H8 as [[_ ->] | [Habs _]]; [| by destruct (Habs Hdocker)].
  eexists. split; [exact Hrun | reflexivity].
Defined.

(** ** [generate_component] (C8, C9) *)
Section Generate_component.
Context {rt : Runtime}.

(** A successful [generate_component] validates the path, then writes the
    component file and the documentation file, in this order. *)
Lemma handleGenerateComponent_ok args st result st' :
  handleGenerateComponent args st = (inr result, st') →
  let name := GenerateComponentArgs.name args in
  let path := GenerateComponentArgs.path args in
  ∃ l, (l = [Access path; Mkdir path] ∨ l = [Access path; Stat path])
       ∧ adds st st'
           (l ++ [ WriteFile (path_join path (name +:+ ".tsx")) (generateComponentContent args);
                   WriteFile (path_join path (name +:+ ".md"))
                             (generateComponentDocumentation args) ]).
Proof.
  intros Hrun name path. unfold handleGenerateComponent in Hrun. fold name path in Hrun.
  destruct (validatePath_adds path st) as (l & Hl & Hshape).
  apply bind_ok in Hrun as ([] & st1 & Hvalidate & Hrun). rewrite Hvalidate in Hl.
  apply try_catch_rethrow_ok in Hrun.
  apply bind_ok in Hrun as ([] & st2 & [_ Hw1]%syscall_ok & Hrun).
  apply bind_ok in Hrun as ([] & st3 & [_ Hw2]%syscall_ok & Hrun).
  injection Hrun as _ <-.
  exists l. split; [done |]. exact (adds_trans _ _ _ _ _ Hl (adds_trans _ _ _ _ _ Hw1 Hw2)).
Qed.

(** Conversely, the call succeeds as soon as the path is accepted and the
    file system takes the two writes. *)
Lemma handleGenerateComponent_succeeds args st st1 os2 os3 :
  let name := GenerateComponentArgs.name args in
  let path := GenerateComponentArgs.path args in
  let filePath := path_join path (name +:+ ".tsx") in
  validatePath path st = (inr tt, st1) →
  fs_writeFile filePath (generateComponentContent args) (os st1) = (inr tt, os2) →
  fs_writeFile (path_join path (name +:+ ".md")) (generateComponentDocumentation args) os2
  = (inr tt, os3) →
  (handleGenerateComponent args st).1
  = inr (TextContent ("Component " +:+ name +:+ " created successfully at " +:+ filePath)).
Proof.
  intros name path filePath Hvalidate Hw1 Hw2.
  unfold handleGenerateComponent. fold name path filePath.
  unfold mbind at 1, M_bind at 1. rewrite Hvalidate.
  autounfold with server_ops. unfold syscall. rewrite Hw1. cbn [os]. by rewrite Hw2.
Qed.

Lemma generateComponentContent_block args props :
  GenerateComponentArgs.props args = Some props →
  contains (generateComponentContent args)
           (interface_block ("interface " +:+ GenerateComponentArgs.name args +:+ "Props") props).
Proof.
  intros Hprops. unfold generateComponentContent, lines.
  assert (Hblock : propsInterface args
                   = interface_block ("interface " +:+ GenerateComponentArgs.name args +:+ "Props")
                       props) by (unfold propsInterface; by rewrite Hprops).
  rewrite <- Hblock.
  case_bool_decide; apply contains_join; do 2 right; by left.
Qed.

(** A successful [generate_component] has validated the path and then made
    the two writes on the file system, one after the other: the state it
    leaves is the one the second write returned. *)
Lemma handleGenerateComponent_writes args st result st' :
  handleGenerateComponent args st = (inr result, st') →
  let name := GenerateComponentArgs.name args in
  let path := GenerateComponentArgs.path args in
  let filePath := path_join path (name +:+ ".tsx") in
  let docPath := path_join path (name +:+ ".md") in
  ∃ st1 os2,
    validatePath path st = (inr tt, st1)
    ∧ fs_writeFile filePath (generateComponentContent args) (os st1) = (inr tt, os2)
    ∧ fs_writeFile docPath (generateComponentDocumentation args) os2 = (inr tt, os st')
    ∧ st' = after st1 (os st')
              [ WriteFile filePath (generateComponentContent args);
                WriteFile docPath (generateComponentDocumentation args) ]
    ∧ result = TextContent ("Component " +:+ name +:+ " created successfully at " +:+ filePath).
Proof.
  intros Hrun name path filePath docPath.
  unfold handleGenerateComponent in Hrun. fold name path filePath docPath in Hrun.
  apply bind_ok in Hrun as ([] & st1 & Hvalidate & Hrun).
  apply try_catch_rethrow_ok in Hrun.
  apply bind_ok in Hrun as ([] & st2 & Hw1 & Hrun).
  apply bind_ok in Hrun as ([] & st3 & Hw2 & Hrun).
  injection Hrun as <- <-.
  unfold writeFile, syscall in Hw1, Hw2.
  destruct (fs_writeFile filePath _ (os st1)) as [[m1|[]] os2] eqn:H1; [done |].
  injection Hw1 as <-. cbn [os projectDocs calls] in Hw2.
  destruct (fs_writeFile docPath _ os2) as [[m2|[]] os3] eqn:H2; [done |].
  injection Hw2 as <-. exists st1, os2. cbn [os].
  repeat split; try done. unfold after. cbn. by rewrite <- app_assoc.
Qed.

(** C8, as the code has it.  [generate_component] with
    [type = "functional"] and [props = {"count": "number"}] writes, with
    [fs.writeFile], a component file whose properties interface has the
    field [count: number;] and then a documentation file whose usage
    example passes [count={42}]: the call returns exactly when the path is
    accepted and the file system takes the two writes.  The example literal
    is chosen by the type name in lower case: string, number, boolean,
    array or string[], object, in any letter case, and [undefined] for every
    name whose lower-case form is none of these. *)
Theorem generate_component_count_example (name path : string) :
  let args := counter_args name path in
  let filePath := path_join path (name +:+ ".tsx") in
  let docPath := path_join path (name +:+ ".md") in
  let component := generateComponentContent args in
  let documentation := generateComponentDocumentation args in
  contains component
           ("interface " +:+ name +:+ "Props {" +:+ nl +:+ "    count: number;" +:+ nl +:+ "}")
  ∧ contains documentation ("<" +:+ name +:+ " count={42} />")
  ∧ (∀ st result st',
       handleGenerateComponent args st = (inr result, st') →
       ∃ l st1 os2,
         (l = [Access path; Mkdir path] ∨ l = [Access path; Stat path])
         ∧ validatePath path st = (inr tt, st1)
         ∧ fs_writeFile filePath component (os st1) = (inr tt, os2)
         ∧ fs_writeFile docPath documentation os2 = (inr tt, os st')
         ∧ adds st st' (l ++ [WriteFile filePath component; WriteFile docPath documentation])
         ∧ result
           = TextContent ("Component " +:+ name +:+ " created successfully at " +:+ filePath))
  ∧ (∀ st st1 os2 os3,
       validatePath path st = (inr tt, st1) →
       fs_writeFile filePath component (os st1) = (inr tt, os2) →
       fs_writeFile docPath documentation os2 = (inr tt, os3) →
       handleGenerateComponent args st
       = (inr (TextContent ("Component " +:+ name +:+ " created successfully at " +:+ filePath)),
          after st1 os3 [WriteFile filePath component; WriteFile docPath documentation]))
  ∧ (∀ type, toLowerCase type = "string" → getExampleValue type = dq +:+ "example" +:+ dq)
  ∧ (∀ type, toLowerCase type = "number" → getExampleValue type = "42")
  ∧ (∀ type, toLowerCase type = "boolean" → getExampleValue type = "true")
  ∧ (∀ type, toLowerCase type = "array" ∨ toLowerCase type = "string[]" →
       getExampleValue type
       = "[" +:+ dq +:+ "item1" +:+ dq +:+ ", " +:+ dq +:+ "item2" +:+ dq +:+ "]")
  ∧ (∀ type, toLowerCase type = "object" →
       getExampleValue type = "{ key: " +:+ dq +:+ "value" +:+ dq +:+ " }")
  ∧ (∀ type,
       toLowerCase type ∉ ["string"; "number"; "boolean"; "array"; "string[]"; "object"] →
       getExampleValue type = "undefined").
Proof.
  intros args filePath docPath component documentation.
  split; [| split; [| split; [| split]]].
  - eapply contains_trans; [by apply (generateComponentContent_block args) |].
    unfold interface_block. rewrite string_app_assoc, string_app_assoc. apply contains_refl.
  - unfold documentation, generateComponentDocumentation, lines.
    eapply contains_trans.
    + apply contains_join. do 12 right. by left.
    + apply contains_app_r, contains_app_r. apply contains_refl.
  - intros st result st' Hrun.
    destruct (handleGenerateComponent_writes args st result st' Hrun)
      as (st1 & os2 & Hvalidate & Hw1 & Hw2 & _ & Hresult).
    destruct (handleGenerateComponent_ok args st result st' Hrun) as (l & Hl & Hadds).
    exists l, st1, os2.
    split; [exact Hl |]. split; [exact Hvalidate |]. split; [exact Hw1 |].
    split; [exact Hw2 |]. split; [exact Hadds | exact Hresult].
  - intros st st1 os2 os3 Hvalidate Hw1 Hw2.
    unfold handleGenerateComponent.
    change (GenerateComponentArgs.name args) with name.
    change (GenerateComponentArgs.path args) with path.
    fold filePath docPath component documentation.
    unfold mbind at 1, M_bind at 1. rewrite Hvalidate.
    autounfold with server_ops. unfold syscall. rewrite Hw1. cbn [os projectDocs calls].
    rewrite Hw2. unfold after. cbn. by rewrite <- app_assoc.
  - split; [| split; [| split; [| split; [| split]]]].
    + intros type Htype. unfold getExampleValue. by rewrite Htype.
    + intros type Htype. unfold getExampleValue. by rewrite Htype.
    + intros type Htype. unfold getExampleValue. by rewrite Htype.
    + intros type [Htype | Htype]; unfold getExampleValue; by rewrite Htype.
    + intros type Htype. unfold getExampleValue. by rewrite Htype.
    + intros type. rewrite !not_elem_of_cons. intros (? & ? & ? & ? & ? & ? & _).
      unfold getExampleValue. by rewrite !bool_decide_eq_false_2.
Qed.

(** C9, as the code has it.  With [props] absent the generated component
    has an empty line where the interface block would stand; with [props]
    supplied, be it the empty mapping, the component contains the block
    [interface <name>Props { ... }]. *)
Theorem generate_component_props_interface (args : GenerateComponentArgs.t) :
  let name := GenerateComponentArgs.name args in
  (GenerateComponentArgs.props args = None →
     propsInterface args = ""
     ∧ generateComponentContent args
       = if bool_decide (GenerateComponentArgs.type args = "functional")
         then lines [ "import React from 'react';"; ""; ""; "";
                      "const " +:+ name +:+ ": React.FC = () => {";
                      "    return (";
                      "        <div>";
                      "            {/* Add your component content here */}";
                      "        </div>";
                      "    );";
                      "};";
                      "";
                      "export default " +:+ name +:+ ";";
                      "" ]
         else lines [ "import React, { Component } from 'react';"; ""; ""; "";
                      "class " +:+ name +:+ " extends Component {";
                      "    render() {";
                      "        return (";
                      "            <div>";
                      "                {/* Add your component content here */}";
                      "            </div>";
                      "        );";
                      "    }";
                      "}";
                      "";
                      "export default " +:+ name +:+ ";";
                      "" ])
  ∧ (∀ props,
       GenerateComponentArgs.props args = Some props →
       contains (generateComponentContent args)
                (interface_block ("interface " +:+ name +:+ "Props") props)
       ∧ contains (generateComponentContent args) ("interface " +:+ name +:+ "Props {")).
Proof.
  intros name. split.
  - intros Hnone. unfold generateComponentContent, propsInterface. rewrite Hnone.
    split; [done |]. by case_bool_decide.
  - intros props Hprops.
    pose proof (generateComponentContent_block args props Hprops) as Hblock.
    split; [done |]. eapply contains_trans; [exact Hblock |].
    unfold interface_block. fold name. rewrite string_app_assoc, string_app_assoc.
    exists "", (nl +:+ "    " +:+ join (nl +:+ "    ") (field_lines props) +:+ nl +:+ "}").
    by rewrite string_app_nil_l, !string_app_assoc.
Qed.

End Generate_component.

(** C9 as stated fails for the empty mapping: the component generated for
    [props = {}] contains an interface block, with no field. *)
Lemma generate_component_props_interface_counterexample :
  let args := {| GenerateComponentArgs.name := "Button";
                 GenerateComponentArgs.path := "/src";
                 GenerateComponentArgs.type := "functional";
                 GenerateComponentArgs.props := Some [] |} in
  propsInterface args = "interface ButtonProps {" +:+ nl +:+ "    " +:+ nl +:+ "}"
  ∧ has_substring "interface ButtonProps {" (generateComponentContent args) = true.
Proof. by vm_compute. Qed.

Lemma generate_component_props_interface_witness :
  let absent := {| GenerateComponentArgs.name := "Button";
                   GenerateComponentArgs.path := "/src";
                   GenerateComponentArgs.type := "class";
                   GenerateComponentArgs.props := None |} in
  let empty := {| GenerateComponentArgs.name := "Button";
                  GenerateComponentArgs.path := "/src";
                  GenerateComponentArgs.type := "class";
                  GenerateComponentArgs.props := Some [] |} in
  (propsInterface absent = ""
   ∧ has_substring "interface" (generateComponentContent absent) = false)
  ∧ contains (generateComponentContent empty) "interface ButtonProps {".
Proof.
  intros absent empty. split.
  - destruct (generate_component_props_interface absent) as [Habsent _].
    destruct (Habsent eq_refl) as [Hblock Hcontent].
    split; [exact Hblock |]. rewrite Hcontent. vm_compute. reflexivity.
  - destruct (generate_component_props_interface empty) as [_ Hsupplied].
    exact (proj2 (Hsupplied [] eq_refl)).
Defined.

(** C8 as stated fails on its last row: [String] is none of the six type
    names of the table, and its example is the one of [string], not
    [undefined]. *)
Lemma generate_component_count_example_counterexample :
  let args := {| GenerateComponentArgs.name := "Label";
                 GenerateComponentArgs.path := "/src";
                 GenerateComponentArgs.type := "functional";
                 GenerateComponentArgs.props := Some [("text", "String")] |} in
  ("String" ∉ ["string"; "number"; "boolean"; "array"; "string[]"; "object"])
  ∧ getExampleValue "String" = dq +:+ "example" +:+ dq
  ∧ getExampleValue "String" ≠ "undefined"
  ∧ has_substring ("<Label text={" +:+ dq +:+ "example" +:+ dq +:+ "} />")
                  (generateComponentDocumentation args) = true.
Proof.
  cbv zeta. split; [apply (bool_decide_unpack _); by vm_compute |].
  split; [by vm_compute |]. split; [by vm_compute | by vm_compute].
Qed.

Lemma generate_component_count_example_witness :
  let args := counter_args "Counter" "/src" in
  let run := handleGenerateComponent (rt := Mem.runtime) args (Mem.start ∅) in
  run.1 = inr (TextContent "Component Counter created successfully at /src/Counter.tsx")
  ∧ has_substring "count: number;" (generateComponentContent args) = true
  ∧ has_substring "<Counter count={42} />" (generateComponentDocumentation args) = true
  ∧ (∃ l st1 os2,
       (l = [Access "/src"; Mkdir "/src"] ∨ l = [Access "/src"; Stat "/src"])
       ∧ validatePath (rt := Mem.runtime) "/src" (Mem.start ∅) = (inr tt, st1)
       ∧ Mem.writeFile "/src/Counter.tsx" (generateComponentContent args) (os st1)
         = (inr tt, os2)
       ∧ Mem.writeFile "/src/Counter.md" (generateComponentDocumentation args) os2
         = (inr tt, os run.2)
       ∧ adds (Mem.start ∅) run.2
           (l ++ [ WriteFile "/src/Counter.tsx" (generateComponentContent args);
                   WriteFile "/src/Counter.md" (generateComponentDocumentation args) ])
       ∧ TextContent "Component Counter created successfully at /src/Counter.tsx"
         = TextContent "Component Counter created successfully at /src/Counter.tsx")
  ∧ os run.2 !! "/src/Counter.tsx" = Some (Mem.File (generateComponentContent args))
  ∧ os run.2 !! "/src/Counter.md" = Some (Mem.File (generateComponentDocumentation args)).
Proof.
  intros args run.
  assert (Hok : run.1 = inr (TextContent "Component Counter created successfully at /src/Counter.tsx"))
    by (vm_compute; reflexivity).
  split; [exact Hok |]. split; [vm_compute; reflexivity |]. split; [vm_compute; reflexivity |].
  destruct (generate_component_count_example (rt := Mem.runtime) "Counter" "/src")
    as (_ & _ & Hwrites & _).
  split; [exact (Hwrites (Mem.start ∅) _ run.2 (run_ok run _ Hok)) |].
  split; by vm_compute.
Defined.

(** ** The [typescript] flag of [create_project] (C10) *)
Section TypeScript_flag.
Context {rt : Runtime}.

Lemma install_ok prefix packages cwd st st' :
  install prefix packages cwd st = (inr tt, st') →
  adds st st' (install_calls prefix packages cwd).
Proof.
  unfold install, install_calls. destruct packages as [|p packages].
  - intros [= <-]. apply adds_nil.
  - intros Hrun. apply bind_ok in Hrun as (out & st1 & [_ Hcall]%syscall_ok & [= <-]). done.
Qed.

(** Every TypeScript template installs typed development dependencies. *)
Lemma templates_typed type template :
  assoc type (templates true) = Some template →
  "@types/node" ∈ devDependencies template.
Proof.
  cbn. repeat case_bool_decide; intros [= <-]; cbn; rewrite !elem_of_cons; tauto.
Qed.

(** A successful [create_project] found its template among the table's own
    entries and went through the steps in order. *)
Lemma handleCreateProject_ok args st result st' :
  handleCreateProject args st = (inr result, st') →
  let name := CreateProjectArgs.name args in
  let type := CreateProjectArgs.type args in
  let typescript := is_not_false (CreateProjectArgs.typescript args) in
  let projectPath := path_join (CreateProjectArgs.path args) name in
  ∃ template,
    assoc type (templates typescript) = Some template
    ∧ calls st'
      = calls st
          ++ [Mkdir projectPath; Exec (command template) projectPath]
          ++ install_calls "npm install " (dependencies template) projectPath
          ++ install_calls "npm install --save-dev " (devDependencies template) projectPath
          ++ (if typescript
              then [ Mkdir (path_join projectPath "src");
                     WriteFile (path_join projectPath "tsconfig.json")
                               (JSON_stringify (tsConfig type)) ]
              else [])
          ++ [WriteFile (path_join projectPath "README.md") (generateReadme name type typescript)]
    ∧ projectDocs st' !! name = Some (generateReadme name type typescript)
    ∧ result = TextContent
                 ("Project " +:+ name +:+ " created successfully with "
                    +:+ (if typescript then "TypeScript" else "JavaScript") +:+ " configuration").
Proof.
  intros Hrun name type typescript projectPath.
  unfold handleCreateProject in Hrun. fold name type typescript projectPath in Hrun.
  apply try_catch_rethrow_ok in Hrun.
  apply bind_ok in Hrun as ([] & st1 & [_ [Hc1 _]]%syscall_ok & Hrun).
  unfold getProjectTemplate, property in Hrun.
  destruct (assoc type (templates typescript)) as [template|] eqn:Htemplate;
    [| by case_bool_decide].
  exists template. split; [done |].
  unfold scaffold in Hrun. fold name type in Hrun.
  apply bind_ok in Hrun as (out & st2 & [_ [Hc2 _]]%syscall_ok & Hrun).
  apply bind_ok in Hrun as ([] & st3 & [Hc3 _]%install_ok & Hrun).
  apply bind_ok in Hrun as ([] & st4 & [Hc4 _]%install_ok & Hrun).
  apply bind_ok in Hrun as ([] & st5 & Hts & Hrun).
  apply bind_ok in Hrun as ([] & st6 & [_ [Hc6 _]]%syscall_ok & Hrun).
  apply bind_ok in Hrun as ([] & st7 & [= <-] & [= <- <-]).
  assert (Hc5 : calls st5
                = calls st4
                    ++ (if typescript
                        then [ Mkdir (path_join projectPath "src");
                               WriteFile (path_join projectPath "tsconfig.json")
                                         (JSON_stringify (tsConfig type)) ]
                        else [])).
  { destruct typescript.
    - apply bind_ok in Hts as ([] & st' & [_ [Ha _]]%syscall_ok & [_ [Hb _]]%syscall_ok).
      by rewrite Hb, Ha, <- app_assoc.
    - injection Hts as <-. by rewrite app_nil_r. }
  split; [| split; [cbn; by rewrite lookup_insert_eq | done]].
  cbn. rewrite Hc6, Hc5, Hc4, Hc3, Hc2, Hc1. by rewrite <- !app_assoc.
Qed.

Lemma install_performed prefix packages cwd st st' :
  install prefix packages cwd st = (inr tt, st') →
  installed prefix packages cwd (os st) (os st').
Proof.
  unfold install, installed. destruct packages as [|p packages].
  - by intros [= <-].
  - intros Hrun. apply bind_ok in Hrun as (out & st1 & [Hexec _]%syscall_ok & [= <-]).
    by exists out.
Qed.

(** The JavaScript templates install no typed package: their development
    dependencies are none, or [nodemon] alone. *)
Lemma templates_untyped type template :
  assoc type (templates false) = Some template →
  (devDependencies template = [] ∨ devDependencies template = ["nodemon"])
  ∧ ∀ p, p ∈ dependencies template ++ devDependencies template →
         p ≠ "typescript" ∧ p ≠ "ts-node" ∧ strip_prefix "@types/" p = None.
Proof.
  cbn. repeat case_bool_decide; intros [= <-]; cbn;
    (split; [tauto |]); intros p; rewrite ?elem_of_cons, ?elem_of_nil;
    intros Hp; repeat destruct Hp as [-> | Hp]; done.
Qed.

(** A successful [create_project] has performed its steps on the operating
    system, each from the state the step before it left. *)
Lemma handleCreateProject_steps args st result st' :
  handleCreateProject args st = (inr result, st') →
  let name := CreateProjectArgs.name args in
  let type := CreateProjectArgs.type args in
  let typescript := is_not_false (CreateProjectArgs.typescript args) in
  let projectPath := path_join (CreateProjectArgs.path args) name in
  let readme := WriteFile (path_join projectPath "README.md") (generateReadme name type typescript) in
  ∃ template o1 o2 o3 o4 out,
    assoc type (templates typescript) = Some template
    ∧ fs_mkdir projectPath (os st) = (inr tt, o1)
    ∧ exec (command template) projectPath o1 = (inr out, o2)
    ∧ installed "npm install " (dependencies template) projectPath o2 o3
    ∧ installed "npm install --save-dev " (devDependencies template) projectPath o3 o4
    ∧ if typescript
      then ∃ o5 o6,
             fs_mkdir (path_join projectPath "src") o4 = (inr tt, o5)
             ∧ fs_writeFile (path_join projectPath "tsconfig.json")
                            (JSON_stringify (tsConfig type)) o5 = (inr tt, o6)
             ∧ fs_writeFile (path_join projectPath "README.md")
                            (generateReadme name type true) o6 = (inr tt, os st')
      else fs_writeFile (path_join projectPath "README.md")
                        (generateReadme name type false) o4 = (inr tt, os st').
Proof.
  intros Hrun name type typescript projectPath readme.
  unfold handleCreateProject in Hrun. fold name type typescript projectPath in Hrun.
  apply try_catch_rethrow_ok in Hrun.
  apply bind_ok in Hrun as ([] & st1 & [Hmkdir _]%syscall_ok & Hrun).
  unfold getProjectTemplate, property in Hrun.
  destruct (assoc type (templates typescript)) as [template|] eqn:Htemplate;
    [| by case_bool_decide].
  unfold scaffold in Hrun. fold name type in Hrun.
  apply bind_ok in Hrun as (out & st2 & [Hexec _]%syscall_ok & Hrun).
  apply bind_ok in Hrun as ([] & st3 & Hdeps%install_performed & Hrun).
  apply bind_ok in Hrun as ([] & st4 & Hdev%install_performed & Hrun).
  apply bind_ok in Hrun as ([] & st5 & Hts & Hrun).
  apply bind_ok in Hrun as ([] & st6 & [Hreadme _]%syscall_ok & Hrun).
  apply bind_ok in Hrun as ([] & st7 & [= <-] & [= _ <-]). cbn [os].
  exists template, (os st1), (os st2), (os st3), (os st4), out.
  do 5 (split; [done |]).
  destruct typescript.
  - apply bind_ok in Hts as ([] & st' & [Hsrc _]%syscall_ok & [Hconfig _]%syscall_ok).
    by exists (os st'), (os st5).
  - injection Hts as <-. done.
Qed.

(** C10.  [create_project] takes TypeScript as enabled for every value of
    the [typescript] argument other than the boolean [false].  A successful
    call with any other value (or none) has installed development
    dependencies that include [@types/node], made the [src] directory with
    [fs.mkdir] and written [tsconfig.json] with [fs.writeFile], in this
    order, before the README.  A successful call with [typescript: false]
    has done none of these: its development dependencies are none or
    [nodemon] alone, no package it installs is [typescript], [ts-node] or
    under [@types/], and after the installs the one thing it does to the
    file system is the write of the README. *)
Theorem create_project_typescript_flag :
  (∀ v, is_not_false v = false ↔ v = VBool false)
  ∧ (∀ (args : CreateProjectArgs.t) st result st',
       CreateProjectArgs.typescript args ≠ VBool false →
       handleCreateProject args st = (inr result, st') →
       let name := CreateProjectArgs.name args in
       let type := CreateProjectArgs.type args in
       let projectPath := path_join (CreateProjectArgs.path args) name in
       let installDev packages := "npm install --save-dev " +:+ join " " packages in
       ∃ template o1 o2 o3 o4 o5 o6 out out',
         assoc type (templates true) = Some template
         ∧ "@types/node" ∈ devDependencies template
         ∧ calls st'
           = calls st
               ++ [Mkdir projectPath; Exec (command template) projectPath]
               ++ install_calls "npm install " (dependencies template) projectPath
               ++ [ Exec (installDev (devDependencies template)) projectPath;
                    Mkdir (path_join projectPath "src");
                    WriteFile (path_join projectPath "tsconfig.json")
                              (JSON_stringify (tsConfig type));
                    WriteFile (path_join projectPath "README.md")
                              (generateReadme name type true) ]
         ∧ fs_mkdir projectPath (os st) = (inr tt, o1)
         ∧ exec (command template) projectPath o1 = (inr out, o2)
         ∧ installed "npm install " (dependencies template) projectPath o2 o3
         ∧ exec (installDev (devDependencies template)) projectPath o3 = (inr out', o4)
         ∧ fs_mkdir (path_join projectPath "src") o4 = (inr tt, o5)
         ∧ fs_writeFile (path_join projectPath "tsconfig.json")
                        (JSON_stringify (tsConfig type)) o5 = (inr tt, o6)
         ∧ fs_writeFile (path_join projectPath "README.md")
                        (generateReadme name type true) o6 = (inr tt, os st')
         ∧ result = TextContent
                      ("Project " +:+ name
                         +:+ " created successfully with TypeScript configuration"))
  ∧ (∀ (args : CreateProjectArgs.t) st result st',
       CreateProjectArgs.typescript args = VBool false →
       handleCreateProject args st = (inr result, st') →
       let name := CreateProjectArgs.name args in
       let type := CreateProjectArgs.type args in
       let projectPath := path_join (CreateProjectArgs.path args) name in
       ∃ template o1 o2 o3 o4 out,
         assoc type (templates false) = Some template
         ∧ (devDependencies template = [] ∨ devDependencies template = ["nodemon"])
         ∧ (∀ p, p ∈ dependencies template ++ devDependencies template →
                 p ≠ "typescript" ∧ p ≠ "ts-node" ∧ strip_prefix "@types/" p = None)
         ∧ calls st'
           = calls st
               ++ [Mkdir projectPath; Exec (command template) projectPath]
               ++ install_calls "npm install " (dependencies template) projectPath
               ++ install_calls "npm install --save-dev " (devDependencies template) projectPath
               ++ [WriteFile (path_join projectPath "README.md")
                             (generateReadme name type false)]
         ∧ fs_mkdir projectPath (os st) = (inr tt, o1)
         ∧ exec (command template) projectPath o1 = (inr out, o2)
         ∧ installed "npm install " (dependencies template) projectPath o2 o3
         ∧ installed "npm install --save-dev " (devDependencies template) projectPath o3 o4
         ∧ fs_writeFile (path_join projectPath "README.md")
                        (generateReadme name type false) o4 = (inr tt, os st')
         ∧ result = TextContent
                      ("Project " +:+ name
                         +:+ " created successfully with JavaScript configuration")).
Proof.
  assert (Hflag : ∀ v, is_not_false v = false ↔ v = VBool false).
  { intros v. split; [| by intros ->]. by destruct v as [| |[|]| | | |]. }
  split; [exact Hflag | split].
  - intros args st result st' Hts Hrun name type projectPath installDev.
    destruct (handleCreateProject_ok _ _ _ _ Hrun) as (template & Htemplate & Hcalls & _ & Hres).
    destruct (handleCreateProject_steps _ _ _ _ Hrun)
      as (template' & o1 & o2 & o3 & o4 & out & Htemplate' & Hmkdir & Hexec & Hdeps & Hdev & Hrest).
    fold name type projectPath in Htemplate, Hcalls, Hres, Htemplate', Hmkdir, Hexec, Hdeps,
      Hdev, Hrest.
    assert (Htrue : is_not_false (CreateProjectArgs.typescript args) = true).
    { destruct (is_not_false _) eqn:Hv; [done |]. by apply Hflag in Hv. }
    rewrite Htrue in Htemplate, Hcalls, Hres, Htemplate', Hrest.
    rewrite Htemplate in Htemplate'. injection Htemplate' as <-.
    destruct Hrest as (o5 & o6 & Hsrc & Hconfig & Hreadme).
    pose proof (templates_typed _ _ Htemplate) as Htyped.
    unfold installed in Hdev at 1. unfold install_calls in Hcalls at 2.
    destruct (devDependencies template) as [|d ds] eqn:Hds;
      [by apply elem_of_nil in Htyped |].
    destruct Hdev as [out' Hdev].
    exists template, o1, o2, o3, o4, o5, o6, out, out'.
    rewrite Hds. repeat split; done.
  - intros args st result st' Hts Hrun name type projectPath.
    destruct (handleCreateProject_ok _ _ _ _ Hrun) as (template & Htemplate & Hcalls & _ & Hres).
    destruct (handleCreateProject_steps _ _ _ _ Hrun)
      as (template' & o1 & o2 & o3 & o4 & out & Htemplate' & Hmkdir & Hexec & Hdeps & Hdev & Hrest).
    fold name type projectPath in Htemplate, Hcalls, Hres, Htemplate', Hmkdir, Hexec, Hdeps,
      Hdev, Hrest.
    rewrite Hts in Htemplate, Hcalls, Hres, Htemplate', Hrest. cbn [is_not_false] in *.
    rewrite Htemplate in Htemplate'. injection Htemplate' as <-.
    destruct (templates_untyped _ _ Htemplate) as [Hnone Huntyped].
    exists template, o1, o2, o3, o4, out. repeat split; try done.
    all: by apply Huntyped.
Qed.

End TypeScript_flag.

Lemma create_project_typescript_flag_witness :
  let request typescript :=
    {| CreateProjectArgs.name := "api"; CreateProjectArgs.type := "express";
       CreateProjectArgs.path := "/work"; CreateProjectArgs.typescript := typescript |} in
  let run typescript := handleCreateProject (rt := Mem.runtime) (request typescript) (Mem.start ∅) in
  VString "false" ≠ VBool false
  ∧ (run (VString "false")).1
    = inr (TextContent "Project api created successfully with TypeScript configuration")
  ∧ (run (VBool false)).1
    = inr (TextContent "Project api created successfully with JavaScript configuration")
  ∧ calls (run (VString "false")).2
    = [ Mkdir "/work/api"; Exec "npm init -y" "/work/api";
        Exec "npm install express cors dotenv" "/work/api";
        Exec "npm install --save-dev typescript @types/node @types/express @types/cors ts-node nodemon"
             "/work/api";
        Mkdir "/work/api/src";
        WriteFile "/work/api/tsconfig.json" (Mem.stringify (tsConfig "express"));
        WriteFile "/work/api/README.md" (generateReadme "api" "express" true) ]
  ∧ calls (run (VBool false)).2
    = [ Mkdir "/work/api"; Exec "npm init -y" "/work/api";
        Exec "npm install express cors dotenv" "/work/api";
        Exec "npm install --save-dev nodemon" "/work/api";
        WriteFile "/work/api/README.md" (generateReadme "api" "express" false) ]
  ∧ os (run (VString "false")).2 !! "/work/api/src" = Some Mem.Dir
  ∧ os (run (VString "false")).2 !! "/work/api/tsconfig.json"
    = Some (Mem.File (Mem.stringify (tsConfig "express")))
  ∧ os (run (VBool false)).2 !! "/work/api/src" = None
  ∧ os (run (VBool false)).2 !! "/work/api/tsconfig.json" = None.
Proof.
  intros request run.
  assert (Hother : VString "false" ≠ VBool false) by discriminate.
  assert (Hts : (run (VString "false")).1
                = inr (TextContent "Project api created successfully with TypeScript configuration"))
    by (vm_compute; reflexivity).
  assert (Hjs : (run (VBool false)).1
                = inr (TextContent "Project api created successfully with JavaScript configuration"))
    by (vm_compute; reflexivity).
  destruct (create_project_typescript_flag (rt := Mem.runtime)) as (_ & Henabled & Hdisabled).
  split; [exact Hother |]. split; [exact Hts |]. split; [exact Hjs |]. split; [| split].
  - destruct (Henabled (request (VString "false")) (Mem.start ∅) _ _ Hother (run_ok _ _ Hts))
      as (template & o1 & o2 & o3 & o4 & o5 & o6 & out & out' & Htemplate & _ & Hcalls & _).
    injection Htemplate as <-. exact Hcalls.
  - destruct (Hdisabled (request (VBool false)) (Mem.start ∅) _ _ eq_refl (run_ok _ _ Hjs))
      as (template & o1 & o2 & o3 & o4 & out & Htemplate & _ & _ & Hcalls & _).
    injection Htemplate as <-. exact Hcalls.
  - repeat split; by vm_compute.
Defined.

(** * Further properties of the handlers *)

(** ** Computations that leave the document store alone *)
Section Quiet.
Context {rt : Runtime}.

Lemma quiet_ret {A} (a : A) : quiet (mret a).
Proof. by intros st. Qed.

Lemma quiet_throw {A} (e : exn) : quiet (throw (A := A) e).
Proof. by intros st. Qed.

Lemma quiet_bind {A B} (m : M A) (f : A → M B) :
  quiet m → (∀ a, quiet (f a)) → quiet (m ≫= f).
Proof.
  intros Hm Hf st. unfold mbind, M_bind. specialize (Hm st).
  destruct (m st) as [[e|a] st1]; [done |]. cbn in Hm. by rewrite Hf.
Qed.

Lemma quiet_try_catch {A} (m : M A) (handler : exn → M A) :
  quiet m → (∀ e, quiet (handler e)) → quiet (try_catch m handler).
Proof.
  intros Hm Hh st. unfold try_catch. specialize (Hm st).
  destruct (m st) as [[e|a] st1]; [| done]. cbn in Hm. by rewrite Hh.
Qed.

Lemma quiet_syscall {A} c (op : OS → (string + A) * OS) : quiet (syscall c op).
Proof. intros st. unfold syscall. by destruct (op (os st)) as [[?|?] ?]. Qed.

Lemma quiet_or_throw {A} (o : option A) e : quiet (or_throw o e).
Proof. destruct o; [apply quiet_ret | apply quiet_throw]. Qed.

Lemma quiet_parse text : quiet (parse text).
Proof. unfold parse. destruct (JSON_parse text); [apply quiet_throw | apply quiet_ret]. Qed.

End Quiet.

(** Decomposes a computation along binds, handlers and primitive calls. *)
Ltac quiet_steps :=
  repeat first
    [ apply quiet_ret | apply quiet_throw | apply quiet_syscall | apply quiet_or_throw
    | apply quiet_parse
    | apply quiet_bind; [| intros ?]
    | apply quiet_try_catch; [| intros ?]
    | match goal with
      | |- quiet (if ?b then _ else _) => destruct b
      | |- quiet (match ?x with _ => _ end) => destruct x
      | |- quiet (let '(_, _) := ?x in _) => destruct x
      end ].

Section Validate_path.
Context {rt : Runtime}.

Lemma quiet_validatePath path : quiet (validatePath path).
Proof. unfold validatePath, access, mkdir, stat_isDirectory. quiet_steps. Qed.

(** The path exists and is a directory: nothing is changed. *)
Lemma validatePath_directory path st os1 os2 :
  fs_access path (os st) = (inr tt, os1) →
  fs_stat_isDirectory path os1 = (inr true, os2) →
  validatePath path st
  = (inr tt, {| os := os2; projectDocs := projectDocs st;
                calls := calls st ++ [Access path; Stat path] |}).
Proof.
  intros Ha Hs. unfold validatePath. autounfold with server_ops. unfold syscall.
  rewrite Ha. cbn. rewrite Hs. cbn. by rewrite <- app_assoc.
Qed.

(** The path exists and is not a directory. *)
Lemma validatePath_not_directory path st os1 os2 :
  fs_access path (os st) = (inr tt, os1) →
  fs_stat_isDirectory path os1 = (inr false, os2) →
  validatePath path st
  = (inl (McpError InvalidParams ("Path " +:+ path +:+ " exists but is not a directory")),
     {| os := os2; projectDocs := projectDocs st;
        calls := calls st ++ [Access path; Stat path] |}).
Proof.
  intros Ha Hs. unfold validatePath. autounfold with server_ops. unfold syscall.
  rewrite Ha. cbn. rewrite Hs. cbn. by rewrite <- app_assoc.
Qed.

(** The path exists and cannot be examined. *)
Lemma validatePath_stat_fails path st os1 os2 message :
  fs_access path (os st) = (inr tt, os1) →
  fs_stat_isDirectory path os1 = (inl message, os2) →
  validatePath path st
  = (inl (McpError InvalidParams
            ("Failed to validate/create path " +:+ path +:+ ": " +:+ message)),
     {| os := os2; projectDocs := projectDocs st;
        calls := calls st ++ [Access path; Stat path] |}).
Proof.
  intros Ha Hs. unfold validatePath. autounfold with server_ops. unfold syscall.
  rewrite Ha. cbn. rewrite Hs. cbn. by rewrite <- app_assoc.
Qed.

(** The path cannot be accessed, for whatever reason, and is created. *)
Lemma validatePath_created path st reason os1 os2 :
  fs_access path (os st) = (inl reason, os1) →
  fs_mkdir path os1 = (inr tt, os2) →
  validatePath path st
  = (inr tt, {| os := os2; projectDocs := projectDocs st;
                calls := calls st ++ [Access path; Mkdir path] |}).
Proof.
  intros Ha Hm. unfold validatePath. autounfold with server_ops. unfold syscall.
  rewrite Ha. cbn. rewrite Hm. cbn. by rewrite <- app_assoc.
Qed.

(** The path cannot be accessed and cannot be created. *)
Lemma validatePath_mkdir_fails path st reason os1 os2 message :
  fs_access path (os st) = (inl reason, os1) →
  fs_mkdir path os1 = (inl message, os2) →
  validatePath path st
  = (inl (McpError InvalidParams
            ("Failed to validate/create path " +:+ path +:+ ": " +:+ message)),
     {| os := os2; projectDocs := projectDocs st;
        calls := calls st ++ [Access path; Mkdir path] |}).
Proof.
  intros Ha Hm. unfold validatePath. autounfold with server_ops. unfold syscall.
  rewrite Ha. cbn. rewrite Hm. cbn. by rewrite <- app_assoc.
Qed.

(** X1.  [validatePath] has five outcomes, decided by [fs.access] and then
    by [fs.stat] or [fs.mkdir].  A directory is accepted and left alone; a
    path that cannot be accessed is created, whatever made the access fail;
    every failure, of [fs.stat] and [fs.mkdir] too, is an [InvalidParams]
    error; the only call that can change the file system is the [mkdir] of
    the path itself. *)
Theorem validatePath_outcomes (path : string) (st : ServerState) :
  (∀ os1 os2,
     fs_access path (os st) = (inr tt, os1) →
     fs_stat_isDirectory path os1 = (inr true, os2) →
     validatePath path st
     = (inr tt, {| os := os2; projectDocs := projectDocs st;
                   calls := calls st ++ [Access path; Stat path] |}))
  ∧ (∀ os1 os2,
       fs_access path (os st) = (inr tt, os1) →
       fs_stat_isDirectory path os1 = (inr false, os2) →
       validatePath path st
       = (inl (McpError InvalidParams ("Path " +:+ path +:+ " exists but is not a directory")),
          {| os := os2; projectDocs := projectDocs st;
             calls := calls st ++ [Access path; Stat path] |}))
  ∧ (∀ os1 os2 message,
       fs_access path (os st) = (inr tt, os1) →
       fs_stat_isDirectory path os1 = (inl message, os2) →
       validatePath path st
       = (inl (McpError InvalidParams
                 ("Failed to validate/create path " +:+ path +:+ ": " +:+ message)),
          {| os := os2; projectDocs := projectDocs st;
             calls := calls st ++ [Access path; Stat path] |}))
  ∧ (∀ reason os1 os2,
       fs_access path (os st) = (inl reason, os1) →
       fs_mkdir path os1 = (inr tt, os2) →
       validatePath path st
       = (inr tt, {| os := os2; projectDocs := projectDocs st;
                     calls := calls st ++ [Access path; Mkdir path] |}))
  ∧ (∀ reason os1 os2 message,
       fs_access path (os st) = (inl reason, os1) →
       fs_mkdir path os1 = (inl message, os2) →
       validatePath path st
       = (inl (McpError InvalidParams
                 ("Failed to validate/create path " +:+ path +:+ ": " +:+ message)),
          {| os := os2; projectDocs := projectDocs st;
             calls := calls st ++ [Access path; Mkdir path] |})).
Proof.
  repeat split; intros.
  - eapply validatePath_directory; eassumption.
  - eapply validatePath_not_directory; eassumption.
  - eapply validatePath_stat_fails; eassumption.
  - eapply validatePath_created; eassumption.
  - eapply validatePath_mkdir_fails; eassumption.
Qed.

End Validate_path.

Lemma validatePath_outcomes_witness :
  let file : Mem.fs := {[ "/notes.txt" := Mem.File "remember" ]} in
  (validatePath (rt := Mem.runtime) "/notes.txt" (Mem.start file)).1
  = inl (McpError InvalidParams "Path /notes.txt exists but is not a directory")
  ∧ (validatePath (rt := Mem.runtime) "/fresh" (Mem.start file)).1 = inr tt
  ∧ calls (validatePath (rt := Mem.runtime) "/fresh" (Mem.start file)).2
    = [Access "/fresh"; Mkdir "/fresh"].
Proof.
  intros file.
  destruct (validatePath_outcomes (rt := Mem.runtime) "/notes.txt" (Mem.start file))
    as (_ & Hfile & _).
  destruct (validatePath_outcomes (rt := Mem.runtime) "/fresh" (Mem.start file))
    as (_ & _ & _ & Hnew & _).
  split; [| split].
  - by rewrite (Hfile file file eq_refl eq_refl).
  - by rewrite (Hnew _ file (<["/fresh" := Mem.Dir]> file) eq_refl eq_refl).
  - by rewrite (Hnew _ file (<["/fresh" := Mem.Dir]> file) eq_refl eq_refl).
Defined.

(** ** The dispatcher and its handlers *)
Section Dispatcher.
Context {rt : Runtime}.

(** A handler that validates its path and wraps every later failure throws
    the [InvalidParams] of [validatePath] or the wrapped error. *)
Lemma guarded_throws {A} path (body : M A) (wrap : exn → exn) st e st' :
  (validatePath path ;; try_catch body (λ error, throw (wrap error))) st = (inl e, st') →
  (∃ message, e = McpError InvalidParams message) ∨ (∃ e0, e = wrap e0).
Proof.
  unfold mbind at 1, M_bind at 1.
  destruct (validatePath path st) as [[e0|[]] st1] eqn:Hvalidate.
  - intros [= <- <-]. left. by eapply validatePath_throws.
  - intros [e0 ->]%try_catch_rethrow_throws. right. by eexists.
Qed.

(** What [create_type_definition] throws: the [InvalidParams] of
    [validatePath], the TypeError of [Object.entries], or the wrapped
    failure of the write. *)
Lemma handleCreateTypeDefinition_throws args st e st' :
  handleCreateTypeDefinition args st = (inl e, st') →
  ∃ message, e = McpError InvalidParams message ∨ e = McpError InternalError message
             ∨ e = NativeError message.
Proof.
  unfold handleCreateTypeDefinition. unfold mbind at 1, M_bind at 1.
  destruct (validatePath _ st) as [[e0|[]] st1] eqn:Hvalidate.
  - intros [= <- <-]. apply validatePath_throws in Hvalidate as [message ->]. eauto.
  - destruct (CreateTypeDefinitionArgs.properties args) as [properties|].
    + unfold or_throw. unfold mbind at 1, M_bind at 1, mret, M_ret.
      intros [e0 ->]%try_catch_rethrow_throws. eauto.
    + intros [= <- <-]. unfold cannot_list. eauto.
Qed.

(** No handler throws a protocol error with the code [MethodNotFound]. *)
Lemma handler_throws name args h st e st' :
  handler_of name args = Some h →
  h st = (inl e, st') →
  ∃ message, e = McpError InvalidParams message ∨ e = McpError InternalError message
             ∨ e = NativeError message.
Proof.
  unfold handler_of. repeat case_bool_decide; intros [= <-] Hrun.
  - apply handleCreateProject_throws in Hrun as [message ->]. eauto.
  - apply guarded_throws in Hrun as [[message ->] | [e0 ->]]; eauto.
  - apply guarded_throws in Hrun as [[message ->] | [e0 ->]]; eauto.
  - by apply handleCreateTypeDefinition_throws in Hrun.
  - apply guarded_throws in Hrun as [[message ->] | [e0 ->]]; eauto.
  - apply guarded_throws in Hrun as [[message ->] | [e0 ->]]; eauto.
  - apply handleCreateDocumentation_throws in Hrun as [message [-> | ->]]; eauto.
Qed.

Lemma handler_of_known name args : name ∈ tool_names ↔ is_Some (handler_of name args).
Proof.
  unfold tool_names, handler_of. rewrite !elem_of_cons, elem_of_nil.
  repeat case_bool_decide; split; intros Hin; try (by eexists); try tauto.
  by destruct Hin as [? [=]].
Qed.

(** The dispatcher runs the handler of a known tool inside its [try]. *)
Lemma callTool_handler name args h st :
  handler_of name args = Some h →
  callTool name args st
  = try_catch h
      (λ error, if is_McpError error then throw error
                else throw (McpError InternalError
                              ("Error executing " +:+ name +:+ ": " +:+ error_message error)))
      st.
Proof.
  intros Hh. unfold callTool, handler_of in *.
  repeat case_bool_decide; try discriminate; by injection Hh as <-.
Qed.

(** What the dispatcher makes of the three outcomes of a handler. *)
Lemma callTool_returns name args h st result st' :
  handler_of name args = Some h → h st = (inr result, st') →
  callTool name args st = (inr result, st').
Proof. intros Hh Hrun. rewrite (callTool_handler _ _ _ _ Hh). unfold try_catch. by rewrite Hrun. Qed.

Lemma callTool_rethrows name args h st code message st' :
  handler_of name args = Some h → h st = (inl (McpError code message), st') →
  callTool name args st = (inl (McpError code message), st').
Proof. intros Hh Hrun. rewrite (callTool_handler _ _ _ _ Hh). unfold try_catch. by rewrite Hrun. Qed.

Lemma callTool_wraps name args h st message st' :
  handler_of name args = Some h → h st = (inl (NativeError message), st') →
  callTool name args st
  = (inl (McpError InternalError ("Error executing " +:+ name +:+ ": " +:+ message)), st').
Proof. intros Hh Hrun. rewrite (callTool_handler _ _ _ _ Hh). unfold try_catch. by rewrite Hrun. Qed.

(** X2.  The dispatcher returns what the handler of a known tool returns
    and lets its protocol errors through; any other error of the handler
    reaches the caller as [InternalError] with the text
    [Error executing <name>: <message>].  That does happen to known tools:
    [create_type_definition] without [properties] gets past the path
    validation and then fails in this way, before any write; and a request
    without arguments fails in this way for every tool but
    [create_project], whose own [catch] reports
    [Failed to create project: ...] instead; in both cases no call is
    made. *)
Theorem callTool_wraps_native_errors :
  (∀ name args h st,
     handler_of name args = Some h →
     (∀ result st', h st = (inr result, st') → callTool name args st = (inr result, st'))
     ∧ (∀ code message st',
          h st = (inl (McpError code message), st') →
          callTool name args st = (inl (McpError code message), st'))
     ∧ (∀ message st',
          h st = (inl (NativeError message), st') →
          callTool name args st
          = (inl (McpError InternalError ("Error executing " +:+ name +:+ ": " +:+ message)),
             st')))
  ∧ (∀ args st st1,
       CreateTypeDefinitionArgs.properties (as_CreateTypeDefinitionArgs args) = None →
       validatePath (CreateTypeDefinitionArgs.path (as_CreateTypeDefinitionArgs args)) st
       = (inr tt, st1) →
       ∃ message,
         callTool "create_type_definition" args st
         = (inl (McpError InternalError
                   ("Error executing create_type_definition: " +:+ message)), st1))
  ∧ (∀ name st,
       name ∈ tool_names → name ≠ "create_project" →
       ∃ message,
         callToolRequest name None st
         = (inl (McpError InternalError ("Error executing " +:+ name +:+ ": " +:+ message)),
            st))
  ∧ (∀ st,
       ∃ message,
         callToolRequest "create_project" None st
         = (inl (McpError InternalError ("Failed to create project: " +:+ message)), st))
  ∧ (∀ name st,
       name ∉ tool_names →
       callToolRequest name None st
       = (inl (McpError MethodNotFound ("Unknown tool: " +:+ name)), st)).
Proof.
  split; [| split; [| split; [| split]]].
  - intros name args h st Hh. split; [| split].
    + intros result st'. by apply callTool_returns.
    + intros code message st'. by apply callTool_rethrows.
    + intros message st'. by apply callTool_wraps.
  - intros args st st1 Hnone Hvalidate.
    exists (error_message cannot_list).
    refine (callTool_wraps "create_type_definition" args
              (handleCreateTypeDefinition (as_CreateTypeDefinitionArgs args))
              st _ st1 eq_refl _).
    unfold handleCreateTypeDefinition. unfold mbind at 1, M_bind at 1.
    rewrite Hvalidate, Hnone. reflexivity.
  - intros name st. unfold tool_names. rewrite !elem_of_cons, elem_of_nil.
    intros [-> | [-> | [-> | [-> | [-> | [-> | [-> | []]]]]]]] Hother; [done | ..];
      by eexists.
  - intros st. by eexists.
  - intros name st. unfold tool_names. rewrite !not_elem_of_cons.
    intros (? & ? & ? & ? & ? & ? & ? & _). unfold callToolRequest.
    by rewrite !bool_decide_eq_false_2.
Qed.

(** X3.  Every failure of a tool call is a protocol error.  Its code is
    [MethodNotFound] exactly for the names that are not tools, and for
    [create_project] it is always [InternalError]. *)
Theorem callTool_error_codes (name : string) (args : ToolArguments) (st st' : ServerState)
    (e : exn) :
  callTool name args st = (inl e, st') →
  ∃ code message,
    e = McpError code message
    ∧ (code = MethodNotFound ↔ name ∉ tool_names)
    ∧ (name = "create_project" → code = InternalError).
Proof.
  intros Hrun. destruct (handler_of name args) as [h|] eqn:Hh.
  - assert (Hknown : name ∈ tool_names) by (by apply (handler_of_known name args)).
    rewrite (callTool_handler _ _ _ _ Hh) in Hrun. unfold try_catch in Hrun.
    destruct (h st) as [[e0|result] st1] eqn:Hhandler; [| done].
    destruct (decide (name = "create_project")) as [-> | Hother].
    + injection Hh as <-. apply handleCreateProject_throws in Hhandler as [message' ->].
      injection Hrun as <- _. exists InternalError, message'. repeat split; done.
    + destruct (handler_throws _ _ _ _ _ _ Hh Hhandler) as [message [-> | [-> | ->]]];
        injection Hrun as <- _; eexists _, _; repeat split; done.
  - assert (Hunknown : name ∉ tool_names).
    { intros Hin%(handler_of_known name args). rewrite Hh in Hin. by destruct Hin. }
    rewrite (callTool_unknown _ _ _ Hunknown) in Hrun. injection Hrun as <- _.
    eexists _, _. repeat split; try done. by intros ->.
Qed.

(** X4.  A tool other than [create_project] whose [path] exists and is not
    a directory answers [InvalidParams], after looking at the path and
    doing nothing else. *)
Theorem callTool_path_not_directory (name : string) (args : ToolArguments)
    (st : ServerState) (os1 os2 : OS) :
  let path := validated_path name args in
  name ∈ tool_names →
  name ≠ "create_project" →
  fs_access path (os st) = (inr tt, os1) →
  fs_stat_isDirectory path os1 = (inr false, os2) →
  callTool name args st
  = (inl (McpError InvalidParams ("Path " +:+ path +:+ " exists but is not a directory")),
     {| os := os2; projectDocs := projectDocs st;
        calls := calls st ++ [Access path; Stat path] |}).
Proof.
  intros path Hname Hother Ha Hs.
  pose proof (validatePath_not_directory path st os1 os2 Ha Hs) as Hvalidate.
  apply (handler_of_known name args) in Hname as [h Hh].
  apply (callTool_rethrows _ _ _ _ _ _ _ Hh).
  unfold handler_of in Hh. unfold path, validated_path in *.
  repeat case_bool_decide; try done; injection Hh as <-;
    [ unfold handleInstallPackages | unfold handleGenerateComponent
    | unfold handleCreateTypeDefinition | unfold handleAddScript
    | unfold handleUpdateTsConfig | unfold handleCreateDocumentation ];
    unfold mbind at 1, M_bind at 1; by rewrite Hvalidate.
Qed.

End Dispatcher.

Lemma callTool_wraps_native_errors_witness :
  let args :=
    {| as_CreateProjectArgs :=
         {| CreateProjectArgs.name := "User"; CreateProjectArgs.type := "node";
            CreateProjectArgs.path := "/types"; CreateProjectArgs.typescript := VUndefined |};
       as_InstallPackageArgs :=
         {| InstallPackageArgs.packages := []; InstallPackageArgs.path := "/types";
            InstallPackageArgs.dev := false |};
       as_GenerateComponentArgs :=
         {| GenerateComponentArgs.name := "User"; GenerateComponentArgs.path := "/types";
            GenerateComponentArgs.type := "functional"; GenerateComponentArgs.props := None |};
       as_CreateTypeDefinitionArgs :=
         {| CreateTypeDefinitionArgs.name := "User"; CreateTypeDefinitionArgs.path := "/types";
            CreateTypeDefinitionArgs.properties := None |};
       as_AddScriptArgs :=
         {| AddScriptArgs.path := "/types"; AddScriptArgs.name := "User";
            AddScriptArgs.command := "" |};
       as_UpdateTsConfigArgs :=
         {| UpdateTsConfigArgs.path := "/types"; UpdateTsConfigArgs.options := VUndefined |};
       as_CreateDocumentationArgs :=
         {| CreateDocumentationArgs.path := "/types"; CreateDocumentationArgs.type := "api";
            CreateDocumentationArgs.name := None |} |} in
  let run := callTool (rt := Mem.runtime) "create_type_definition" args (Mem.start ∅) in
  (validatePath (rt := Mem.runtime) "/types" (Mem.start ∅)).1 = inr tt
  ∧ (∃ message,
       run.1 = inl (McpError InternalError
                      ("Error executing create_type_definition: " +:+ message)))
  ∧ calls run.2 = [Access "/types"; Mkdir "/types"]
  ∧ ∃ message,
      callToolRequest (rt := Mem.runtime) "add_script" None (Mem.start ∅)
      = (inl (McpError InternalError ("Error executing add_script: " +:+ message)),
         Mem.start ∅).
Proof.
  intros args run.
  assert (Hvalidate : (validatePath (rt := Mem.runtime) "/types" (Mem.start ∅)).1 = inr tt)
    by (vm_compute; reflexivity).
  destruct (callTool_wraps_native_errors (rt := Mem.runtime))
    as (_ & Hproperties & Harguments & _).
  destruct (Hproperties args (Mem.start ∅) _ eq_refl (outcome_eq _ _ Hvalidate))
    as [message Hrun].
  split; [exact Hvalidate |]. split; [exists message; exact (f_equal fst Hrun) |].
  split; [by vm_compute |].
  apply (Harguments "add_script" (Mem.start ∅)); [| discriminate].
  apply (bool_decide_unpack _). vm_compute. exact I.
Defined.

Lemma callTool_error_codes_witness :
  let args :=
    {| as_CreateProjectArgs :=
         {| CreateProjectArgs.name := "app"; CreateProjectArgs.type := "vue";
            CreateProjectArgs.path := "/tmp"; CreateProjectArgs.typescript := VUndefined |};
       as_InstallPackageArgs :=
         {| InstallPackageArgs.packages := []; InstallPackageArgs.path := "/tmp";
            InstallPackageArgs.dev := false |};
       as_GenerateComponentArgs := counter_args "app" "/tmp";
       as_CreateTypeDefinitionArgs :=
         {| CreateTypeDefinitionArgs.name := "app"; CreateTypeDefinitionArgs.path := "/tmp";
            CreateTypeDefinitionArgs.properties := Some [] |};
       as_AddScriptArgs :=
         {| AddScriptArgs.path := "/tmp"; AddScriptArgs.name := "app";
            AddScriptArgs.command := "" |};
       as_UpdateTsConfigArgs :=
         {| UpdateTsConfigArgs.path := "/tmp"; UpdateTsConfigArgs.options := VUndefined |};
       as_CreateDocumentationArgs :=
         {| CreateDocumentationArgs.path := "/tmp"; CreateDocumentationArgs.type := "api";
            CreateDocumentationArgs.name := None |} |} in
  let run := callTool (rt := Mem.runtime) "create_project" args (Mem.start ∅) in
  run.1 = inl (McpError InternalError
                 "Failed to create project: MCP error -32602: Unsupported project type: vue")
  ∧ ∃ code message,
      McpError InternalError
        "Failed to create project: MCP error -32602: Unsupported project type: vue"
      = McpError code message
      ∧ (code = MethodNotFound ↔ "create_project" ∉ tool_names)
      ∧ ("create_project" = "create_project" → code = InternalError).
Proof.
  intros args run.
  assert (Hrun : run.1 = inl (McpError InternalError
                   "Failed to create project: MCP error -32602: Unsupported project type: vue"))
    by (vm_compute; reflexivity).
  split; [exact Hrun |].
  assert (Hpair : run = (inl (McpError InternalError
                   "Failed to create project: MCP error -32602: Unsupported project type: vue"),
                         run.2)).
  { destruct run as [o s]. cbn in Hrun. by rewrite Hrun. }
  exact (callTool_error_codes (rt := Mem.runtime) "create_project" args (Mem.start ∅) run.2 _
           Hpair).
Defined.

Lemma callTool_path_not_directory_witness :
  let file : Mem.fs := {[ "/notes.txt" := Mem.File "remember" ]} in
  let args :=
    {| as_CreateProjectArgs :=
         {| CreateProjectArgs.name := "app"; CreateProjectArgs.type := "node";
            CreateProjectArgs.path := "/notes.txt"; CreateProjectArgs.typescript := VUndefined |};
       as_InstallPackageArgs :=
         {| InstallPackageArgs.packages := ["left-pad"]; InstallPackageArgs.path := "/notes.txt";
            InstallPackageArgs.dev := false |};
       as_GenerateComponentArgs := counter_args "app" "/notes.txt";
       as_CreateTypeDefinitionArgs :=
         {| CreateTypeDefinitionArgs.name := "app"; CreateTypeDefinitionArgs.path := "/notes.txt";
            CreateTypeDefinitionArgs.properties := Some [] |};
       as_AddScriptArgs :=
         {| AddScriptArgs.path := "/notes.txt"; AddScriptArgs.name := "app";
            AddScriptArgs.command := "" |};
       as_UpdateTsConfigArgs :=
         {| UpdateTsConfigArgs.path := "/notes.txt"; UpdateTsConfigArgs.options := VUndefined |};
       as_CreateDocumentationArgs :=
         {| CreateDocumentationArgs.path := "/notes.txt"; CreateDocumentationArgs.type := "api";
            CreateDocumentationArgs.name := None |} |} in
  ("install_packages" ∈ tool_names)
  ∧ (callTool (rt := Mem.runtime) "install_packages" args (Mem.start file)).1
    = inl (McpError InvalidParams "Path /notes.txt exists but is not a directory").
Proof.
  intros file args.
  assert (Hname : "install_packages" ∈ tool_names)
    by (apply (bool_decide_unpack _); vm_compute; exact I).
  split; [exact Hname |].
  by rewrite (callTool_path_not_directory (rt := Mem.runtime) "install_packages" args
                (Mem.start file) file file Hname ltac:(discriminate) eq_refl eq_refl).
Defined.

(** ** The properties pattern *)
Section Props_pattern.
Import PropsPattern.

Lemma all_chars_app p (a b : string) :
  all_chars p (a +:+ b) = all_chars p a && all_chars p b.
Proof.
  induction a as [|c a IH]; [done |]. rewrite string_app_cons. cbn. rewrite IH.
  by destruct (p c).
Qed.

Lemma span_spec p (s : string) :
  s = (span p s).1 +:+ (span p s).2
  ∧ all_chars p (span p s).1 = true
  ∧ (∀ c r, (span p s).2 = String c r → p c = false).
Proof.
  induction s as [|c s (Heq & Hall & Hrest)]; cbn; [done |].
  destruct (p c) eqn:Hc.
  - destruct (span p s) as [a b]. cbn in *. rewrite string_app_cons, <- Heq, Hc.
    repeat split; done.
  - cbn. repeat split. by intros ? ? [= <- _].
Qed.

Lemma span_app p (a t : string) :
  all_chars p a = true →
  (∀ c r, t = String c r → p c = false) →
  span p (a +:+ t) = (a, t).
Proof.
  intros Ha Ht. induction a as [|c a IH].
  - rewrite string_app_nil_l. destruct t as [|c r]; [done |]. cbn. by rewrite (Ht c r).
  - cbn in Ha. apply andb_true_iff in Ha as [Hc Ha].
    rewrite string_app_cons. cbn. by rewrite Hc, IH.
Qed.

Lemma skip_app (a t : string) (j : nat) :
  skip (String.length a + j) (a +:+ t) = skip j t.
Proof. induction a as [|c a IH]; [done |]. by rewrite string_app_cons. Qed.

Lemma skip_split (k : nat) (w rest : string) :
  (k ≤ String.length w)%nat →
  ∃ w1 w2, w = w1 +:+ w2 ∧ String.length w1 = k ∧ skip k (w +:+ rest) = w2 +:+ rest.
Proof.
  revert w. induction k as [|k IH]; intros w Hk.
  - exists "", w. by destruct w.
  - destruct w as [|c w]; [cbn in Hk; lia |]. cbn in Hk.
    destruct (IH w) as (w1 & w2 & -> & Hlen & Hskip); [lia |].
    exists (String c w1), w2. rewrite !string_app_cons. cbn. by rewrite Hlen, <- Hskip.
Qed.

Lemma is_not_brace_false c : is_not_brace c = false → c = "}"%char.
Proof. unfold is_not_brace. by case_bool_decide. Qed.

Lemma body_spec (s b : string) :
  body s = Some b →
  ∃ rest, s = "Props {" +:+ b +:+ "}" +:+ rest ∧ b ≠ "" ∧ brace_free b.
Proof.
  unfold body. destruct (strip_prefix "Props {" s) as [s'|] eqn:Hp; [| done].
  apply strip_prefix_spec in Hp as ->.
  destruct (span_spec is_not_brace s') as (Heq & Hall & Hrest).
  destruct (span is_not_brace s') as [b' rest']. cbn in *.
  destruct b' as [|x b']; [done |]. destruct rest' as [|c rest]; [done |].
  intros [= <-]. exists rest. rewrite (is_not_brace_false c (Hrest c rest eq_refl)) in Heq.
  by rewrite Heq.
Qed.

Lemma name_then_body_spec (k : nat) (s b : string) :
  name_then_body k s = Some b →
  ∃ k', (1 ≤ k' ≤ k)%nat ∧ body (skip k' s) = Some b.
Proof.
  induction k as [|k IH]; [done |]. cbn [name_then_body].
  destruct (body (skip (S k) s)) as [b'|] eqn:Hb.
  - intros [= <-]. exists (S k). split; [lia | done].
  - intros (k' & Hk' & Hbody)%IH. exists k'. split; [lia | done].
Qed.

Lemma match_here_spec (s b : string) :
  match_here s = Some b →
  ∃ name rest,
    s = "interface " +:+ name +:+ "Props {" +:+ b +:+ "}" +:+ rest
    ∧ is_word name ∧ b ≠ "" ∧ brace_free b.
Proof.
  unfold match_here. destruct (strip_prefix "interface " s) as [s'|] eqn:Hp; [| done].
  apply strip_prefix_spec in Hp as ->.
  destruct (span_spec is_word_char s') as (Heq & Hall & _).
  intros (k & Hk & Hbody)%name_then_body_spec.
  rewrite Heq in Hbody.
  destruct (skip_split k _ (span is_word_char s').2 (proj2 Hk))
    as (w1 & w2 & Hw & Hlen & Hskip).
  rewrite Hskip in Hbody. apply body_spec in Hbody as (rest & Hbody & Hne & Hfree).
  exists w1, rest. rewrite Heq, Hw, string_app_assoc, Hbody. split; [done |].
  split; [| done]. split.
  - intros ->. cbn in Hlen. lia.
  - rewrite Hw, all_chars_app in Hall. by apply andb_true_iff in Hall as [? _].
Qed.

Lemma match_props_spec (s b : string) :
  match_props s = Some b →
  ∃ before name rest,
    s = before +:+ "interface " +:+ name +:+ "Props {" +:+ b +:+ "}" +:+ rest
    ∧ is_word name ∧ b ≠ "" ∧ brace_free b.
Proof.
  induction s as [|c s IH]; cbn [match_props].
  - destruct (match_here "") as [b'|] eqn:Hm; [| done].
    intros [= <-]. apply match_here_spec in Hm as (name & rest & ? & ?). by exists "", name, rest.
  - destruct (match_here (String c s)) as [b'|] eqn:Hm.
    + intros [= <-]. apply match_here_spec in Hm as (name & rest & ? & ?).
      by exists "", name, rest.
    + intros (before & name & rest & -> & ?)%IH.
      by exists (String c before), name, rest.
Qed.

Lemma body_complete (b rest : string) :
  b ≠ "" → brace_free b → body ("Props {" +:+ b +:+ "}" +:+ rest) = Some b.
Proof.
  intros Hne Hfree. unfold body.
  assert (Hp : strip_prefix "Props {" ("Props {" +:+ b +:+ "}" +:+ rest)
               = Some (b +:+ "}" +:+ rest)) by (by apply strip_prefix_spec).
  rewrite Hp, span_app; [by destruct b | done |]. by intros ? ? [= <- _].
Qed.

Lemma name_then_body_complete (name s b : string) (j : nat) :
  name ≠ "" →
  body (skip (String.length name) s) = Some b →
  (∀ i, (1 ≤ i ≤ j)%nat → body (skip (String.length name + i) s) = None) →
  name_then_body (String.length name + j) s = Some b.
Proof.
  intros Hne Hbody Hnone. induction j as [|j IH].
  - rewrite Nat.add_0_r. destruct name as [|c name]; [done |].
    cbn [String.length name_then_body]. cbn [String.length] in Hbody. by rewrite Hbody.
  - rewrite Nat.add_succ_r. cbn [name_then_body].
    rewrite <- Nat.add_succ_r, (Hnone (S j)); [| lia].
    apply IH. intros i Hi. apply Hnone. lia.
Qed.

Lemma match_here_complete (name b rest : string) :
  is_word name → b ≠ "" → brace_free b →
  match_here ("interface " +:+ name +:+ "Props {" +:+ b +:+ "}" +:+ rest) = Some b.
Proof.
  intros [Hne Hword] Hb Hfree. unfold match_here.
  set (tail := " {" +:+ b +:+ "}" +:+ rest).
  assert (Hp : strip_prefix "interface "
                 ("interface " +:+ name +:+ "Props {" +:+ b +:+ "}" +:+ rest)
               = Some ((name +:+ "Props") +:+ tail))
    by (apply strip_prefix_spec; by rewrite string_app_assoc).
  rewrite Hp, span_app; [| by rewrite all_chars_app, Hword | by intros ? ? [= <- _]].
  cbn [fst]. rewrite string_app_assoc.
  assert (Hlen : String.length (name +:+ "Props") = (String.length name + 5)%nat).
  { clear. induction name as [|c name IH]; [done |]. rewrite string_app_cons. cbn. by rewrite IH. }
  rewrite Hlen. apply name_then_body_complete; [done | |].
  - rewrite <- (Nat.add_0_r (String.length name)), skip_app.
    exact (body_complete b rest Hb Hfree).
  - intros i Hi. rewrite skip_app.
    destruct i as [|[|[|[|[|[|i]]]]]]; try lia; done.
Qed.

Lemma match_props_here (s b : string) : match_here s = Some b → match_props s = Some b.
Proof. intros Hhere. destruct s; cbn [match_props]; by rewrite Hhere. Qed.

Lemma diverges_strip (p u tail : string) :
  diverges p u = true → strip_prefix p (u +:+ tail) = None.
Proof.
  revert u. induction p as [|a p IH]; intros [|b u]; try done.
  cbn. rewrite string_app_cons. case_bool_decide; [apply IH | done].
Qed.

Lemma match_props_after (pre tail : string) :
  never_starts "interface " pre = true →
  match_props (pre +:+ tail) = match_props tail.
Proof.
  induction pre as [|c pre IH]; [done |]. cbn [never_starts].
  intros [Hd Hrest]%andb_true_iff. rewrite string_app_cons. cbn [match_props].
  unfold match_here. rewrite <- string_app_cons, (diverges_strip _ _ _ Hd).
  by apply IH.
Qed.

End Props_pattern.

(** ** Trimming and padding *)
Section Trim_facts.

Lemma trimStart_whitespace (l s : string) :
  all_whitespace l = true → trimStart (l +:+ s) = trimStart s.
Proof.
  induction l as [|c l IH]; [done |]. cbn [all_whitespace].
  intros [Hc Hl]%andb_true_iff. rewrite string_app_cons. cbn [trimStart]. rewrite Hc. by apply IH.
Qed.

Lemma trimEnd_all_whitespace (r : string) : all_whitespace r = true → trimEnd r = "".
Proof.
  induction r as [|c r IH]; [done |]. cbn [all_whitespace trimEnd].
  intros [Hc Hr]%andb_true_iff. by rewrite (IH Hr), Hc.
Qed.

Lemma trimEnd_whitespace (s r : string) :
  all_whitespace r = true → trimEnd (s +:+ r) = trimEnd s.
Proof.
  intros Hr. induction s as [|c s IH].
  - rewrite string_app_nil_l. by apply trimEnd_all_whitespace.
  - rewrite string_app_cons. cbn [trimEnd]. by rewrite IH.
Qed.

(** White space around a text does not show after [trim]. *)
Lemma trim_padding (l s r : string) :
  all_whitespace l = true → all_whitespace r = true → trim (l +:+ s +:+ r) = trim s.
Proof.
  intros Hl Hr. unfold trim. rewrite (trimStart_whitespace _ _ Hl). clear l Hl.
  induction s as [|c s IH].
  - rewrite string_app_nil_l. cbn [trimStart trimEnd].
    destruct (trimStart_spec r) as (l & Heq & Hl & Hfirst).
    destruct (trimStart r) as [|x t] eqn:Ht; [done |].
    specialize (Hfirst x t eq_refl).
    assert (Hx : all_whitespace (l +:+ String x t) = true) by (by rewrite <- Heq).
    clear -Hx Hfirst. induction l as [|y l IH].
    + rewrite string_app_nil_l in Hx. cbn in Hx. by rewrite Hfirst in Hx.
    + rewrite string_app_cons in Hx. cbn in Hx. apply andb_true_iff in Hx as [_ Hx]. by apply IH.
  - rewrite string_app_cons. cbn [trimStart]. destruct (is_whitespace c); [done |].
    by rewrite <- string_app_cons, (trimEnd_whitespace _ _ Hr).
Qed.

End Trim_facts.

(** ** Generated components and their documentation *)
Section Component_round_trip.
Context {rt : Runtime}.

Lemma all_chars_join p (sep : string) (l : list string) :
  all_chars p sep = true → Forall (λ s, all_chars p s = true) l →
  all_chars p (join sep l) = true.
Proof.
  intros Hsep. induction l as [|x [|y l] IH]; intros Hl; [done | |].
  - by apply Forall_inv in Hl.
  - rewrite join_cons2, !all_chars_app, Hsep. apply Forall_cons in Hl as [-> Hl]. by rewrite IH.
Qed.

Lemma field_lines_brace_free (props : list (string * string)) :
  Forall (λ kt, brace_free kt.1 ∧ brace_free kt.2) props →
  brace_free (nl +:+ "    " +:+ join (nl +:+ "    ") (field_lines props) +:+ nl).
Proof.
  intros Hprops. unfold brace_free. rewrite !all_chars_app.
  rewrite all_chars_join; [done | done |].
  unfold field_lines. apply Forall_fmap. eapply Forall_impl; [exact Hprops |].
  intros [k t] [Hk Ht]. cbn in *. unfold brace_free in *. by rewrite !all_chars_app, Hk, Ht.
Qed.

(** The generated component is a heading free of the word [interface],
    the properties interface, and the component itself. *)
Lemma generateComponentContent_shape args props :
  GenerateComponentArgs.props args = Some props →
  ∃ pre rest,
    never_starts "interface " pre = true
    ∧ generateComponentContent args
      = pre +:+ "interface " +:+ GenerateComponentArgs.name args +:+ "Props {"
          +:+ (nl +:+ "    " +:+ join (nl +:+ "    ") (field_lines props) +:+ nl)
          +:+ "}" +:+ rest.
Proof.
  intros Hprops. unfold generateComponentContent, lines, propsInterface, interface_block.
  rewrite Hprops. case_bool_decide.
  - exists ("import React from 'react';" +:+ nl +:+ nl). eexists. split; [by vm_compute |].
    rewrite !join_cons2, !string_app_assoc. reflexivity.
  - exists ("import React, { Component } from 'react';" +:+ nl +:+ nl). eexists.
    split; [by vm_compute |].
    rewrite !join_cons2, !string_app_assoc. reflexivity.
Qed.

Lemma match_props_generated args props :
  GenerateComponentArgs.props args = Some props →
  is_word (GenerateComponentArgs.name args) →
  Forall (λ kt, brace_free kt.1 ∧ brace_free kt.2) props →
  PropsPattern.match_props (generateComponentContent args)
  = Some (nl +:+ "    " +:+ join (nl +:+ "    ") (field_lines props) +:+ nl).
Proof.
  intros Hprops Hname Hfree.
  destruct (generateComponentContent_shape args props Hprops) as (pre & rest & Hpre & ->).
  rewrite (match_props_after _ _ Hpre).
  apply match_props_here, match_here_complete; [done | | by apply field_lines_brace_free].
  by rewrite string_app_cons.
Qed.

(** X5.  Every declared property of a generated component shows in both
    files that [generate_component] writes: as the field [key: type;] of the
    properties interface, as the line [- `key`: type] of the documentation
    and as [key={example}] in the usage example, where the example is the
    literal [getExampleValue] gives for the type; a functional component
    takes the properties in declaration order. *)
Theorem generate_component_every_property args props key type :
  let name := GenerateComponentArgs.name args in
  GenerateComponentArgs.props args = Some props →
  (key, type) ∈ props →
  contains (generateComponentContent args) (key +:+ ": " +:+ type +:+ ";")
  ∧ contains (generateComponentDocumentation args) ("- `" +:+ key +:+ "`: " +:+ type)
  ∧ contains (generateComponentDocumentation args)
             (key +:+ "={" +:+ getExampleValue type +:+ "}")
  ∧ (GenerateComponentArgs.type args = "functional" →
       contains (generateComponentContent args)
                ("const " +:+ name +:+ ": React.FC<" +:+ name +:+ "Props> = ({ "
                   +:+ join ", " props.*1 +:+ " }) => {")).
Proof.
  intros name Hprops Hin. split; [| split; [| split]].
  - eapply contains_trans; [by apply (generateComponentContent_block args) |].
    unfold interface_block. do 4 apply contains_app_r. apply contains_app_l.
    apply contains_join. unfold field_lines.
    by apply (list_elem_of_fmap_2 (λ kt, kt.1 +:+ ": " +:+ kt.2 +:+ ";") _ (key, type)).
  - unfold generateComponentDocumentation, lines. rewrite Hprops.
    eapply contains_trans; [apply contains_join; do 6 right; by left |].
    apply contains_join.
    by apply (list_elem_of_fmap_2 (λ kt, "- `" +:+ kt.1 +:+ "`: " +:+ kt.2) _ (key, type)).
  - unfold generateComponentDocumentation, lines. rewrite Hprops.
    eapply contains_trans; [apply contains_join; do 12 right; by left |].
    do 5 apply contains_app_r. apply contains_app_l. apply contains_join.
    by apply (list_elem_of_fmap_2 (λ kt, kt.1 +:+ "={" +:+ getExampleValue kt.2 +:+ "}")
                _ (key, type)).
  - intros Htype. unfold generateComponentContent, lines. rewrite Hprops.
    rewrite bool_decide_eq_true_2 by done. apply contains_join. do 4 right. by left.
Qed.

(** X6.  What [generate_component] writes, [create_documentation] reads
    back: when the component name is made of word characters and no
    property name or type holds a closing brace, the pattern
    [/interface (\w+)Props {([^}]+)}/] finds in the generated component
    exactly the body of its properties interface, and the component
    documentation made from that file shows the fields, trimmed, in its
    [Props] section. *)
Theorem component_documentation_round_trip args props st os1 :
  let name := GenerateComponentArgs.name args in
  let path := GenerateComponentArgs.path args in
  let fields := join (nl +:+ "    ") (field_lines props) in
  GenerateComponentArgs.props args = Some props →
  is_word name →
  Forall (λ kt, brace_free kt.1 ∧ brace_free kt.2) props →
  fs_readFile (path_join path (name +:+ ".tsx")) (os st)
  = (inr (generateComponentContent args), os1) →
  PropsPattern.match_props (generateComponentContent args)
  = Some (nl +:+ "    " +:+ fields +:+ nl)
  ∧ ∃ text,
      generateComponentDoc path name st
      = (inr text,
         {| os := os1; projectDocs := projectDocs st;
            calls := calls st ++ [ReadFile (path_join path (name +:+ ".tsx"))] |})
      ∧ contains text
          ("## Props" +:+ nl +:+ "```typescript" +:+ nl +:+ trim fields +:+ nl +:+ "```").
Proof.
  intros name path fields Hprops Hname Hfree Hread.
  pose proof (match_props_generated args props Hprops Hname Hfree) as Hmatch.
  split; [done |].
  unfold generateComponentDoc. autounfold with server_ops. unfold syscall.
  fold name path. rewrite Hread. cbn [os projectDocs calls]. rewrite Hmatch.
  eexists. split; [reflexivity |].
  fold fields.
  assert (Htrim : trim (nl +:+ "    " +:+ fields +:+ nl) = trim fields)
    by exact (trim_padding (nl +:+ "    ") fields nl eq_refl eq_refl).
  rewrite Htrim.
  unfold lines. rewrite !join_cons2.
  do 4 apply contains_app_r. exists "". eexists.
  rewrite string_app_nil_l, !string_app_assoc. reflexivity.
Qed.

End Component_round_trip.

Lemma generate_component_every_property_witness :
  let args := {| GenerateComponentArgs.name := "Badge";
                 GenerateComponentArgs.path := "/src";
                 GenerateComponentArgs.type := "functional";
                 GenerateComponentArgs.props := Some [("label", "string"); ("tags", "string[]")] |} in
  ("tags", "string[]") ∈ [("label", "string"); ("tags", "string[]")]
  ∧ contains (generateComponentContent args) "tags: string[];"
  ∧ contains (generateComponentDocumentation args) "- `tags`: string[]"
  ∧ contains (generateComponentDocumentation args)
             ("tags={[" +:+ dq +:+ "item1" +:+ dq +:+ ", " +:+ dq +:+ "item2" +:+ dq +:+ "]}")
  ∧ contains (generateComponentContent args)
             "const Badge: React.FC<BadgeProps> = ({ label, tags }) => {".
Proof.
  intros args.
  assert (Hin : ("tags", "string[]") ∈ [("label", "string"); ("tags", "string[]")])
    by (right; left).
  destruct (generate_component_every_property args _ "tags" "string[]" eq_refl Hin)
    as (Hfield & Hline & Husage & Hsignature).
  split; [exact Hin |]. split; [exact Hfield |]. split; [exact Hline |].
  split; [exact Husage |]. exact (Hsignature eq_refl).
Defined.

Lemma component_documentation_round_trip_witness :
  let args := {| GenerateComponentArgs.name := "Badge";
                 GenerateComponentArgs.path := "/src";
                 GenerateComponentArgs.type := "class";
                 GenerateComponentArgs.props := Some [("label", "string"); ("count", "number")] |} in
  let disk : Mem.fs := {[ "/src/Badge.tsx" := Mem.File (generateComponentContent args) ]} in
  is_word "Badge"
  ∧ PropsPattern.match_props (generateComponentContent args)
    = Some (nl +:+ "    label: string;" +:+ nl +:+ "    count: number;" +:+ nl)
  ∧ ∃ text,
      (generateComponentDoc (rt := Mem.runtime) "/src" "Badge" (Mem.start disk)).1 = inr text
      ∧ contains text
          ("## Props" +:+ nl +:+ "```typescript" +:+ nl
             +:+ "label: string;" +:+ nl +:+ "    count: number;" +:+ nl +:+ "```").
Proof.
  intros args disk.
  assert (Hword : is_word "Badge") by (by split).
  assert (Hfree : Forall (λ kt : string * string, brace_free kt.1 ∧ brace_free kt.2)
                    [("label", "string"); ("count", "number")])
    by (repeat constructor).
  destruct (component_documentation_round_trip (rt := Mem.runtime) args _ (Mem.start disk) disk
              eq_refl Hword Hfree eq_refl) as (Hmatch & text & Hrun & Htext).
  split; [exact Hword |]. split; [exact Hmatch |].
  exists text. split; [exact (f_equal fst Hrun) | exact Htext].
Defined.

(** ** Following a run step by step *)
Section Run_facts.
Context {rt : Runtime}.

Lemma after_after st os1 os2 l1 l2 : after (after st os1 l1) os2 l2 = after st os2 (l1 ++ l2).
Proof. unfold after. cbn. by rewrite <- app_assoc. Qed.

Lemma syscall_returns {A} c (op : OS → (string + A) * OS) st a os' :
  op (os st) = (inr a, os') → syscall c op st = (inr a, after st os' [c]).
Proof. intros Hop. unfold syscall. by rewrite Hop. Qed.

Lemma syscall_throws {A} c (op : OS → (string + A) * OS) st message os' :
  op (os st) = (inl message, os') →
  syscall c op st = (inl (NativeError message), after st os' [c]).
Proof. intros Hop. unfold syscall. by rewrite Hop. Qed.

Lemma bind_returns {A B} (m : M A) (f : A → M B) st a st1 :
  m st = (inr a, st1) → (m ≫= f) st = f a st1.
Proof. intros Hm. unfold mbind, M_bind. by rewrite Hm. Qed.

Lemma bind_throws {A B} (m : M A) (f : A → M B) st e st1 :
  m st = (inl e, st1) → (m ≫= f) st = (inl e, st1).
Proof. intros Hm. unfold mbind, M_bind. by rewrite Hm. Qed.

Lemma try_catch_returns {A} (body : M A) handler st a st1 :
  body st = (inr a, st1) → try_catch body handler st = (inr a, st1).
Proof. intros Hm. unfold try_catch. by rewrite Hm. Qed.

Lemma try_catch_throws {A} (body : M A) handler st e st1 :
  body st = (inl e, st1) → try_catch body handler st = handler e st1.
Proof. intros Hm. unfold try_catch. by rewrite Hm. Qed.

End Run_facts.

(** ** Handlers that write one artefact *)
Section Single_artefact.
Context {rt : Runtime}.

Lemma indented_line (l : list string) (line : string) :
  line ∈ l →
  contains (nl +:+ "    " +:+ join (nl +:+ "    ") l +:+ nl +:+ "}")
           (nl +:+ "    " +:+ line +:+ nl).
Proof.
  intros Hline. induction l as [|x [|y l] IH].
  - by apply elem_of_nil in Hline.
  - apply list_elem_of_singleton in Hline as ->. cbn [join].
    exists "", "}". by rewrite string_app_nil_l, !string_app_assoc.
  - rewrite join_cons2. apply elem_of_cons in Hline as [-> | Hline].
    + exists "", ("    " +:+ join (nl +:+ "    ") (y :: l) +:+ nl +:+ "}").
      by rewrite string_app_nil_l, !string_app_assoc.
    + replace (nl +:+ "    " +:+ (x +:+ (nl +:+ "    ") +:+ join (nl +:+ "    ") (y :: l))
                 +:+ nl +:+ "}")
        with ((nl +:+ "    " +:+ x)
                +:+ (nl +:+ "    " +:+ join (nl +:+ "    ") (y :: l) +:+ nl +:+ "}"))
        by (by rewrite !string_app_assoc).
      by apply contains_app_r, IH.
Qed.

(** Each field of an interface block stands on a line of its own, indented
    by four spaces. *)
Lemma interface_block_line head entries key type :
  (key, type) ∈ entries →
  contains (interface_block head entries)
           (nl +:+ "    " +:+ key +:+ ": " +:+ type +:+ ";" +:+ nl).
Proof.
  intros Hin. unfold interface_block. apply contains_app_r, contains_app_r.
  replace (nl +:+ "    " +:+ key +:+ ": " +:+ type +:+ ";" +:+ nl)
    with (nl +:+ "    " +:+ (key +:+ ": " +:+ type +:+ ";") +:+ nl)
    by (by rewrite !string_app_assoc).
  apply indented_line. unfold field_lines.
  by apply (list_elem_of_fmap_2 (λ kt, kt.1 +:+ ": " +:+ kt.2 +:+ ";") _ (key, type)).
Qed.

(** X7.  [create_type_definition], once its path is accepted, lists the
    [properties] before it enters its [try].  When they are absent it throws
    the TypeError of [Object.entries] as it is, having written nothing.
    When they are present it makes one write, of the file [<name>.ts] under
    the path: the text opens with [export interface <name> {], holds every
    property as a line [    key: type;] of its own, and closes with a brace
    and a line feed; the call returns when the write succeeds and fails with
    [InternalError] when it does not.  The document store is left alone in
    every case. *)
Theorem create_type_definition_outcomes (args : CreateTypeDefinitionArgs.t) st st1 :
  let name := CreateTypeDefinitionArgs.name args in
  let path := CreateTypeDefinitionArgs.path args in
  let filePath := path_join path (name +:+ ".ts") in
  validatePath path st = (inr tt, st1) →
  (CreateTypeDefinitionArgs.properties args = None →
     ∃ message, handleCreateTypeDefinition args st = (inl (NativeError message), st1))
  ∧ (∀ properties,
       CreateTypeDefinitionArgs.properties args = Some properties →
       let content := interface_block ("export interface " +:+ name) properties +:+ nl in
       (∃ fields,
          content = "export interface " +:+ name +:+ " {" +:+ nl +:+ "    " +:+ fields
                      +:+ nl +:+ "}" +:+ nl)
       ∧ (∀ key type, (key, type) ∈ properties →
            contains content (nl +:+ "    " +:+ key +:+ ": " +:+ type +:+ ";" +:+ nl))
       ∧ (∀ os2, fs_writeFile filePath content (os st1) = (inr tt, os2) →
            handleCreateTypeDefinition args st
            = (inr (TextContent ("Type definition " +:+ name +:+ " created successfully at "
                                   +:+ filePath)),
               after st1 os2 [WriteFile filePath content]))
       ∧ (∀ message os2, fs_writeFile filePath content (os st1) = (inl message, os2) →
            handleCreateTypeDefinition args st
            = (inl (McpError InternalError ("Failed to create type definition: " +:+ message)),
               after st1 os2 [WriteFile filePath content]))).
Proof.
  intros name path filePath Hvalidate. split.
  - intros Hnone. eexists. unfold handleCreateTypeDefinition. fold name path.
    unfold mbind at 1, M_bind at 1. rewrite Hvalidate, Hnone. reflexivity.
  - intros properties Hsome content. split; [| split; [| split]].
    + exists (join (nl +:+ "    ") (field_lines properties)).
      unfold content, interface_block. by rewrite !string_app_assoc.
    + intros key type Hin. by apply contains_app_l, interface_block_line.
    + intros os2 Hwrite. unfold handleCreateTypeDefinition. fold name path filePath.
      unfold mbind at 1, M_bind at 1. rewrite Hvalidate, Hsome.
      autounfold with server_ops. fold content. unfold syscall. by rewrite Hwrite.
    + intros message os2 Hwrite. unfold handleCreateTypeDefinition. fold name path filePath.
      unfold mbind at 1, M_bind at 1. rewrite Hvalidate, Hsome.
      autounfold with server_ops. fold content. unfold syscall. by rewrite Hwrite.
Qed.

(** X8.  [install_packages], once its path is accepted, looks for
    [package.json] first.  Without it the call fails with [InternalError]
    and runs no command.  With it the handler runs one command in the
    project directory, [npm install], then [--save-dev] for development
    dependencies (nothing otherwise), a space and the package names
    separated by spaces, and answers with the command's two outputs; a
    failing command makes the call fail with [InternalError]. *)
Theorem install_packages_outcomes (args : InstallPackageArgs.t) st st1 :
  let path := InstallPackageArgs.path args in
  let packageJson := path_join path "package.json" in
  let installCmd :=
    "npm install " +:+ (if InstallPackageArgs.dev args then "--save-dev" else "") +:+ " "
      +:+ join " " (InstallPackageArgs.packages args) in
  validatePath path st = (inr tt, st1) →
  (∀ message os2,
     fs_access packageJson (os st1) = (inl message, os2) →
     handleInstallPackages args st
     = (inl (McpError InternalError ("Failed to install packages: " +:+ message)),
        after st1 os2 [Access packageJson]))
  ∧ (∀ os2 os3 stdout stderr,
       fs_access packageJson (os st1) = (inr tt, os2) →
       exec installCmd path os2 = (inr (stdout, stderr), os3) →
       handleInstallPackages args st
       = (inr (TextContent ("Packages installed successfully:" +:+ nl +:+ stdout
                              +:+ nl +:+ stderr)),
          after st1 os3 [Access packageJson; Exec installCmd path]))
  ∧ (∀ os2 os3 message,
       fs_access packageJson (os st1) = (inr tt, os2) →
       exec installCmd path os2 = (inl message, os3) →
       handleInstallPackages args st
       = (inl (McpError InternalError ("Failed to install packages: " +:+ message)),
          after st1 os3 [Access packageJson; Exec installCmd path])).
Proof.
  intros path packageJson installCmd Hvalidate.
  assert (Hrun : handleInstallPackages args st
                 = try_catch
                     (access packageJson ;;
                      out ← execAsync installCmd path;
                      mret (TextContent ("Packages installed successfully:" +:+ nl +:+ out.1
                                           +:+ nl +:+ out.2)))
                     (λ error, throw (McpError InternalError
                                        ("Failed to install packages: " +:+ error_message error)))
                     st1).
  { unfold handleInstallPackages. fold path packageJson installCmd.
    unfold mbind at 1, M_bind at 1. by rewrite Hvalidate. }
  rewrite Hrun. clear Hrun. autounfold with server_ops. unfold syscall, after.
  split; [| split].
  - intros message os2 Haccess. by rewrite Haccess.
  - intros os2 os3 stdout stderr Haccess Hexec. rewrite Haccess. cbn [os projectDocs calls].
    rewrite Hexec. cbn [fst snd]. by rewrite <- app_assoc.
  - intros os2 os3 message Haccess Hexec. rewrite Haccess. cbn [os projectDocs calls].
    rewrite Hexec. cbn. by rewrite <- app_assoc.
Qed.

(** X9.  The component documentation of [create_documentation] reads the
    file [<name>.tsx] under the path and nothing else.  When the file cannot
    be read, the failure is an [InternalError] that carries the reason.
    Otherwise the [Props] section of the text shows either
    [No props defined], or the trimmed body of a block
    [interface <Name>Props {<body>}] that the file contains, where [<Name>]
    is a non-empty run of word characters and the body is not empty and has
    no closing brace; a file in which the word [interface] followed by a
    space does not occur gets [No props defined]. *)
Theorem generateComponentDoc_outcomes (projectPath componentName : string) st :
  let componentPath := path_join projectPath (componentName +:+ ".tsx") in
  (∀ message os1,
     fs_readFile componentPath (os st) = (inl message, os1) →
     generateComponentDoc projectPath componentName st
     = (inl (McpError InternalError
               ("Failed to generate component documentation: " +:+ message)),
        after st os1 [ReadFile componentPath]))
  ∧ (∀ componentContent os1,
       fs_readFile componentPath (os st) = (inr componentContent, os1) →
       ∃ text props,
         generateComponentDoc projectPath componentName st
         = (inr text, after st os1 [ReadFile componentPath])
         ∧ contains text ("# " +:+ componentName +:+ " Component" +:+ nl +:+ nl
                            +:+ "## Props" +:+ nl +:+ "```typescript" +:+ nl
                            +:+ props +:+ nl +:+ "```")
         ∧ (props = "No props defined"
            ∨ ∃ before name body rest,
                componentContent
                = before +:+ "interface " +:+ name +:+ "Props {" +:+ body +:+ "}" +:+ rest
                ∧ is_word name ∧ body ≠ "" ∧ brace_free body ∧ props = trim body)
         ∧ (¬ contains componentContent "interface " → props = "No props defined")).
Proof.
  intros componentPath. split.
  - intros message os1 Hread. unfold generateComponentDoc. fold componentPath.
    autounfold with server_ops. unfold syscall. by rewrite Hread.
  - intros componentContent os1 Hread.
    exists (lines
              [ "# " +:+ componentName +:+ " Component"; ""; "## Props"; "```typescript";
                match PropsPattern.match_props componentContent with
                | Some group => trim group
                | None => "No props defined"
                end;
                "```"; ""; "## Usage"; "```tsx";
                "import " +:+ componentName +:+ " from './" +:+ componentName +:+ "';";
                ""; "// Example usage"; "<" +:+ componentName +:+ " />"; "```"; "";
                "## Description"; "Add component description here."; "" ]),
           (match PropsPattern.match_props componentContent with
            | Some group => trim group
            | None => "No props defined"
            end).
    split; [| split; [| split]].
    + unfold generateComponentDoc. fold componentPath.
      autounfold with server_ops. unfold syscall. by rewrite Hread.
    + unfold lines. rewrite !join_cons2. exists "". eexists.
      rewrite string_app_nil_l, !string_app_assoc. reflexivity.
    + destruct (PropsPattern.match_props componentContent) as [group|] eqn:Hmatch; [| by left].
      right. apply match_props_spec in Hmatch as (before & name & rest & ? & ? & ? & ?).
      by exists before, name, group, rest.
    + intros Hnone.
      destruct (PropsPattern.match_props componentContent) as [group|] eqn:Hmatch; [| done].
      exfalso. apply Hnone.
      apply match_props_spec in Hmatch as (before & name & rest & -> & _).
      by exists before, (name +:+ "Props {" +:+ group +:+ "}" +:+ rest).
Qed.

End Single_artefact.

Lemma create_type_definition_outcomes_witness :
  let args := {| CreateTypeDefinitionArgs.name := "User";
                 CreateTypeDefinitionArgs.path := "/types";
                 CreateTypeDefinitionArgs.properties :=
                   Some [("id", "number"); ("email", "string")] |} in
  let bare := {| CreateTypeDefinitionArgs.name := "User";
                 CreateTypeDefinitionArgs.path := "/types";
                 CreateTypeDefinitionArgs.properties := None |} in
  let run := handleCreateTypeDefinition (rt := Mem.runtime) args (Mem.start ∅) in
  (validatePath (rt := Mem.runtime) "/types" (Mem.start ∅)).1 = inr tt
  ∧ run.1 = inr (TextContent "Type definition User created successfully at /types/User.ts")
  ∧ last (calls run.2)
    = Some (WriteFile "/types/User.ts"
              ("export interface User {" +:+ nl +:+ "    id: number;" +:+ nl
                 +:+ "    email: string;" +:+ nl +:+ "}" +:+ nl))
  ∧ ∃ message,
      handleCreateTypeDefinition (rt := Mem.runtime) bare (Mem.start ∅)
      = (inl (NativeError message), (validatePath (rt := Mem.runtime) "/types" (Mem.start ∅)).2).
Proof.
  intros args bare run.
  assert (Hvalidate : (validatePath (rt := Mem.runtime) "/types" (Mem.start ∅)).1 = inr tt)
    by (vm_compute; reflexivity).
  destruct (create_type_definition_outcomes (rt := Mem.runtime) args (Mem.start ∅) _
              (outcome_eq _ _ Hvalidate)) as (_ & Hpresent).
  destruct (Hpresent _ eq_refl) as (_ & _ & Hwritten & _).
  destruct (create_type_definition_outcomes (rt := Mem.runtime) bare (Mem.start ∅) _
              (outcome_eq _ _ Hvalidate)) as (Habsent & _).
  split; [exact Hvalidate |].
  unfold run. erewrite Hwritten; [| apply outcome_eq; vm_compute; reflexivity].
  split; [reflexivity |]. split; [cbn [snd after calls]; by rewrite last_snoc |].
  exact (Habsent eq_refl).
Defined.

Lemma install_packages_outcomes_witness :
  let disk : Mem.fs := {[ "/app" := Mem.Dir; "/app/package.json" := Mem.File "{}" ]} in
  let args := {| InstallPackageArgs.packages := ["vitest"; "prettier"];
                 InstallPackageArgs.path := "/app";
                 InstallPackageArgs.dev := true |} in
  let run := handleInstallPackages (rt := Mem.runtime) args (Mem.start disk) in
  (validatePath (rt := Mem.runtime) "/app" (Mem.start disk)).1 = inr tt
  ∧ run.1 = inr (TextContent ("Packages installed successfully:" +:+ nl +:+ nl))
  ∧ calls run.2
    = [ Access "/app"; Stat "/app"; Access "/app/package.json";
        Exec "npm install --save-dev vitest prettier" "/app" ].
Proof.
  intros disk args run.
  assert (Hvalidate : (validatePath (rt := Mem.runtime) "/app" (Mem.start disk)).1 = inr tt)
    by (vm_compute; reflexivity).
  destruct (install_packages_outcomes (rt := Mem.runtime) args (Mem.start disk) _
              (outcome_eq _ _ Hvalidate)) as (_ & Hinstalled & _).
  split; [exact Hvalidate |].
  unfold run. erewrite Hinstalled;
    [| apply outcome_eq; vm_compute; reflexivity | apply outcome_eq; vm_compute; reflexivity].
  split; [reflexivity |]. by vm_compute.
Defined.

Lemma generateComponentDoc_outcomes_witness :
  let disk : Mem.fs := {[ "/src/Plain.tsx" := Mem.File "export const Plain = () => null;" ]} in
  ∃ text,
    (generateComponentDoc (rt := Mem.runtime) "/src" "Plain" (Mem.start disk)).1 = inr text
    ∧ contains text ("## Props" +:+ nl +:+ "```typescript" +:+ nl +:+ "No props defined"
                       +:+ nl +:+ "```").
Proof.
  intros disk.
  destruct (generateComponentDoc_outcomes (rt := Mem.runtime) "/src" "Plain" (Mem.start disk))
    as [_ Hread].
  destruct (Hread "export const Plain = () => null;" disk eq_refl)
    as (text & props & Hrun & Htext & _ & Hnone).
  exists text. split; [exact (f_equal fst Hrun) |].
  rewrite Hnone in Htext.
  - eapply contains_trans; [exact Htext |]. do 5 apply contains_app_r. apply contains_refl.
  - intros Hin. apply has_substring_spec in Hin. by vm_compute in Hin.
Defined.

(** ** Handlers that edit a JSON file *)
Section Json_files.
Context {rt : Runtime}.

Lemma set_prop_same k v props : lookup_prop k props = Some v → set_prop k v props = props.
Proof.
  induction props as [|[k' v'] props IH]; cbn; [done |].
  case_bool_decide as Hk; [by intros [= ->]; subst | by intros ->%IH].
Qed.

(** Copying into an object what it already holds changes nothing. *)
Lemma copy_props_same target source :
  (∀ k v, (k, v) ∈ source → lookup_prop k target = Some v) →
  copy_props target source = target.
Proof.
  unfold copy_props. induction source as [|[k v] source IH]; intros Hheld; [done |].
  cbn. rewrite set_prop_same by (apply Hheld; left). apply IH.
  intros k' v' Hin. apply Hheld. by right.
Qed.

Lemma lookup_prop_elem k v props : NoDup props.*1 → (k, v) ∈ props → lookup_prop k props = Some v.
Proof.
  induction props as [|[k' v'] props IH]; intros Hnodup Hin; [by apply elem_of_nil in Hin |].
  cbn in *. apply NoDup_cons in Hnodup as [Hfresh Hnodup].
  apply elem_of_cons in Hin as [[= -> ->] | Hin].
  - by rewrite bool_decide_eq_true_2.
  - rewrite bool_decide_eq_false_2; [by apply IH |].
    intros ->. apply Hfresh. by apply (list_elem_of_fmap_2 fst _ (k', v)).
Qed.

(** Copying into the empty object rebuilds an object with distinct keys. *)
Lemma copy_props_fresh target source :
  NoDup (target.*1 ++ source.*1) → copy_props target source = target ++ source.
Proof.
  unfold copy_props. revert target.
  induction source as [|[k v] source IH]; intros target Hnodup; [by rewrite app_nil_r |].
  cbn in *. assert (Hfresh : k ∉ target.*1).
  { apply NoDup_app in Hnodup as (_ & Hdisjoint & _). intros Hin.
    apply (Hdisjoint k Hin). by left. }
  assert (Hset : set_prop k v target = target ++ [(k, v)]).
  { clear -Hfresh. induction target as [|[k' v'] target IH]; [done |]. cbn in *.
    apply not_elem_of_cons in Hfresh as [Hne Hfresh].
    by rewrite bool_decide_eq_false_2, IH. }
  rewrite Hset, IH; [by rewrite <- app_assoc |].
  rewrite fmap_app. cbn. by rewrite <- app_assoc.
Qed.

Lemma spread2_object (props : list (string * value)) :
  NoDup props.*1 → spread2 (VObject []) (VObject props) = VObject props.
Proof.
  intros Hnodup. unfold spread2. cbn [own_entries]. f_equal.
  change (copy_props [] []) with (@nil (string * value)).
  by rewrite copy_props_fresh.
Qed.

Lemma set_prop_fresh k v props : k ∉ props.*1 → set_prop k v props = props ++ [(k, v)].
Proof.
  induction props as [|[k' v'] props IH]; [done |]. cbn.
  intros [Hne Hfresh]%not_elem_of_cons. by rewrite bool_decide_eq_false_2, IH.
Qed.

Lemma lookup_insert_index_eq n k v props :
  array_index k = Some n → lookup_prop k (insert_index n k v props) = Some v.
Proof.
  intros Hk. induction props as [|[k' v'] props IH]; cbn.
  - by rewrite bool_decide_eq_true_2.
  - destruct (array_index k') as [m|] eqn:Hk'; [destruct (m <? n)%N eqn:Hm |]; cbn;
      rewrite ?(bool_decide_eq_true_2 (k = k)) by done; try done.
    rewrite bool_decide_eq_false_2; [done |].
    intros ->. rewrite Hk in Hk'. injection Hk' as ->. apply N.ltb_lt in Hm. lia.
Qed.

Lemma lookup_insert_index_ne n k k' v props :
  k' ≠ k → lookup_prop k' (insert_index n k v props) = lookup_prop k' props.
Proof.
  intros Hne. induction props as [|[k0 v0] props IH]; cbn.
  - by rewrite bool_decide_eq_false_2.
  - destruct (array_index k0) as [m|]; [destruct (m <? n)%N |]; cbn;
      rewrite ?(bool_decide_eq_false_2 (k' = k)) by done; try done.
    by rewrite IH.
Qed.

Lemma lookup_define_prop_eq k v props : lookup_prop k (define_prop k v props) = Some v.
Proof.
  unfold define_prop. destruct (has_prop k props); [apply lookup_set_prop_eq |].
  destruct (array_index k) as [n|] eqn:Hk;
    [by apply lookup_insert_index_eq | apply lookup_set_prop_eq].
Qed.

Lemma lookup_define_prop_ne k k' v props :
  k' ≠ k → lookup_prop k' (define_prop k v props) = lookup_prop k' props.
Proof.
  intros Hne. unfold define_prop. destruct (has_prop k props); [by apply lookup_set_prop_ne |].
  destruct (array_index k) as [n|];
    [by apply lookup_insert_index_ne | by apply lookup_set_prop_ne].
Qed.

(** A new array-index key stands after the smaller indices and before
    everything else. *)
Lemma insert_index_place n k v props :
  ∃ smaller rest,
    props = smaller ++ rest
    ∧ insert_index n k v props = smaller ++ (k, v) :: rest
    ∧ (∀ k', k' ∈ smaller.*1 → ∃ m, array_index k' = Some m ∧ (m < n)%N)
    ∧ (∀ kv rest', rest = kv :: rest' → ∀ m, array_index kv.1 = Some m → (n ≤ m)%N).
Proof.
  induction props as [|[k' v'] props (smaller & rest & Hprops & Hinsert & Hsmaller & Hrest)].
  - exists [], []. repeat split; try done. by intros ? ?%elem_of_nil.
  - cbn [insert_index]. destruct (array_index k') as [m|] eqn:Hk';
      [destruct (m <? n)%N eqn:Hm |].
    + exists ((k', v') :: smaller), rest. rewrite Hinsert, Hprops. repeat split; try done.
      intros k0 [-> | Hin]%elem_of_cons; [| by apply Hsmaller].
      exists m. split; [done |]. by apply N.ltb_lt.
    + exists [], ((k', v') :: props). repeat split; try done; [by intros ? ?%elem_of_nil |].
      intros kv rest' [= <- _] m'. cbn. rewrite Hk'. intros [= <-].
      apply N.ltb_ge in Hm. lia.
    + exists [], ((k', v') :: props). repeat split; try done; [by intros ? ?%elem_of_nil |].
      intros kv rest' [= <- _] m'. cbn. by rewrite Hk'.
Qed.

(** X10.  [add_script] on a [package.json] that is an object whose
    [scripts] property is an object, absent or falsy: the handler reads the
    file, defines the script in the table (a new table when there was none),
    puts the table back under [scripts] and writes the result to the same
    file.  The new table maps the script name to the command and agrees with
    the old table on every other name; the new [package.json] agrees with
    the old one on every property other than [scripts].  In the table a
    name that was there keeps its place; a new name goes last, unless it is
    an array index ([0], [1], [42], ...): such a name goes before every name
    that is not an index, in ascending order among the indices. *)
Theorem add_script_updates_scripts (args : AddScriptArgs.t) st st1 text props scripts os2 :
  let path := AddScriptArgs.path args in
  let name := AddScriptArgs.name args in
  let command := AddScriptArgs.command args in
  let packageJsonPath := path_join path "package.json" in
  let scripts' := define_prop name (VString command) scripts in
  let written := VObject (set_prop "scripts" (VObject scripts') props) in
  validatePath path st = (inr tt, st1) →
  fs_readFile packageJsonPath (os st1) = (inr text, os2) →
  JSON_parse text = inr (VObject props) →
  script_table props = Some scripts →
  name ≠ "__proto__" →
  (∀ os3,
     fs_writeFile packageJsonPath (JSON_stringify written) os2 = (inr tt, os3) →
     handleAddScript args st
     = (inr (TextContent ("Added script '" +:+ name +:+ "': " +:+ command)),
        after st1 os3 [ReadFile packageJsonPath;
                       WriteFile packageJsonPath (JSON_stringify written)]))
  ∧ get written "scripts" = Some (VObject scripts')
  ∧ lookup_prop name scripts' = Some (VString command)
  ∧ (∀ k, k ≠ name → lookup_prop k scripts' = lookup_prop k scripts)
  ∧ (∀ k, k ≠ "scripts" → get written k = get (VObject props) k)
  ∧ (name ∈ scripts.*1 → scripts'.*1 = scripts.*1)
  ∧ (name ∉ scripts.*1 → array_index name = None →
       scripts' = scripts ++ [(name, VString command)])
  ∧ (name ∉ scripts.*1 → ∀ n, array_index name = Some n →
       ∃ smaller rest,
         scripts = smaller ++ rest
         ∧ scripts' = smaller ++ (name, VString command) :: rest
         ∧ (∀ k, k ∈ smaller.*1 → ∃ m, array_index k = Some m ∧ (m < n)%N)
         ∧ (∀ kv rest', rest = kv :: rest' → ∀ m, array_index kv.1 = Some m → (n ≤ m)%N)).
Proof.
  intros path name command packageJsonPath scripts' written
    Hvalidate Hread Hparse Htable Hname.
  split; [| split; [| split; [| split; [| split; [| split; [| split]]]]]].
  - intros os3 Hwrite. unfold handleAddScript. fold path name command packageJsonPath.
    unfold mbind at 1, M_bind at 1. rewrite Hvalidate.
    autounfold with server_ops. unfold syscall. rewrite Hread. cbn [os projectDocs calls].
    rewrite Hparse. unfold with_script. autounfold with server_ops. cbn [get].
    assert (Hput : put_dynamic
                     (if truthy (default VUndefined (lookup_prop "scripts" props))
                      then default VUndefined (lookup_prop "scripts" props) else VObject [])
                     name command
                   = Some (VObject scripts')).
    { unfold script_table in Htable.
      destruct (lookup_prop "scripts" props) as [v|]; cbn [default].
      - destruct v; cbn in Htable |- *;
          repeat match type of Htable with
            | context [if ?b then _ else _] => destruct b eqn:?; cbn in Htable |- *
            end;
          try discriminate; injection Htable as <-;
          by rewrite ?bool_decide_eq_false_2 by done.
      - injection Htable as <-. cbn [truthy put_dynamic].
        by rewrite bool_decide_eq_false_2 by done. }
    rewrite Hput. cbn [put os projectDocs calls]. fold written. rewrite Hwrite.
    unfold after. cbn. by rewrite <- app_assoc.
  - cbn. by rewrite lookup_set_prop_eq.
  - apply lookup_define_prop_eq.
  - intros k Hk. by apply lookup_define_prop_ne.
  - intros k Hk. cbn. by rewrite lookup_set_prop_ne.
  - intros Hin. unfold scripts', define_prop, has_prop.
    rewrite bool_decide_eq_true_2 by done. rewrite set_prop_keys.
    by rewrite bool_decide_eq_true_2.
  - intros Hfresh Hplain. unfold scripts', define_prop, has_prop.
    rewrite bool_decide_eq_false_2 by done. rewrite Hplain. by apply set_prop_fresh.
  - intros Hfresh n Hindex. unfold scripts', define_prop, has_prop.
    rewrite bool_decide_eq_false_2 by done. rewrite Hindex. apply insert_index_place.
Qed.

(** X11.  [add_script] writes nothing unless it has read and parsed
    [package.json]: when the file cannot be read, when its text is not JSON,
    and when it holds [null], the call fails with [InternalError] after the
    single read. *)
Theorem add_script_failures (args : AddScriptArgs.t) st st1 :
  let path := AddScriptArgs.path args in
  let packageJsonPath := path_join path "package.json" in
  validatePath path st = (inr tt, st1) →
  (∀ message os2,
     fs_readFile packageJsonPath (os st1) = (inl message, os2) →
     handleAddScript args st
     = (inl (McpError InternalError ("Failed to add script: " +:+ message)),
        after st1 os2 [ReadFile packageJsonPath]))
  ∧ (∀ text message os2,
       fs_readFile packageJsonPath (os st1) = (inr text, os2) →
       JSON_parse text = inl message →
       handleAddScript args st
       = (inl (McpError InternalError ("Failed to add script: " +:+ message)),
          after st1 os2 [ReadFile packageJsonPath]))
  ∧ (∀ text os2,
       fs_readFile packageJsonPath (os st1) = (inr text, os2) →
       JSON_parse text = inr VNull →
       ∃ message,
         handleAddScript args st
         = (inl (McpError InternalError ("Failed to add script: " +:+ message)),
            after st1 os2 [ReadFile packageJsonPath])).
Proof.
  intros path packageJsonPath Hvalidate.
  assert (Hrun : ∀ body : M ToolResult,
             (validatePath path ;; try_catch body
                (λ error, throw (McpError InternalError
                                   ("Failed to add script: " +:+ error_message error)))) st
             = try_catch body
                 (λ error, throw (McpError InternalError
                                    ("Failed to add script: " +:+ error_message error))) st1).
  { intros body. unfold mbind at 1, M_bind at 1. by rewrite Hvalidate. }
  unfold handleAddScript. fold path packageJsonPath. rewrite Hrun. clear Hrun.
  autounfold with server_ops. unfold syscall.
  split; [| split].
  - intros message os2 Hread. by rewrite Hread.
  - intros text message os2 Hread Hparse. rewrite Hread. cbn [os projectDocs calls].
    by rewrite Hparse.
  - intros text os2 Hread Hparse. rewrite Hread. cbn [os projectDocs calls].
    rewrite Hparse. by eexists.
Qed.

(** X12.  [update_tsconfig] falls back to a default configuration when
    [tsconfig.json] cannot be read and when its text is not JSON: in both
    cases the file written holds the caller's options as [compilerOptions],
    [include] set to [src/**/*] and [exclude] set to [node_modules] and
    [dist], whatever the file held before.  For an options object with
    distinct keys, [compilerOptions] is that object. *)
Theorem update_tsconfig_defaults (args : UpdateTsConfigArgs.t) st st1 :
  let path := UpdateTsConfigArgs.path args in
  let options := UpdateTsConfigArgs.options args in
  let tsconfigPath := path_join path "tsconfig.json" in
  let written :=
    VObject [ ("compilerOptions", spread2 (VObject []) options);
              ("include", VArray [VString "src/**/*"]);
              ("exclude", VArray [VString "node_modules"; VString "dist"]) ] in
  let done := TextContent ("Updated TypeScript configuration at " +:+ tsconfigPath) in
  validatePath path st = (inr tt, st1) →
  (∀ message os2 os3,
     fs_readFile tsconfigPath (os st1) = (inl message, os2) →
     fs_writeFile tsconfigPath (JSON_stringify written) os2 = (inr tt, os3) →
     handleUpdateTsConfig args st
     = (inr done,
        after st1 os3 [ReadFile tsconfigPath;
                       WriteFile tsconfigPath (JSON_stringify written)]))
  ∧ (∀ text message os2 os3,
       fs_readFile tsconfigPath (os st1) = (inr text, os2) →
       JSON_parse text = inl message →
       fs_writeFile tsconfigPath (JSON_stringify written) os2 = (inr tt, os3) →
       handleUpdateTsConfig args st
       = (inr done,
          after st1 os3 [ReadFile tsconfigPath;
                         WriteFile tsconfigPath (JSON_stringify written)]))
  ∧ (∀ props, options = VObject props → NoDup props.*1 →
       written = VObject [ ("compilerOptions", VObject props);
                           ("include", VArray [VString "src/**/*"]);
                           ("exclude", VArray [VString "node_modules"; VString "dist"]) ]).
Proof.
  intros path options tsconfigPath written done Hvalidate.
  assert (Hmerge : ∀ s, merge_options default_tsconfig options s = (inr written, s))
    by reflexivity.
  assert (Hrun : ∀ os2 os3,
             load_tsconfig tsconfigPath st1
             = (inr default_tsconfig, after st1 os2 [ReadFile tsconfigPath]) →
             fs_writeFile tsconfigPath (JSON_stringify written) os2 = (inr tt, os3) →
             handleUpdateTsConfig args st
             = (inr done,
                after st1 os3 [ReadFile tsconfigPath;
                               WriteFile tsconfigPath (JSON_stringify written)])).
  { intros os2 os3 Hload Hwrite. unfold handleUpdateTsConfig.
    fold path options tsconfigPath.
    rewrite (bind_returns _ _ _ _ _ Hvalidate). apply try_catch_returns.
    rewrite (bind_returns _ _ _ _ _ Hload).
    rewrite (bind_returns _ _ _ _ _ (Hmerge _)).
    erewrite bind_returns; [| by apply syscall_returns].
    by rewrite after_after. }
  split; [| split].
  - intros message os2 os3 Hread Hwrite. apply (Hrun os2 os3); [| done].
    unfold load_tsconfig. erewrite try_catch_throws; [done |].
    apply bind_throws. by apply syscall_throws.
  - intros text message os2 os3 Hread Hparse Hwrite. apply (Hrun os2 os3); [| done].
    unfold load_tsconfig. erewrite try_catch_throws; [done |].
    erewrite bind_returns; [| by apply syscall_returns].
    unfold parse. by rewrite Hparse.
  - intros props Hoptions Hnodup. unfold written. by rewrite Hoptions, spread2_object.
Qed.

(** X13.  [update_tsconfig] changes [compilerOptions] only, and repeating
    a call changes nothing more: of two successful calls in a row with the
    same options object (distinct keys), the first starting from a
    configuration that is an object and the second reading back what the
    first wrote, both write the same text, and that configuration agrees
    with the original one on every property other than [compilerOptions]. *)
Theorem update_tsconfig_idempotent
    (path : string) (o f0 : list (string * value)) (st0 st1 st2 : ServerState)
    (r1 r2 : ToolResult) :
  let tsconfigPath := path_join path "tsconfig.json" in
  let args := {| UpdateTsConfigArgs.path := path; UpdateTsConfigArgs.options := VObject o |} in
  let written := with_options f0 (VObject o) in
  NoDup o.*1 →
  handleUpdateTsConfig args st0 = (inr r1, st1) →
  handleUpdateTsConfig args st1 = (inr r2, st2) →
  loaded_tsconfig path st0 = inr (VObject f0) →
  tsconfig_text path st1 = inr (JSON_stringify written) →
  JSON_parse (JSON_stringify written) = inr written →
  last (calls st1) = Some (WriteFile tsconfigPath (JSON_stringify written))
  ∧ last (calls st2) = Some (WriteFile tsconfigPath (JSON_stringify written))
  ∧ (∀ k, k ≠ "compilerOptions" → get written k = get (VObject f0) k).
Proof.
  intros tsconfigPath args written Hnodup Hrun1 Hrun2 Hloaded Htext Hjson.
  apply handleUpdateTsConfig_ok in Hrun1 as (t1 & c1 & t1' & Hl1 & Hget1 & Hput1 & Hw1).
  apply handleUpdateTsConfig_ok in Hrun2 as (t2 & c2 & t2' & Hl2 & Hget2 & Hput2 & Hw2).
  rewrite Hloaded in Hl1. injection Hl1 as <-.
  rewrite (loaded_tsconfig_parsed _ _ _ _ Htext Hjson) in Hl2. injection Hl2 as <-.
  cbn in Hget1. injection Hget1 as <-. cbn in Hput1. injection Hput1 as <-.
  split; [exact Hw1 |]. split.
  - rewrite Hw2. do 3 f_equal.
    unfold written, with_options in Hget2, Hput2 |- *. cbn in Hget2, Hput2.
    rewrite lookup_set_prop_eq in Hget2. injection Hget2 as <-. injection Hput2 as <-.
    set (c0 := default VUndefined (lookup_prop "compilerOptions" f0)).
    set (m := copy_props (copy_props [] (own_entries c0)) o).
    assert (Hm : NoDup m.*1) by (apply copy_props_NoDup, copy_props_NoDup, NoDup_nil_2).
    assert (Hrebuilt : copy_props [] m = m) by (by apply (copy_props_fresh [] m)).
    change (spread2 c0 (VObject o)) with (VObject m). unfold spread2. cbn [own_entries].
    rewrite Hrebuilt, copy_props_same.
    + f_equal. apply set_prop_same, lookup_set_prop_eq.
    + intros k v Hin. unfold m. rewrite lookup_copy_props by done.
      by rewrite (lookup_prop_elem k v o Hnodup Hin).
  - intros k Hk. unfold written, with_options. cbn. by rewrite lookup_set_prop_ne.
Qed.

End Json_files.

Lemma add_script_updates_scripts_witness :
  let packageJson :=
    [("name", VString "app"); ("scripts", VObject [("test", VString "vitest")])] in
  let disk : Mem.fs :=
    {[ "/app" := Mem.Dir;
       "/app/package.json" := Mem.File (Mem.stringify (VObject packageJson)) ]} in
  let request name command :=
    {| AddScriptArgs.path := "/app"; AddScriptArgs.name := name;
       AddScriptArgs.command := command |} in
  let run name command :=
    handleAddScript (rt := Mem.runtime) (request name command) (Mem.start disk) in
  script_table packageJson = Some [("test", VString "vitest")]
  ∧ (run "build" "tsc").1 = inr (TextContent "Added script 'build': tsc")
  ∧ last (calls (run "build" "tsc").2)
    = Some (WriteFile "/app/package.json"
              (Mem.stringify
                 (VObject [ ("name", VString "app");
                            ("scripts", VObject [ ("test", VString "vitest");
                                                  ("build", VString "tsc") ]) ])))
  ∧ array_index "1" = Some 1%N
  ∧ (run "1" "tsc").1 = inr (TextContent "Added script '1': tsc")
  ∧ last (calls (run "1" "tsc").2)
    = Some (WriteFile "/app/package.json"
              (Mem.stringify
                 (VObject [ ("name", VString "app");
                            ("scripts", VObject [ ("1", VString "tsc");
                                                  ("test", VString "vitest") ]) ]))).
Proof.
  intros packageJson disk request run.
  assert (Hvalidate : (validatePath (rt := Mem.runtime) "/app" (Mem.start disk)).1 = inr tt)
    by (vm_compute; reflexivity).
  assert (Hwritten : ∀ name command,
             name ≠ "__proto__" →
             ∀ os3,
               Mem.writeFile "/app/package.json"
                 (Mem.stringify
                    (VObject (set_prop "scripts"
                                (VObject (define_prop name (VString command)
                                            [("test", VString "vitest")]))
                                packageJson)))
                 disk = (inr tt, os3) →
               run name command
               = (inr (TextContent ("Added script '" +:+ name +:+ "': " +:+ command)),
                  after (validatePath (rt := Mem.runtime) "/app" (Mem.start disk)).2 os3
                    [ ReadFile "/app/package.json";
                      WriteFile "/app/package.json"
                        (Mem.stringify
                           (VObject (set_prop "scripts"
                                       (VObject (define_prop name (VString command)
                                                   [("test", VString "vitest")]))
                                       packageJson))) ])).
  { intros name command Hname.
    destruct (add_script_updates_scripts (rt := Mem.runtime) (request name command)
                (Mem.start disk) _
                (Mem.stringify (VObject packageJson)) packageJson [("test", VString "vitest")]
                disk (outcome_eq _ _ Hvalidate)
                ltac:(apply outcome_eq; vm_compute; reflexivity)
                ltac:(vm_compute; reflexivity) eq_refl Hname) as (Hrun & _).
    exact Hrun. }
  split; [reflexivity |].
  assert (Hbuild : "build" ≠ "__proto__") by discriminate.
  assert (Hone : "1" ≠ "__proto__") by discriminate.
  rewrite (Hwritten "build" "tsc" Hbuild _ ltac:(apply outcome_eq; vm_compute; reflexivity)).
  rewrite (Hwritten "1" "tsc" Hone _ ltac:(apply outcome_eq; vm_compute; reflexivity)).
  split; [reflexivity |]. split; [cbn [snd after calls]; by rewrite last_app |].
  split; [reflexivity |]. split; [reflexivity |].
  cbn [snd after calls]. by rewrite last_app.
Defined.

Lemma add_script_failures_witness :
  let disk : Mem.fs := {[ "/app" := Mem.Dir ]} in
  let args := {| AddScriptArgs.path := "/app"; AddScriptArgs.name := "build";
                 AddScriptArgs.command := "tsc" |} in
  let run := handleAddScript (rt := Mem.runtime) args (Mem.start disk) in
  (validatePath (rt := Mem.runtime) "/app" (Mem.start disk)).1 = inr tt
  ∧ run.1 = inl (McpError InternalError
                   "Failed to add script: ENOENT: no such file or directory, open '/app/package.json'")
  ∧ calls run.2 = [Access "/app"; Stat "/app"; ReadFile "/app/package.json"].
Proof.
  intros disk args run.
  assert (Hvalidate : (validatePath (rt := Mem.runtime) "/app" (Mem.start disk)).1 = inr tt)
    by (vm_compute; reflexivity).
  destruct (add_script_failures (rt := Mem.runtime) args (Mem.start disk) _
              (outcome_eq _ _ Hvalidate)) as (Hmissing & _).
  split; [exact Hvalidate |].
  unfold run. erewrite Hmissing; [| apply outcome_eq; vm_compute; reflexivity].
  split; [reflexivity |]. by vm_compute.
Defined.

Lemma update_tsconfig_defaults_witness :
  let args := {| UpdateTsConfigArgs.path := "/proj";
                 UpdateTsConfigArgs.options := VObject [("strict", VBool true)] |} in
  let run := handleUpdateTsConfig (rt := Mem.runtime) args (Mem.start ∅) in
  (validatePath (rt := Mem.runtime) "/proj" (Mem.start ∅)).1 = inr tt
  ∧ run.1 = inr (TextContent "Updated TypeScript configuration at /proj/tsconfig.json")
  ∧ last (calls run.2)
    = Some (WriteFile "/proj/tsconfig.json"
              (Mem.stringify
                 (VObject [ ("compilerOptions", VObject [("strict", VBool true)]);
                            ("include", VArray [VString "src/**/*"]);
                            ("exclude", VArray [VString "node_modules"; VString "dist"]) ]))).
Proof.
  intros args run.
  assert (Hvalidate : (validatePath (rt := Mem.runtime) "/proj" (Mem.start ∅)).1 = inr tt)
    by (vm_compute; reflexivity).
  destruct (update_tsconfig_defaults (rt := Mem.runtime) args (Mem.start ∅) _
              (outcome_eq _ _ Hvalidate)) as (Hunreadable & _).
  split; [exact Hvalidate |].
  unfold run. erewrite Hunreadable;
    [| apply outcome_eq; vm_compute; reflexivity | apply outcome_eq; vm_compute; reflexivity].
  split; [reflexivity |]. cbn [snd after calls]. by rewrite last_app.
Defined.

Lemma update_tsconfig_idempotent_witness :
  let o := [("strict", VBool true); ("target", VString "es2022")] in
  let f0 := [ ("compilerOptions", VObject []);
              ("include", VArray [VString "src/**/*"]);
              ("exclude", VArray [VString "node_modules"; VString "dist"]) ] in
  let call := handleUpdateTsConfig (rt := Mem.runtime)
                {| UpdateTsConfigArgs.path := "/proj";
                   UpdateTsConfigArgs.options := VObject o |} in
  let success := TextContent "Updated TypeScript configuration at /proj/tsconfig.json" in
  let st0 := Mem.start ∅ in
  let st1 := (call st0).2 in
  let st2 := (call st1).2 in
  (call st0).1 = inr success
  ∧ (call st1).1 = inr success
  ∧ last (calls st2) = last (calls st1)
  ∧ last (calls st2)
    = Some (WriteFile "/proj/tsconfig.json" (Mem.stringify (with_options f0 (VObject o)))).
Proof.
  intros o f0 call success st0 st1 st2.
  assert (Hok1 : (call st0).1 = inr success) by (vm_compute; reflexivity).
  assert (Hok2 : (call st1).1 = inr success) by (vm_compute; reflexivity).
  assert (Hnodup : NoDup o.*1) by (apply (bool_decide_unpack _); vm_compute; exact I).
  assert (Hloaded : loaded_tsconfig (rt := Mem.runtime) "/proj" st0 = inr (VObject f0))
    by (vm_compute; reflexivity).
  assert (Htext : tsconfig_text (rt := Mem.runtime) "/proj" st1
                  = inr (Mem.stringify (with_options f0 (VObject o))))
    by (vm_compute; reflexivity).
  assert (Hjson : Mem.parse (Mem.stringify (with_options f0 (VObject o)))
                  = inr (with_options f0 (VObject o)))
    by (vm_compute; reflexivity).
  destruct (update_tsconfig_idempotent (rt := Mem.runtime) "/proj" o f0 st0 st1 st2
              success success Hnodup (run_ok _ _ Hok1) (run_ok _ _ Hok2) Hloaded Htext Hjson)
    as (Hfirst & Hsecond & _).
  split; [exact Hok1 |]. split; [exact Hok2 |]. split; [| exact Hsecond].
  exact (eq_trans Hsecond (eq_sym Hfirst)).
Defined.

(** ** [create_project] and the document store *)
Section Create_project_store.
Context {rt : Runtime}.

(** Every project README starts with its heading and is not empty. *)
Lemma generateReadme_heading name type typescript :
  ∃ rest, generateReadme name type typescript = "# " +:+ name +:+ nl +:+ rest.
Proof.
  unfold generateReadme, lines. rewrite join_cons2. eexists.
  by rewrite !string_app_assoc.
Qed.

(** A failing [create_project] has made the [mkdir] call first, and has not
    touched the document store. *)
Lemma handleCreateProject_fails args st e st' :
  handleCreateProject args st = (inl e, st') →
  let projectPath := path_join (CreateProjectArgs.path args) (CreateProjectArgs.name args) in
  projectDocs st' = projectDocs st
  ∧ ∃ l, calls st' = calls st ++ Mkdir projectPath :: l.
Proof.
  intros Hrun projectPath. revert Hrun.
  unfold handleCreateProject, getProjectTemplate, scaffold, install. fold projectPath.
  destruct (property _ _) as [[template|member]|];
    [destruct (dependencies template), (devDependencies template),
       (is_not_false (CreateProjectArgs.typescript args)) | |];
    autounfold with server_ops; step_calls; intros [= <- <-]; cbn;
    (split; [done |]); rewrite <- ?app_assoc; cbn; by eexists.
Qed.

(** A successful [create_project] stores the README under the project
    name and changes no other entry of the store. *)
Lemma handleCreateProject_stores args st result st' :
  handleCreateProject args st = (inr result, st') →
  let name := CreateProjectArgs.name args in
  let typescript := is_not_false (CreateProjectArgs.typescript args) in
  projectDocs st'
  = <[name := generateReadme name (CreateProjectArgs.type args) typescript]> (projectDocs st).
Proof.
  intros Hrun name typescript. revert Hrun.
  unfold handleCreateProject, getProjectTemplate, scaffold, install. fold name typescript.
  destruct (property _ _) as [[template|member]|];
    [destruct (dependencies template), (devDependencies template), typescript | |];
    autounfold with server_ops; step_calls; by intros [= <- <-].
Qed.

Lemma readResource_outcome uri st st' :
  projectDocs st' = projectDocs st → (readResource uri st').1 = (readResource uri st).1.
Proof.
  intros Hdocs. unfold readResource. destruct (url_hostname uri) as [message|id]; [done |].
  autounfold with server_ops. rewrite Hdocs. by destruct (projectDocs st !! id) as [[|c text]|].
Qed.

(** X14.  After a successful [create_project] the document store holds
    the project's README under the project name, and nothing else has
    changed in it: the README can be read as the resource whose host is the
    project name, it opens with the heading [# <name>] and says which
    language the project uses, and every other resource reads as it did
    before the call. *)
Theorem create_project_readme_readable (args : CreateProjectArgs.t) st result st' :
  let name := CreateProjectArgs.name args in
  let type := CreateProjectArgs.type args in
  let typescript := is_not_false (CreateProjectArgs.typescript args) in
  let readme := generateReadme name type typescript in
  handleCreateProject args st = (inr result, st') →
  projectDocs st' = <[name := readme]> (projectDocs st)
  ∧ (∀ uri, url_hostname uri = inr name →
       readResource uri st' = (inr {| contents_uri := uri; contents_text := readme |}, st'))
  ∧ (∀ uri id, url_hostname uri = inr id → id ≠ name →
       (readResource uri st').1 = (readResource uri st).1)
  ∧ (∃ rest, readme = "# " +:+ name +:+ nl +:+ rest)
  ∧ contains readme ("A " +:+ type +:+ " project using "
                       +:+ (if typescript then "TypeScript" else "JavaScript") +:+ ".").
Proof.
  intros name type typescript readme Hrun.
  pose proof (handleCreateProject_stores args st result st' Hrun) as Hstore.
  fold name typescript type readme in Hstore.
  destruct (generateReadme_heading name type typescript) as [rest Hrest].
  split; [exact Hstore |]. split; [| split; [| split]].
  - intros uri Hhost. unfold readme at 1. rewrite Hrest.
    apply (readResource_stored _ _ _ _ _ Hhost).
    rewrite Hstore, lookup_insert_eq. unfold readme. by rewrite Hrest.
  - intros uri id Hhost Hne. unfold readResource. rewrite Hhost.
    autounfold with server_ops. rewrite Hstore, lookup_insert_ne by done.
    by destruct (projectDocs st !! id) as [[|c text]|].
  - by exists rest.
  - unfold readme, generateReadme, lines. apply contains_join. do 3 right. by left.
Qed.

(** X15.  A failing [create_project] reports an [InternalError] that
    carries the reason, has asked for the project directory before anything
    else, and has registered no documentation: the document store is as it
    was, so every resource reads as before the call. *)
Theorem create_project_failure_keeps_store (args : CreateProjectArgs.t) st e st' :
  let projectPath := path_join (CreateProjectArgs.path args) (CreateProjectArgs.name args) in
  handleCreateProject args st = (inl e, st') →
  (∃ reason, e = McpError InternalError ("Failed to create project: " +:+ error_message reason))
  ∧ projectDocs st' = projectDocs st
  ∧ (∃ l, calls st' = calls st ++ Mkdir projectPath :: l)
  ∧ (∀ uri, (readResource uri st').1 = (readResource uri st).1).
Proof.
  intros projectPath Hrun.
  destruct (handleCreateProject_fails args st e st' Hrun) as [Hdocs Hcalls].
  split; [| split; [done | split; [done |]]].
  - unfold handleCreateProject in Hrun.
    apply try_catch_rethrow_throws in Hrun as [reason ->]. by exists reason.
  - intros uri. by apply readResource_outcome.
Qed.

(** X16.  A project type that names a member of [Object.prototype]
    ([constructor], [toString], [__proto__], ...) is not rejected by the
    template lookup: [templates[type]] finds the inherited member, which is
    truthy.  The call still fails, with [InternalError], once the project
    directory has been made, and runs no command. *)
Theorem create_project_inherited_type (args : CreateProjectArgs.t) st os1 :
  let name := CreateProjectArgs.name args in
  let type := CreateProjectArgs.type args in
  let projectPath := path_join (CreateProjectArgs.path args) name in
  type ∈ object_prototype_members →
  fs_mkdir projectPath (os st) = (inr tt, os1) →
  (∀ typescript, getProjectTemplate type name typescript = inr (Inherited type))
  ∧ ∃ message,
      handleCreateProject args st
      = (inl (McpError InternalError ("Failed to create project: " +:+ message)),
         after st os1 [Mkdir projectPath]).
Proof.
  intros name type projectPath Hmember Hmkdir.
  assert (Hlookup : ∀ typescript, getProjectTemplate type name typescript = inr (Inherited type)).
  { intros typescript. unfold getProjectTemplate, property.
    assert (Hown : assoc type (templates typescript) = None).
    { apply templates_unsupported. intros Hproject. revert Hmember Hproject.
      unfold object_prototype_members, project_types. rewrite !elem_of_cons, !elem_of_nil.
      intros Hm Hp.
      repeat match goal with H : _ ∨ _ |- _ => destruct H as [-> | H] end;
        try done; repeat match goal with H : _ ∨ _ |- _ => destruct H as [H | H] end;
        try done; discriminate. }
    by rewrite Hown, bool_decide_eq_true_2. }
  split; [exact Hlookup |].
  unfold handleCreateProject. fold name type projectPath. rewrite Hlookup.
  autounfold with server_ops. unfold syscall. rewrite Hmkdir. cbn. by eexists.
Qed.

End Create_project_store.

Lemma create_project_readme_readable_witness :
  let args := {| CreateProjectArgs.name := "api"; CreateProjectArgs.type := "express";
                 CreateProjectArgs.path := "/work"; CreateProjectArgs.typescript := VBool false |} in
  let run := handleCreateProject (rt := Mem.runtime) args (Mem.start ∅) in
  run.1 = inr (TextContent "Project api created successfully with JavaScript configuration")
  ∧ (readResource (rt := Mem.runtime) "docs://api" run.2).1
    = inr {| contents_uri := "docs://api";
             contents_text := generateReadme "api" "express" false |}
  ∧ contains (generateReadme "api" "express" false) "A express project using JavaScript.".
Proof.
  intros args run.
  assert (Hok : run.1
                = inr (TextContent "Project api created successfully with JavaScript configuration"))
    by (vm_compute; reflexivity).
  destruct (create_project_readme_readable (rt := Mem.runtime) args (Mem.start ∅) _ run.2
              (run_ok _ _ Hok)) as (_ & Hread & _ & _ & Htext).
  split; [exact Hok |]. split; [| exact Htext].
  exact (f_equal fst (Hread "docs://api" eq_refl)).
Defined.

Lemma create_project_failure_keeps_store_witness :
  let args := {| CreateProjectArgs.name := "app"; CreateProjectArgs.type := "vue";
                 CreateProjectArgs.path := "/tmp"; CreateProjectArgs.typescript := VUndefined |} in
  let run := handleCreateProject (rt := Mem.runtime) args (Mem.start ∅) in
  run.1 = inl (McpError InternalError
                 "Failed to create project: MCP error -32602: Unsupported project type: vue")
  ∧ projectDocs run.2 = ∅
  ∧ (∃ l, calls run.2 = Mkdir "/tmp/app" :: l).
Proof.
  intros args run.
  assert (Hfails : run.1
                   = inl (McpError InternalError
                            "Failed to create project: MCP error -32602: Unsupported project type: vue"))
    by (vm_compute; reflexivity).
  destruct (create_project_failure_keeps_store (rt := Mem.runtime) args (Mem.start ∅) _ run.2
              (outcome_eq _ _ Hfails)) as (_ & Hdocs & Hcalls & _).
  split; [exact Hfails |]. split; [exact Hdocs | exact Hcalls].
Defined.

Lemma create_project_inherited_type_witness :
  let args := {| CreateProjectArgs.name := "app"; CreateProjectArgs.type := "toString";
                 CreateProjectArgs.path := "/tmp"; CreateProjectArgs.typescript := VUndefined |} in
  ("toString" ∈ object_prototype_members)
  ∧ getProjectTemplate "toString" "app" true = inr (Inherited "toString")
  ∧ ∃ message,
      (handleCreateProject (rt := Mem.runtime) args (Mem.start ∅)).1
      = inl (McpError InternalError ("Failed to create project: " +:+ message)).
Proof.
  intros args.
  assert (Hmember : "toString" ∈ object_prototype_members)
    by (apply (bool_decide_unpack _); vm_compute; exact I).
  destruct (create_project_inherited_type (rt := Mem.runtime) args (Mem.start ∅) _ Hmember
              ltac:(apply outcome_eq; vm_compute; reflexivity)) as (Hlookup & message & Hrun).
  split; [exact Hmember |]. split; [exact (Hlookup true) |].
  exists message. exact (f_equal fst Hrun).
Defined.

(** ** Who writes the document store *)
Section Store_writers.
Context {rt : Runtime}.

Lemma quiet_handleInstallPackages args : quiet (handleInstallPackages args).
Proof.
  unfold handleInstallPackages, access, execAsync.
  apply quiet_bind; [apply quiet_validatePath | intros ?]. quiet_steps.
Qed.

Lemma quiet_handleGenerateComponent args : quiet (handleGenerateComponent args).
Proof.
  unfold handleGenerateComponent, writeFile.
  apply quiet_bind; [apply quiet_validatePath | intros ?]. quiet_steps.
Qed.

Lemma quiet_handleCreateTypeDefinition args : quiet (handleCreateTypeDefinition args).
Proof.
  unfold handleCreateTypeDefinition, writeFile.
  apply quiet_bind; [apply quiet_validatePath | intros ?]. quiet_steps.
Qed.

Lemma quiet_handleAddScript args : quiet (handleAddScript args).
Proof.
  unfold handleAddScript, with_script, readFile, writeFile.
  apply quiet_bind; [apply quiet_validatePath | intros ?]. quiet_steps.
Qed.

Lemma quiet_handleUpdateTsConfig args : quiet (handleUpdateTsConfig args).
Proof.
  unfold handleUpdateTsConfig, load_tsconfig, merge_options, readFile, writeFile.
  apply quiet_bind; [apply quiet_validatePath | intros ?]. quiet_steps.
Qed.

(** X17.  Only [create_project] and [create_documentation] write the
    document store: a call of any other tool, known or not, whether it
    returns or fails, leaves the store as it was, so every resource reads
    after the call as it did before. *)
Theorem callTool_store_writers (name : string) (args : ToolArguments) (st : ServerState) :
  name ≠ "create_project" →
  name ≠ "create_documentation" →
  projectDocs (callTool name args st).2 = projectDocs st
  ∧ ∀ uri, (readResource uri (callTool name args st).2).1 = (readResource uri st).1.
Proof.
  intros Hproject Hdocumentation.
  assert (Hquiet : quiet (callTool name args)).
  { unfold callTool. rewrite !(bool_decide_eq_false_2 (name = "create_project")) by done.
    rewrite !(bool_decide_eq_false_2 (name = "create_documentation")) by done.
    apply quiet_try_catch.
    - repeat case_bool_decide;
        auto using quiet_handleInstallPackages, quiet_handleGenerateComponent,
          quiet_handleCreateTypeDefinition, quiet_handleAddScript,
          quiet_handleUpdateTsConfig, quiet_throw.
    - intros e. destruct (is_McpError e); apply quiet_throw. }
  split; [apply Hquiet |]. intros uri. apply readResource_outcome, Hquiet.
Qed.

End Store_writers.

Lemma callTool_store_writers_witness :
  let args :=
    {| as_CreateProjectArgs :=
         {| CreateProjectArgs.name := "app"; CreateProjectArgs.type := "node";
            CreateProjectArgs.path := "/src"; CreateProjectArgs.typescript := VUndefined |};
       as_InstallPackageArgs :=
         {| InstallPackageArgs.packages := []; InstallPackageArgs.path := "/src";
            InstallPackageArgs.dev := false |};
       as_GenerateComponentArgs := counter_args "Counter" "/src";
       as_CreateTypeDefinitionArgs :=
         {| CreateTypeDefinitionArgs.name := "Counter"; CreateTypeDefinitionArgs.path := "/src";
            CreateTypeDefinitionArgs.properties := Some [] |};
       as_AddScriptArgs :=
         {| AddScriptArgs.path := "/src"; AddScriptArgs.name := "Counter";
            AddScriptArgs.command := "" |};
       as_UpdateTsConfigArgs :=
         {| UpdateTsConfigArgs.path := "/src"; UpdateTsConfigArgs.options := VUndefined |};
       as_CreateDocumentationArgs :=
         {| CreateDocumentationArgs.path := "/src"; CreateDocumentationArgs.type := "api";
            CreateDocumentationArgs.name := None |} |} in
  let run := callTool (rt := Mem.runtime) "generate_component" args (Mem.start ∅) in
  run.1 = inr (TextContent "Component Counter created successfully at /src/Counter.tsx")
  ∧ projectDocs run.2 = ∅.
Proof.
  intros args run.
  split; [vm_compute; reflexivity |].
  destruct (callTool_store_writers (rt := Mem.runtime) "generate_component" args (Mem.start ∅))
    as [Hstore _]; [discriminate | discriminate | exact Hstore].
Defined.

(** ** [create_documentation] and the document store *)
Section Create_documentation_store.
Context {rt : Runtime}.

Lemma bind_throws_inv {A B} (m : M A) (f : A → M B) st e st' :
  (m ≫= f) st = (inl e, st') →
  m st = (inl e, st') ∨ ∃ a st1, m st = (inr a, st1) ∧ f a st1 = (inl e, st').
Proof.
  unfold mbind, M_bind. destruct (m st) as [[e0|a] st1]; intros Hrun.
  - left. by injection Hrun as <- <-.
  - right. by exists a, st1.
Qed.

Lemma try_catch_rethrow_inv {A} (body : M A) (wrap : exn → exn) st e st' :
  try_catch body (λ error, throw (wrap error)) st = (inl e, st') →
  ∃ e0, body st = (inl e0, st') ∧ e = wrap e0.
Proof.
  unfold try_catch, throw. destruct (body st) as [[e0|x] st1]; intros [= <- <-]. by exists e0.
Qed.

Lemma quiet_entry_lines before mid section : quiet (entry_lines before mid section).
Proof.
  unfold entry_lines. induction (own_entries _) as [|kv entries IH]; cbn [foldr].
  - apply quiet_ret.
  - apply quiet_bind; [apply quiet_or_throw | intros x].
    apply quiet_bind; [exact IH | intros ls]. apply quiet_ret.
Qed.

Lemma quiet_generateProjectDocumentation path : quiet (generateProjectDocumentation path).
Proof.
  unfold generateProjectDocumentation, readFile.
  repeat first
    [ apply quiet_ret | apply quiet_syscall | apply quiet_or_throw | apply quiet_parse
    | apply quiet_entry_lines | apply quiet_bind; [| intros ?] ].
Qed.

Lemma quiet_generateComponentDoc path name : quiet (generateComponentDoc path name).
Proof. unfold generateComponentDoc, readFile. quiet_steps. Qed.

Lemma quiet_render_documentation args : quiet (render_documentation args).
Proof.
  unfold render_documentation, generateApiDocumentation.
  repeat case_bool_decide;
    repeat first
      [ apply quiet_ret | apply quiet_throw | apply quiet_generateProjectDocumentation
      | apply quiet_generateComponentDoc | apply quiet_bind; [| intros ?]
      | match goal with |- quiet (match ?x with _ => _ end) => destruct x end ].
Qed.

(** The file name goes with the documentation type, and a type that
    matches no case has no content. *)
Lemma render_documentation_file args st content fileName st' :
  render_documentation args st = (inr (content, fileName), st') →
  fileName = documentation_file args
  ∧ (CreateDocumentationArgs.type args ∉ documentation_types → content = "").
Proof.
  unfold render_documentation, documentation_file, documentation_types.
  rewrite !not_elem_of_cons.
  repeat case_bool_decide.
  - intros (c & st1 & _ & [= <- <- _])%bind_ok. split; [done |]. by intros (? & _).
  - intros (c & st1 & _ & [= <- <- _])%bind_ok. split; [done |]. by intros (_ & ? & _).
  - destruct (CreateDocumentationArgs.name args) as [[|ch n]|]; [done | | done].
    intros (c & st1 & _ & [= <- <- _])%bind_ok. split; [done |]. by intros (_ & _ & ? & _).
  - by intros [= <- <- _].
Qed.

(** A successful [create_documentation], step by step. *)
Lemma handleCreateDocumentation_ok args st result st' :
  handleCreateDocumentation args st = (inr result, st') →
  let path := CreateDocumentationArgs.path args in
  ∃ content fileName st1 st2,
    validatePath path st = (inr tt, st1)
    ∧ render_documentation args st1 = (inr (content, fileName), st2)
    ∧ last (calls st') = Some (WriteFile (path_join path fileName) content)
    ∧ projectDocs st' = <[path_basename path := content]> (projectDocs st)
    ∧ result = TextContent ("Documentation created successfully at " +:+ path_join path fileName).
Proof.
  intros Hrun path. unfold handleCreateDocumentation in Hrun. fold path in Hrun.
  apply bind_ok in Hrun as ([] & st1 & Hvalidate & Hrun).
  apply try_catch_rethrow_ok in Hrun.
  apply bind_ok in Hrun as ([content fileName] & st2 & Hrender & Hrun).
  apply bind_ok in Hrun as ([] & st3 & Hwrite & Hrun).
  apply bind_ok in Hrun as ([] & st4 & Hset & Hrun).
  injection Hrun as <- <-. injection Hset as <-.
  apply syscall_ok in Hwrite as [_ [Hcalls Hdocs]].
  exists content, fileName, st1, st2. repeat split; try done.
  - cbn. by rewrite Hcalls, last_snoc.
  - cbn. rewrite Hdocs.
    pose proof (quiet_render_documentation args st1) as Hq2. rewrite Hrender in Hq2.
    pose proof (quiet_validatePath path st) as Hq1. rewrite Hvalidate in Hq1.
    cbn in Hq1, Hq2. by rewrite Hq2, Hq1.
Qed.

(** A failing [create_documentation] has not reached the store. *)
Lemma handleCreateDocumentation_fails args st e st' :
  handleCreateDocumentation args st = (inl e, st') → projectDocs st' = projectDocs st.
Proof.
  intros Hrun. unfold handleCreateDocumentation in Hrun.
  apply bind_throws_inv in Hrun as [Hv | ([] & st1 & Hv & Hrun)].
  - pose proof (quiet_validatePath (CreateDocumentationArgs.path args) st) as Hq.
    by rewrite Hv in Hq.
  - pose proof (quiet_validatePath (CreateDocumentationArgs.path args) st) as Hq1.
    rewrite Hv in Hq1. cbn in Hq1. rewrite <- Hq1. clear Hv Hq1.
    apply try_catch_rethrow_inv in Hrun as (e0 & Hbody & _).
    apply bind_throws_inv in Hbody as [Hr | ([content fileName] & st3 & Hr & Hbody)].
    + pose proof (quiet_render_documentation args st1) as Hq. by rewrite Hr in Hq.
    + pose proof (quiet_render_documentation args st1) as Hq. rewrite Hr in Hq.
      cbn in Hq. rewrite <- Hq.
      apply bind_throws_inv in Hbody as [Hw | ([] & st4 & Hw & Hbody)].
      * pose proof (quiet_syscall (WriteFile (path_join (CreateDocumentationArgs.path args)
                                                 fileName) content)
                      (fs_writeFile (path_join (CreateDocumentationArgs.path args) fileName)
                         content) st3) as Hq3.
        unfold writeFile in Hw. by rewrite Hw in Hq3.
      * by apply bind_throws_inv in Hbody as [Hs | ([] & st5 & Hs & Hbody)].
Qed.

(** X18.  A successful [create_documentation] ends by writing the
    documentation file, named after the type ([README.md], [API.md], or the
    component name with [.md]), and stores the very text it wrote under the
    last segment of [path], changing no other entry of the store; a failing
    call changes no entry at all.  So a call, whatever its outcome, can
    change what one resource reads, the one whose host is the last segment
    of [path], and no other. *)
Theorem create_documentation_store (args : CreateDocumentationArgs.t) (st : ServerState) :
  let path := CreateDocumentationArgs.path args in
  let docPath := path_join path (documentation_file args) in
  let st' := (handleCreateDocumentation args st).2 in
  (∀ result,
     (handleCreateDocumentation args st).1 = inr result →
     ∃ content,
       last (calls st') = Some (WriteFile docPath content)
       ∧ projectDocs st' = <[path_basename path := content]> (projectDocs st)
       ∧ result = TextContent ("Documentation created successfully at " +:+ docPath))
  ∧ (∀ e, (handleCreateDocumentation args st).1 = inl e → projectDocs st' = projectDocs st)
  ∧ (∀ uri id, url_hostname uri = inr id → id ≠ path_basename path →
       (readResource uri st').1 = (readResource uri st).1).
Proof.
  intros path docPath st'. subst st'.
  destruct (handleCreateDocumentation args st) as [[e|result] st'] eqn:Hrun; cbn [fst snd].
  - pose proof (handleCreateDocumentation_fails args st e st' Hrun) as Hdocs.
    split; [done |]. split; [done |]. intros uri id _ _. by apply readResource_outcome.
  - destruct (handleCreateDocumentation_ok args st result st' Hrun)
      as (content & fileName & st1 & st2 & _ & Hrender & Hlast & Hdocs & Hresult).
    apply render_documentation_file in Hrender as [-> _].
    split; [| split; [done |]].
    + intros ? [= <-]. by exists content.
    + intros uri id Hhost Hne. unfold readResource. rewrite Hhost.
      autounfold with server_ops. fold path in Hdocs. rewrite Hdocs, lookup_insert_ne by done.
      by destruct (projectDocs st !! id) as [[|c text]|].
Qed.

(** X19.  [create_documentation] with a type other than [readme], [api]
    and [component] generates nothing: it writes the empty text to the join
    of [path] and the empty file name.  When that write fails, the call
    fails with [InternalError]; when it succeeds, the call reports success
    and stores the empty text, and the resource of the project then reads
    as not found. *)
Theorem create_documentation_unknown_type (args : CreateDocumentationArgs.t) st st1 :
  let path := CreateDocumentationArgs.path args in
  let docPath := path_join path "" in
  CreateDocumentationArgs.type args ∉ documentation_types →
  validatePath path st = (inr tt, st1) →
  (∀ message os2,
     fs_writeFile docPath "" (os st1) = (inl message, os2) →
     handleCreateDocumentation args st
     = (inl (McpError InternalError ("Failed to create documentation: " +:+ message)),
        after st1 os2 [WriteFile docPath ""]))
  ∧ (∀ os2,
       fs_writeFile docPath "" (os st1) = (inr tt, os2) →
       ∃ st',
         handleCreateDocumentation args st
         = (inr (TextContent ("Documentation created successfully at " +:+ docPath)), st')
         ∧ calls st' = calls st1 ++ [WriteFile docPath ""]
         ∧ projectDocs st' !! path_basename path = Some ""
         ∧ ∀ uri, url_hostname uri = inr (path_basename path) →
             readResource uri st'
             = (inl (McpError MethodNotFound
                       ("Documentation not found for " +:+ path_basename path)), st')).
Proof.
  intros path docPath Htype Hvalidate.
  assert (Hrender : ∀ s, render_documentation args s = (inr ("", ""), s)).
  { intros s. revert Htype. unfold documentation_types, render_documentation.
    rewrite !not_elem_of_cons. intros (? & ? & ? & _). by rewrite !bool_decide_eq_false_2. }
  unfold handleCreateDocumentation. fold path.
  rewrite (bind_returns _ _ _ _ _ Hvalidate).
  split.
  - intros message os2 Hwrite.
    erewrite try_catch_throws;
      [| rewrite (bind_returns _ _ _ _ _ (Hrender _)); fold docPath;
         apply bind_throws; by apply syscall_throws].
    done.
  - intros os2 Hwrite. eexists. split; [| split; [| split]].
    + apply try_catch_returns. rewrite (bind_returns _ _ _ _ _ (Hrender _)). fold docPath.
      erewrite bind_returns; [| by apply syscall_returns]. reflexivity.
    + done.
    + cbn. by rewrite lookup_insert_eq.
    + intros uri Hhost. unfold readResource. rewrite Hhost. autounfold with server_ops.
      cbn. by rewrite lookup_insert_eq.
Qed.

End Create_documentation_store.

Lemma create_documentation_store_witness :
  let args := {| CreateDocumentationArgs.path := "/work/proj";
                 CreateDocumentationArgs.type := "api";
                 CreateDocumentationArgs.name := None |} in
  let run := handleCreateDocumentation (rt := Mem.runtime) args (Mem.start ∅) in
  run.1 = inr (TextContent "Documentation created successfully at /work/proj/API.md")
  ∧ ∃ content,
      last (calls run.2) = Some (WriteFile "/work/proj/API.md" content)
      ∧ projectDocs run.2 = {[ "proj" := content ]}.
Proof.
  intros args run.
  assert (Hok : run.1 = inr (TextContent "Documentation created successfully at /work/proj/API.md"))
    by (vm_compute; reflexivity).
  destruct (create_documentation_store (rt := Mem.runtime) args (Mem.start ∅)) as (Hstored & _).
  destruct (Hstored _ Hok) as (content & Hlast & Hdocs & _).
  split; [exact Hok |]. exists content. split; [exact Hlast | exact Hdocs].
Defined.

Lemma create_documentation_unknown_type_witness :
  let args := {| CreateDocumentationArgs.path := "/work/proj";
                 CreateDocumentationArgs.type := "changelog";
                 CreateDocumentationArgs.name := None |} in
  let run := handleCreateDocumentation (rt := Mem.runtime) args (Mem.start ∅) in
  ("changelog" ∉ documentation_types)
  ∧ run.1 = inl (McpError InternalError
                   "Failed to create documentation: EISDIR: illegal operation on a directory, open '/work/proj'")
  ∧ calls run.2 = [Access "/work/proj"; Mkdir "/work/proj"; WriteFile "/work/proj" ""].
Proof.
  intros args run.
  assert (Htype : CreateDocumentationArgs.type args ∉ documentation_types)
    by (apply (bool_decide_unpack _); vm_compute; exact I).
  assert (Hvalidate : (validatePath (rt := Mem.runtime) "/work/proj" (Mem.start ∅)).1 = inr tt)
    by (vm_compute; reflexivity).
  destruct (create_documentation_unknown_type (rt := Mem.runtime) args (Mem.start ∅) _ Htype
              (outcome_eq _ _ Hvalidate)) as (Hfails & _).
  split; [exact Htype |].
  unfold run. erewrite Hfails; [| apply outcome_eq; vm_compute; reflexivity].
  split; [reflexivity |]. by vm_compute.
Defined.

(** ** The project documentation *)
Section Project_documentation.
Context {rt : Runtime}.

Lemma or_throw_ok {A} (o : option A) e st a st' :
  or_throw o e st = (inr a, st') → o = Some a ∧ st' = st.
Proof. destruct o; [by intros [= -> ->] | done]. Qed.

(** One line per own entry of the section, in order. *)
Lemma entry_lines_ok before mid section st ls st' :
  entry_lines before mid section st = (inr ls, st') →
  st' = st
  ∧ Forall2 (λ kv line, ∃ x, toString kv.2 = Some x ∧ line = before +:+ kv.1 +:+ mid +:+ x)
            (own_entries (or_else section (VObject []))) ls.
Proof.
  unfold entry_lines. revert ls st'.
  induction (own_entries _) as [|kv entries IH]; intros ls st'; cbn [foldr].
  - intros [= <- <-]. by split.
  - intros (x & st1 & [Hx ->]%or_throw_ok & Hrun)%bind_ok.
    apply bind_ok in Hrun as (rest & st2 & [-> Hrest]%IH & [= <- <-]).
    split; [done |]. constructor; [by exists x | done].
Qed.

Lemma entry_lines_line before mid (entries : list (string * value)) ls k x :
  Forall2 (λ kv line, ∃ x, toString kv.2 = Some x ∧ line = before +:+ kv.1 +:+ mid +:+ x)
          entries ls →
  (k, VString x) ∈ entries →
  before +:+ k +:+ mid +:+ x ∈ ls.
Proof.
  induction 1 as [|kv line entries ls (y & Hy & ->) _ IH]; intros Hin.
  - by apply elem_of_nil in Hin.
  - apply elem_of_cons in Hin as [<- | Hin]; [| right; by apply IH].
    cbn in Hy. injection Hy as <-. by left.
Qed.

(** X20.  The README documentation of [create_documentation] is made
    from [package.json] alone.  For a [package.json] that is an object:
    the text opens with the project name as heading; the description
    section shows the [description], or [A Node.js project] when there is
    none or it is empty; every script is listed as
    [- `npm run <name>`: <command>] and every dependency and development
    dependency as [- `<name>`: <version>].  The one call made is the read of
    [package.json]. *)
Theorem project_documentation_contents (projectPath : string) st content st' text props os1 :
  let packageJsonPath := path_join projectPath "package.json" in
  fs_readFile packageJsonPath (os st) = (inr text, os1) →
  JSON_parse text = inr (VObject props) →
  generateProjectDocumentation projectPath st = (inr content, st') →
  st' = after st os1 [ReadFile packageJsonPath]
  ∧ (∀ name, lookup_prop "name" props = Some (VString name) →
       ∃ rest, content = "# " +:+ name +:+ nl +:+ rest)
  ∧ (∀ description,
       lookup_prop "description" props = Some (VString description) → description ≠ "" →
       contains content ("## Description" +:+ nl +:+ description +:+ nl))
  ∧ (lookup_prop "description" props = None ∨ lookup_prop "description" props = Some (VString "") →
       contains content ("## Description" +:+ nl +:+ "A Node.js project" +:+ nl))
  ∧ (∀ scripts name command,
       lookup_prop "scripts" props = Some (VObject scripts) →
       (name, VString command) ∈ scripts →
       contains content ("- `npm run " +:+ name +:+ "`: " +:+ command))
  ∧ (∀ section packages name version,
       section = "dependencies" ∨ section = "devDependencies" →
       lookup_prop section props = Some (VObject packages) →
       (name, VString version) ∈ packages →
       contains content ("- `" +:+ name +:+ "`: " +:+ version)).
Proof.
  intros packageJsonPath Hread Hparse Hrun.
  unfold generateProjectDocumentation in Hrun. fold packageJsonPath in Hrun.
  apply bind_ok in Hrun as (text0 & st1 & Hr & Hrun).
  unfold readFile in Hr. rewrite (syscall_returns _ _ _ _ _ Hread) in Hr.
  injection Hr as <- <-.
  apply bind_ok in Hrun as (packageJson & st2 & Hp & Hrun).
  unfold parse in Hp. rewrite Hparse in Hp. injection Hp as <- <-.
  apply bind_ok in Hrun as (vname & ? & [Hname ->]%or_throw_ok & Hrun).
  apply bind_ok in Hrun as (name & ? & [Hname' ->]%or_throw_ok & Hrun).
  apply bind_ok in Hrun as (vdesc & ? & [Hdesc ->]%or_throw_ok & Hrun).
  apply bind_ok in Hrun as (description & ? & [Hdesc' ->]%or_throw_ok & Hrun).
  apply bind_ok in Hrun as (vscripts & ? & [Hscripts ->]%or_throw_ok & Hrun).
  apply bind_ok in Hrun as (scripts & ? & [-> Hscripts']%entry_lines_ok & Hrun).
  apply bind_ok in Hrun as (vdeps & ? & [Hdeps ->]%or_throw_ok & Hrun).
  apply bind_ok in Hrun as (deps & ? & [-> Hdeps']%entry_lines_ok & Hrun).
  apply bind_ok in Hrun as (vdev & ? & [Hdev ->]%or_throw_ok & Hrun).
  apply bind_ok in Hrun as (dev & ? & [-> Hdev']%entry_lines_ok & Hrun).
  injection Hrun as <- <-.
  cbn [get] in Hname, Hdesc, Hscripts, Hdeps, Hdev.
  injection Hname as <-. injection Hdesc as <-. injection Hscripts as <-.
  injection Hdeps as <-. injection Hdev as <-.
  split; [done |]. split; [| split; [| split; [| split]]].
  - intros n Hn. rewrite Hn in Hname'. cbn in Hname'. injection Hname' as <-.
    unfold lines. rewrite join_cons2. eexists. by rewrite !string_app_assoc.
  - intros d Hd Hne. rewrite Hd in Hdesc'. cbn in Hdesc'.
    unfold or_else in Hdesc'. cbn in Hdesc'.
    rewrite bool_decide_eq_false_2 in Hdesc' by done. cbn in Hdesc'. injection Hdesc' as <-.
    unfold lines. rewrite !join_cons2. do 4 apply contains_app_r.
    exists "". eexists. by rewrite string_app_nil_l, !string_app_assoc.
  - intros Hnone.
    assert (description = "A Node.js project") as ->.
    { destruct Hnone as [Hd | Hd]; rewrite Hd in Hdesc'; cbn in Hdesc'; by injection Hdesc'. }
    unfold lines. rewrite !join_cons2. do 4 apply contains_app_r.
    exists "". eexists. by rewrite string_app_nil_l, !string_app_assoc.
  - intros table name' command Htable Hin. rewrite Htable in Hscripts'. cbn in Hscripts'.
    eapply contains_trans; [unfold lines; apply contains_join; do 11 right; by left |].
    apply contains_join. by apply (entry_lines_line _ _ _ _ _ _ Hscripts').
  - intros section packages name' version [-> | ->] Htable Hin.
    + rewrite Htable in Hdeps'. cbn in Hdeps'.
      eapply contains_trans; [unfold lines; apply contains_join; do 14 right; by left |].
      apply contains_join. by apply (entry_lines_line _ _ _ _ _ _ Hdeps').
    + rewrite Htable in Hdev'. cbn in Hdev'.
      eapply contains_trans; [unfold lines; apply contains_join; do 17 right; by left |].
      apply contains_join. by apply (entry_lines_line _ _ _ _ _ _ Hdev').
Qed.

End Project_documentation.

Lemma project_documentation_contents_witness :
  let packageJson :=
    [ ("name", VString "shop");
      ("scripts", VObject [("test", VString "vitest run")]);
      ("dependencies", VObject [("express", VString "^4.18.2")]) ] in
  let disk : Mem.fs :=
    {[ "/shop/package.json" := Mem.File (Mem.stringify (VObject packageJson)) ]} in
  let run := generateProjectDocumentation (rt := Mem.runtime) "/shop" (Mem.start disk) in
  ∃ content,
    run.1 = inr content
    ∧ calls run.2 = [ReadFile "/shop/package.json"]
    ∧ (∃ rest, content = "# shop" +:+ nl +:+ rest)
    ∧ contains content ("## Description" +:+ nl +:+ "A Node.js project" +:+ nl)
    ∧ contains content "- `npm run test`: vitest run"
    ∧ contains content "- `express`: ^4.18.2".
Proof.
  intros packageJson disk run.
  assert (Hsome : ∃ content, run.1 = inr content) by (vm_compute; by eexists).
  destruct Hsome as [content Hok]. exists content.
  destruct (project_documentation_contents (rt := Mem.runtime) "/shop" (Mem.start disk)
              content run.2 (Mem.stringify (VObject packageJson)) packageJson disk
              ltac:(apply outcome_eq; vm_compute; reflexivity)
              ltac:(vm_compute; reflexivity) (run_ok _ _ Hok))
    as (Hstate & Hname & _ & Hdescription & Hscripts & Hpackages).
  split; [exact Hok |]. split; [by rewrite Hstate |]. split; [exact (Hname "shop" eq_refl) |].
  split; [exact (Hdescription (or_introl eq_refl)) |]. split.
  - apply (Hscripts [("test", VString "vitest run")] "test" "vitest run" eq_refl). by left.
  - apply (Hpackages "dependencies" [("express", VString "^4.18.2")] "express" "^4.18.2"
             (or_introl eq_refl) eq_refl). by left.
Defined.

(** ** Prompts and resources *)
Section Prompts_and_resources.
Context {rt : Runtime}.

Lemma show_supplied (args : PromptArgs) key value :
  arg args key = Some value → show (Some (default [] args)) key = value.
Proof. intros Hvalue. unfold show. by rewrite arg_default, Hvalue. Qed.

(** X21.  A prompt request that supplies every required argument is
    answered with exactly one user message, and the text of that message
    quotes the value of each required argument; the server state is left
    as it was. *)
Theorem prompt_renders_arguments (name : string) (prompt : Prompt) (args : PromptArgs)
    (st : ServerState) :
  assoc name prompts = Some prompt →
  (∀ b, b ∈ arguments prompt → required b = true →
        ∃ c s, arg args (arg_name b) = Some (String c s)) →
  ∃ text,
    getPrompt name args st = (inr [UserText text], st)
    ∧ ∀ b value, b ∈ arguments prompt → required b = true →
        arg args (arg_name b) = Some value → contains text value.
Proof.
  intros Hprompt Hall.
  assert (Hvalid : validate_arguments (arguments prompt) args st = (inr tt, st)).
  { apply validate_arguments_pass. intros b Hin Hb. apply supplied_spec. by apply Hall. }
  unfold getPrompt, property. rewrite Hprompt. rewrite (bind_returns _ _ _ _ _ Hvalid).
  clear Hvalid Hall.
  pose proof (prompts_known _ _ Hprompt) as Hname. revert Hname Hprompt.
  unfold prompt_names. rewrite !elem_of_cons, elem_of_nil.
  intros [-> | [-> | [-> | [-> | [-> | []]]]]] [= <-];
    (eexists; split; [reflexivity |]);
    cbn [arguments]; intros b value Hb Hreq Hvalue;
    repeat (apply elem_of_cons in Hb as [-> | Hb]); try (by apply elem_of_nil in Hb);
    try discriminate Hreq; cbn [arg_name] in Hvalue;
    rewrite ?create_project_head_default; unfold lines, create_project_head;
    cbn [app]; rewrite ?join_cons2; unfold show; rewrite ?arg_default, Hvalue; cbn [default];
    rewrite ?string_app_assoc;
    repeat first [ apply contains_refl
                 | apply contains_app_l, contains_refl
                 | apply contains_app_r ].
Qed.

(** X22.  The listed prompts are the five declared ones, each stored
    under its own name, so every prompt of the list can be asked for by the
    name it shows; and a name that is neither a listed prompt nor a member
    of [Object.prototype] is answered with [InvalidParams]. *)
Theorem prompt_list_and_lookup :
  prompt_name <$> listPrompts = prompt_names
  ∧ NoDup (prompt_name <$> listPrompts)
  ∧ (∀ prompt, prompt ∈ listPrompts → assoc (prompt_name prompt) prompts = Some prompt)
  ∧ (∀ name prompt, assoc name prompts = Some prompt →
       prompt ∈ listPrompts ∧ prompt_name prompt = name)
  ∧ (∀ name args st,
       name ∉ prompt_name <$> listPrompts → name ∉ object_prototype_members →
       getPrompt name args st
       = (inl (McpError InvalidParams ("Prompt not found: " +:+ name)), st)).
Proof.
  split; [reflexivity |]. split; [apply (bool_decide_unpack _); by vm_compute |].
  split; [| split].
  - unfold listPrompts. cbn. intros prompt. rewrite !elem_of_cons, elem_of_nil.
    by intros [-> | [-> | [-> | [-> | [-> | []]]]]].
  - intros name prompt Hprompt. pose proof (prompts_known _ _ Hprompt) as Hname.
    revert Hname Hprompt. unfold prompt_names, listPrompts.
    rewrite !elem_of_cons, elem_of_nil.
    intros [-> | [-> | [-> | [-> | [-> | []]]]]] [= <-]; (split; [| reflexivity]); cbn;
      rewrite !elem_of_cons; tauto.
  - intros name args st Hname Hproto. by apply getPrompt_unknown.
Qed.

(** X23.  Reading a resource and asking for a prompt are read-only:
    whatever the request and its outcome, the server state after it is the
    state before it.  A URI that does not parse makes [readResource] throw
    the parser's error as it is, not a protocol error, and an id stored
    with the empty text reads as not found. *)
Theorem requests_are_read_only :
  (∀ uri st, (readResource uri st).2 = st)
  ∧ (∀ name args st, (getPrompt name args st).2 = st)
  ∧ (∀ uri message st,
       url_hostname uri = inl message →
       readResource uri st = (inl (NativeError message), st))
  ∧ (∀ uri id st,
       url_hostname uri = inr id →
       projectDocs st !! id = Some "" →
       readResource uri st
       = (inl (McpError MethodNotFound ("Documentation not found for " +:+ id)), st)).
Proof.
  split; [| split; [| split]].
  - intros uri st. unfold readResource. destruct (url_hostname uri) as [message|id]; [done |].
    autounfold with server_ops. by destruct (projectDocs st !! id) as [[|c text]|].
  - intros name args st. unfold getPrompt.
    destruct (property prompts name) as [[prompt|member]|]; [| | done].
    + unfold mbind, M_bind.
      assert (Hvalidate : ∀ declared,
                 (validate_arguments declared args st).2 = st).
      { induction declared as [|a declared IH]; [done |]. cbn.
        by destruct (required a && missing args (arg_name a)). }
      specialize (Hvalidate (arguments prompt)).
      destruct (validate_arguments (arguments prompt) args st) as [[e|[]] st1];
        cbn in Hvalidate; subst st1; [done |].
      unfold generatePromptMessages. by repeat case_bool_decide.
    + unfold mbind, M_bind. case_bool_decide; [| done].
      unfold generatePromptMessages. by repeat case_bool_decide.
  - intros uri message st Hhost. unfold readResource. by rewrite Hhost.
  - intros uri id st Hhost Hempty. unfold readResource. rewrite Hhost.
    autounfold with server_ops. by rewrite Hempty.
Qed.

End Prompts_and_resources.

Lemma prompt_renders_arguments_witness :
  let prompt := {| prompt_name := "git-commit";
                   prompt_description := "Generate a descriptive Git commit message";
                   arguments :=
                     [ {| arg_name := "changes";
                          arg_description := "Git diff or description of changes";
                          required := true |} ] |} in
  let args : PromptArgs := Some [("changes", "rename the parser module")] in
  assoc "git-commit" prompts = Some prompt
  ∧ ∃ text,
      getPrompt (rt := Mem.runtime) "git-commit" args (Mem.start ∅)
      = (inr [UserText text], Mem.start ∅)
      ∧ contains text "rename the parser module".
Proof.
  intros prompt args. split; [reflexivity |].
  destruct (prompt_renders_arguments (rt := Mem.runtime) "git-commit" prompt args (Mem.start ∅)
              eq_refl) as (text & Hrun & Hquoted).
  - intros b Hb _. apply list_elem_of_singleton in Hb as ->.
    by exists "r"%char, "ename the parser module".
  - exists text. split; [exact Hrun |].
    apply (Hquoted {| arg_name := "changes";
                      arg_description := "Git diff or description of changes";
                      required := true |}); [by left | reflexivity | reflexivity].
Defined.

(** ** More outcomes of [generate_component] and [update_tsconfig] *)
Section More_outcomes.
Context {rt : Runtime}.

(** X24.  [generate_component], once its path is accepted, writes the
    component file and then the documentation file, and does not undo the
    first write when the second fails: a failing first write gives
    [InternalError] with nothing written; a failing second write gives
    [InternalError] with the component file already written; two successful
    writes give the success message. *)
Theorem generate_component_outcomes (args : GenerateComponentArgs.t) st st1 :
  let name := GenerateComponentArgs.name args in
  let path := GenerateComponentArgs.path args in
  let filePath := path_join path (name +:+ ".tsx") in
  let docPath := path_join path (name +:+ ".md") in
  let component := WriteFile filePath (generateComponentContent args) in
  let documentation := WriteFile docPath (generateComponentDocumentation args) in
  validatePath path st = (inr tt, st1) →
  (∀ message os2,
     fs_writeFile filePath (generateComponentContent args) (os st1) = (inl message, os2) →
     handleGenerateComponent args st
     = (inl (McpError InternalError ("Failed to generate component: " +:+ message)),
        after st1 os2 [component]))
  ∧ (∀ os2 message os3,
       fs_writeFile filePath (generateComponentContent args) (os st1) = (inr tt, os2) →
       fs_writeFile docPath (generateComponentDocumentation args) os2 = (inl message, os3) →
       handleGenerateComponent args st
       = (inl (McpError InternalError ("Failed to generate component: " +:+ message)),
          after st1 os3 [component; documentation]))
  ∧ (∀ os2 os3,
       fs_writeFile filePath (generateComponentContent args) (os st1) = (inr tt, os2) →
       fs_writeFile docPath (generateComponentDocumentation args) os2 = (inr tt, os3) →
       handleGenerateComponent args st
       = (inr (TextContent ("Component " +:+ name +:+ " created successfully at " +:+ filePath)),
          after st1 os3 [component; documentation])).
Proof.
  intros name path filePath docPath component documentation Hvalidate.
  unfold handleGenerateComponent. fold name path filePath docPath.
  rewrite (bind_returns _ _ _ _ _ Hvalidate).
  autounfold with server_ops. unfold syscall, after, component, documentation.
  split; [| split].
  - intros message os2 Hw1. by rewrite Hw1.
  - intros os2 message os3 Hw1 Hw2. rewrite Hw1. cbn [os projectDocs calls]. rewrite Hw2.
    cbn. by rewrite <- app_assoc.
  - intros os2 os3 Hw1 Hw2. rewrite Hw1. cbn [os projectDocs calls]. rewrite Hw2.
    cbn. by rewrite <- app_assoc.
Qed.

(** X25.  The component type is compared with [functional] and nothing
    else: that exact word gives a function component typed [React.FC] and
    documented as functional; every other word gives a class that extends
    [Component], with a [render] method, documented as class-based.  Both
    end by exporting the component as default. *)
Theorem generate_component_kind (args : GenerateComponentArgs.t) :
  let name := GenerateComponentArgs.name args in
  let content := generateComponentContent args in
  let documentation := generateComponentDocumentation args in
  (GenerateComponentArgs.type args = "functional" →
     (∃ rest, content = "import React from 'react';" +:+ nl +:+ rest)
     ∧ contains content (nl +:+ "const " +:+ name +:+ ": React.FC")
     ∧ contains documentation ("## Overview" +:+ nl +:+ "A functional React component" +:+ nl))
  ∧ (GenerateComponentArgs.type args ≠ "functional" →
       (∃ rest, content = "import React, { Component } from 'react';" +:+ nl +:+ rest)
       ∧ contains content (nl +:+ "class " +:+ name +:+ " extends Component")
       ∧ contains content (nl +:+ "    render() {" +:+ nl)
       ∧ contains documentation
                  ("## Overview" +:+ nl +:+ "A class-based React component" +:+ nl))
  ∧ contains content (nl +:+ "export default " +:+ name +:+ ";" +:+ nl).
Proof.
  intros name content documentation. subst content documentation.
  unfold generateComponentContent, generateComponentDocumentation, lines. fold name.
  split; [| split].
  - intros Htype. rewrite !bool_decide_eq_true_2 by done.
    split; [| split].
    + rewrite join_cons2. by eexists.
    + rewrite !join_cons2. do 7 apply contains_app_r.
      destruct (GenerateComponentArgs.props args); rewrite !string_app_assoc;
        exists ""; eexists; rewrite string_app_nil_l, ?string_app_assoc; reflexivity.
    + rewrite !join_cons2. do 4 apply contains_app_r.
      exists "". eexists. rewrite string_app_nil_l, !string_app_assoc. reflexivity.
  - intros Htype. rewrite !bool_decide_eq_false_2 by done.
    split; [| split; [| split]].
    + rewrite join_cons2. by eexists.
    + rewrite !join_cons2. do 7 apply contains_app_r. rewrite !string_app_assoc.
      exists "". eexists. rewrite string_app_nil_l, ?string_app_assoc. reflexivity.
    + rewrite !join_cons2. do 9 apply contains_app_r.
      exists "". eexists. rewrite string_app_nil_l, ?string_app_assoc. reflexivity.
    + rewrite !join_cons2. do 4 apply contains_app_r.
      exists "". eexists. rewrite string_app_nil_l, !string_app_assoc. reflexivity.
  - case_bool_decide; rewrite !join_cons2.
    + do 23 apply contains_app_r.
      exists "". eexists. rewrite string_app_nil_l, ?string_app_assoc. reflexivity.
    + do 27 apply contains_app_r.
      exists "". eexists. rewrite string_app_nil_l, ?string_app_assoc. reflexivity.
Qed.

(** X26.  [update_tsconfig] on a [tsconfig.json] whose JSON is not an
    object: [null] and the primitives (a boolean, a number, a string) make
    the call fail with [InternalError] after the read, nothing being
    written; an array is written back as it was read, without the options,
    and the call reports success. *)
Theorem update_tsconfig_non_object (args : UpdateTsConfigArgs.t) st st1 text tsconfig os2 :
  let path := UpdateTsConfigArgs.path args in
  let tsconfigPath := path_join path "tsconfig.json" in
  validatePath path st = (inr tt, st1) →
  fs_readFile tsconfigPath (os st1) = (inr text, os2) →
  JSON_parse text = inr tsconfig →
  ((tsconfig = VNull ∨ (∃ b, tsconfig = VBool b) ∨ (∃ n, tsconfig = VNumber n)
    ∨ (∃ s, tsconfig = VString s)) →
     ∃ message,
       handleUpdateTsConfig args st
       = (inl (McpError InternalError
                 ("Failed to update TypeScript configuration: " +:+ message)),
          after st1 os2 [ReadFile tsconfigPath]))
  ∧ (∀ elements os3,
       tsconfig = VArray elements →
       fs_writeFile tsconfigPath (JSON_stringify (VArray elements)) os2 = (inr tt, os3) →
       handleUpdateTsConfig args st
       = (inr (TextContent ("Updated TypeScript configuration at " +:+ tsconfigPath)),
          after st1 os3 [ReadFile tsconfigPath;
                         WriteFile tsconfigPath (JSON_stringify (VArray elements))])).
Proof.
  intros path tsconfigPath Hvalidate Hread Hparse.
  assert (Hload : load_tsconfig tsconfigPath st1
                  = (inr tsconfig, after st1 os2 [ReadFile tsconfigPath])).
  { unfold load_tsconfig. apply try_catch_returns.
    erewrite bind_returns; [| by apply syscall_returns].
    unfold parse. by rewrite Hparse. }
  unfold handleUpdateTsConfig. fold path tsconfigPath.
  rewrite (bind_returns _ _ _ _ _ Hvalidate).
  split.
  - intros Hkind.
    destruct Hkind as [-> | [[b ->] | [[n ->] | [s ->]]]];
      (eexists; erewrite try_catch_throws;
         [reflexivity
         | rewrite (bind_returns _ _ _ _ _ Hload); apply bind_throws; reflexivity]).
  - intros elements os3 -> Hwrite. apply try_catch_returns.
    rewrite (bind_returns _ _ _ _ _ Hload).
    erewrite bind_returns; [| reflexivity].
    erewrite bind_returns; [| by apply syscall_returns].
    by rewrite after_after.
Qed.

End More_outcomes.

Lemma generate_component_outcomes_witness :
  let disk : Mem.fs := {[ "/src" := Mem.Dir; "/src/Counter.md" := Mem.Dir ]} in
  let args := counter_args "Counter" "/src" in
  let run := handleGenerateComponent (rt := Mem.runtime) args (Mem.start disk) in
  (validatePath (rt := Mem.runtime) "/src" (Mem.start disk)).1 = inr tt
  ∧ run.1 = inl (McpError InternalError
                   "Failed to generate component: EISDIR: illegal operation on a directory, open '/src/Counter.md'")
  ∧ os run.2 !! "/src/Counter.tsx" = Some (Mem.File (generateComponentContent args)).
Proof.
  intros disk args run.
  assert (Hvalidate : (validatePath (rt := Mem.runtime) "/src" (Mem.start disk)).1 = inr tt)
    by (vm_compute; reflexivity).
  destruct (generate_component_outcomes (rt := Mem.runtime) args (Mem.start disk) _
              (outcome_eq _ _ Hvalidate)) as (_ & Hhalfway & _).
  split; [exact Hvalidate |].
  unfold run. erewrite Hhalfway;
    [| apply outcome_eq; vm_compute; reflexivity | apply outcome_eq; vm_compute; reflexivity].
  split; [reflexivity |]. by vm_compute.
Defined.

Lemma generate_component_kind_witness :
  let args := {| GenerateComponentArgs.name := "Panel";
                 GenerateComponentArgs.path := "/src";
                 GenerateComponentArgs.type := "Functional";
                 GenerateComponentArgs.props := None |} in
  "Functional" ≠ "functional"
  ∧ contains (generateComponentContent args) (nl +:+ "class Panel extends Component")
  ∧ contains (generateComponentDocumentation args)
             ("## Overview" +:+ nl +:+ "A class-based React component" +:+ nl).
Proof.
  intros args.
  assert (Hother : GenerateComponentArgs.type args ≠ "functional") by discriminate.
  destruct (generate_component_kind args) as (_ & Hclass & _).
  destruct (Hclass Hother) as (_ & Hhead & _ & Hdoc).
  split; [exact Hother |]. split; [exact Hhead | exact Hdoc].
Defined.

Lemma update_tsconfig_non_object_witness :
  let disk : Mem.fs :=
    {[ "/proj" := Mem.Dir; "/proj/tsconfig.json" := Mem.File (Mem.stringify (VArray [])) ]} in
  let args := {| UpdateTsConfigArgs.path := "/proj";
                 UpdateTsConfigArgs.options := VObject [("strict", VBool true)] |} in
  let run := handleUpdateTsConfig (rt := Mem.runtime) args (Mem.start disk) in
  (validatePath (rt := Mem.runtime) "/proj" (Mem.start disk)).1 = inr tt
  ∧ Mem.parse (Mem.stringify (VArray [])) = inr (VArray [])
  ∧ run.1 = inr (TextContent "Updated TypeScript configuration at /proj/tsconfig.json")
  ∧ last (calls run.2) = Some (WriteFile "/proj/tsconfig.json" (Mem.stringify (VArray []))).
Proof.
  intros disk args run.
  assert (Hvalidate : (validatePath (rt := Mem.runtime) "/proj" (Mem.start disk)).1 = inr tt)
    by (vm_compute; reflexivity).
  assert (Hparse : Mem.parse (Mem.stringify (VArray [])) = inr (VArray []))
    by (vm_compute; reflexivity).
  destruct (update_tsconfig_non_object (rt := Mem.runtime) args (Mem.start disk) _
              (Mem.stringify (VArray [])) (VArray []) disk
              (outcome_eq _ _ Hvalidate)
              ltac:(apply outcome_eq; vm_compute; reflexivity) Hparse) as (_ & Harray).
  split; [exact Hvalidate |]. split; [exact Hparse |].
  unfold run. erewrite (Harray [] _ eq_refl); [| apply outcome_eq; vm_compute; reflexivity].
  split; [reflexivity |]. cbn [snd after calls]. by rewrite last_app.
Defined.

(** ** The model at work

    Closed runs of the handlers on the reference runtime. *)
Section Examples.
#[local] Existing Instance Mem.runtime.

Example trim_example : trim "  strict mode   " = "strict mode".
Proof. reflexivity. Qed.

Example split_example : split "," "typescript,, docker," = ["typescript"; ""; " docker"; ""].
Proof. reflexivity. Qed.

Example getExampleValue_ignores_case :
  getExampleValue "Number" = "42" ∧ getExampleValue "Date" = "undefined".
Proof. by vm_compute. Qed.

(** The pattern skips an interface without a body and captures the text
    between the braces of the first one that has a body. *)
Example match_props_example :
  PropsPattern.match_props "interface AProps {} interface BProps { id: string; }"
  = Some " id: string; ".
Proof. by vm_compute. Qed.

Example json_example :
  Mem.parse (Mem.stringify (tsConfig "react")) = inr (tsConfig "react")
  ∧ Mem.parse (Mem.stringify (tsConfig "node"))
    = inr (VObject
             [ ("compilerOptions",
                VObject
                  [ ("target", VString "es2020");
                    ("module", VString "commonjs");
                    ("outDir", VString "./dist");
                    ("rootDir", VString "./src");
                    ("strict", VBool true);
                    ("esModuleInterop", VBool true);
                    ("skipLibCheck", VBool true);
                    ("forceConsistentCasingInFileNames", VBool true) ]);
               ("include", VArray [VString "src/**/*"]);
               ("exclude", VArray [VString "node_modules"; VString "dist"]) ]).
Proof. by vm_compute. Qed.

(** [generate_component], then [create_documentation] for that component,
    then a read of the stored documentation: the properties found by the
    pattern in the generated component come back to the client. *)
Example component_documentation_pipeline :
  let generated := handleGenerateComponent (counter_args "Counter" "/src") (Mem.start ∅) in
  let documented :=
    handleCreateDocumentation
      {| CreateDocumentationArgs.path := "/src";
         CreateDocumentationArgs.type := "component";
         CreateDocumentationArgs.name := Some "Counter" |} generated.2 in
  documented.1 = inr (TextContent "Documentation created successfully at /src/Counter.md")
  ∧ (λ read, match read with
             | inr contents =>
                 has_substring ("```typescript" +:+ nl +:+ "count: number;" +:+ nl +:+ "```")
                               (contents_text contents)
             | inl _ => false
             end) (readResource "docs://src" documented.2).1 = true.
Proof. by vm_compute. Qed.

End Examples.
